(** * IonControl: the script handler and the instrument adapters

    A shallow embedding of [scripting/ScriptHandler.py], of
    [externalParameter/StandardExternalParameter.py] and of
    [pulser/ServerProcess.py].

    Python objects become records, dictionaries become [gmap]s, or the
    list of their items where the code iterates over them, Python
    integers become [Z].  A method of the handler is a computation in a
    state-and-exception monad over a [World]: the Script entity, the
    handler's own dictionaries, the GUI objects it talks to, the mutex,
    the threads blocked on each wait condition and the log of every
    observable call, in program order. *)

From stdpp Require Import gmap strings list pretty.
From Stdlib Require Import ZArith Lia.

(** ** Exceptions and results *)

(** A Python exception: its class and what [str(e)] gives. *)
Record exn := mkExn { exn_class : string; exn_str : string }.

Definition ScriptException (message : string) : exn :=
  mkExn "ScriptException" message.
Definition ValueError (message : string) : exn := mkExn "ValueError" message.
Definition KeyError (key : string) : exn :=
  mkExn "KeyError" ("'" +:+ key +:+ "'").

Inductive Res (A : Type) : Type :=
| Ok (a : A)
| Raise (e : exn).
Arguments Ok {A} a.
Arguments Raise {A} e.

(** ** The wait conditions of the Script entity *)

Inductive cv : Set :=
| guiWait | pauseWait | scanWait | dataWait | analysisWait | genericWait
| allDataWait.

Global Instance cv_eq_dec : EqDecision cv.
Proof. solve_decision. Defined.

Inductive level : Set := DEBUG | INFO | WARNING | ERROR.

(** A thread is named by a number. *)
Definition thread : Set := nat.

(** ** Observable calls, in program order *)

Inductive event : Type :=
| EvLock                                     (* QMutexLocker acquires script.mutex *)
| EvUnlock                                   (* the locker's scope ends *)
| EvWakeAll (c : cv) (woken : list thread)   (* c.wakeAll(), and whom it released *)
| EvAssign (attribute : string)              (* self.script.attribute = ... *)
| EvLog (l : level) (message : string)       (* logger.error / debug / info *)
| EvPrintExc                                 (* traceback.print_exc() *)
| EvConsole (message : string) (error : bool) (color : string)
                                             (* scriptingWindow.writeToConsole *)
| EvGui (call : string) (arg : string).      (* any other call into a GUI object *)

Global Instance level_eq_dec : EqDecision level.
Proof. solve_decision. Defined.
Global Instance event_eq_dec : EqDecision event.
Proof. solve_decision. Defined.

(** *** Locking discipline of a run of events

    Replaying the events from a mutex that is held or not, [unguarded]
    lists the events picked by [watch] that happen while the mutex is not
    held. *)
Fixpoint unguarded (watch : event -> bool) (held : bool) (l : list event)
    : list event :=
  match l with
  | [] => []
  | EvLock :: rest => unguarded watch true rest
  | EvUnlock :: rest => unguarded watch false rest
  | e :: rest =>
      (if watch e && negb held then [e] else []) ++ unguarded watch held rest
  end.

Definition is_wake (e : event) : bool :=
  match e with EvWakeAll _ _ => true | _ => false end.

Definition is_assign (e : event) : bool :=
  match e with EvAssign _ => true | _ => false end.

(** Every [wakeAll] of the run happens under the mutex. *)
Definition wakes_guarded (held : bool) (l : list event) : Prop :=
  unguarded is_wake held l = [].

(** Every write to the Script entity happens under the mutex. *)
Definition assigns_guarded (held : bool) (l : list event) : Prop :=
  unguarded is_assign held l = [].

(** How often [c.wakeAll()] released thread [t] in a run of events. *)
Fixpoint wakeups (t : thread) (c : cv) (l : list event) : nat :=
  match l with
  | [] => 0
  | EvWakeAll c' woken :: rest =>
      (if decide (c' = c /\ t ∈ woken) then 1 else 0) + wakeups t c rest
  | _ :: rest => wakeups t c rest
  end.

(** ** Shutter words

    [pulser.shutter] is a Python integer, manipulated with [<<], [>>],
    [&], [|] and [~].  On [Z] these are [Z.shiftl], [Z.shiftr], [Z.land],
    [Z.lor] and [Z.lnot]; a negative shift count raises [ValueError]. *)

Definition negative_shift : exn := ValueError "negative shift count".

Definition py_lshift (a n : Z) : Res Z :=
  if decide (n < 0)%Z then Raise negative_shift else Ok (Z.shiftl a n).

Definition py_rshift (a n : Z) : Res Z :=
  if decide (n < 0)%Z then Raise negative_shift else Ok (Z.shiftr a n).

(** The new word of [onSetShutter]:
    [mask = 1 << index;
     shutter = (shutter & ~mask) | ((value << index) & mask)]. *)
Definition set_shutter_bit (shutter index : Z) (value : bool) : Res Z :=
  match py_lshift 1 index with
  | Raise e => Raise e
  | Ok mask =>
      match py_lshift (Z.b2z value) index with
      | Raise e => Raise e
      | Ok v => Ok (Z.lor (Z.land shutter (Z.lnot mask)) (Z.land v mask))
      end
  end.

(** The value of [getShutter]: [bool(shutter >> index & 1)]. *)
Definition get_shutter_bit (shutter index : Z) : Res bool :=
  match py_rshift shutter index with
  | Raise e => Raise e
  | Ok s => Ok (negb (Z.land s 1 =? 0)%Z)
  end.

(** ** Dictionaries whose order matters

    A Python dict keeps its keys in the order in which they were first
    inserted: assigning to a key it has keeps the key in its place,
    assigning to a new key puts it last, [pop] takes it out.  A dict that
    the code iterates over is the list of its items in that order. *)

Record odict (V : Type) : Type := Odict { items : list (string * V) }.
Arguments Odict {V} items.
Arguments items {V} _.

(** [d[key]], as an option *)
Fixpoint items_lookup {V : Type} (key : string) (l : list (string * V))
    : option V :=
  match l with
  | [] => None
  | (k, v) :: rest => if decide (k = key) then Some v else items_lookup key rest
  end.

(** [d[key] = value] *)
Fixpoint items_insert {V : Type} (key : string) (value : V)
    (l : list (string * V)) : list (string * V) :=
  match l with
  | [] => [(key, value)]
  | (k, v) :: rest =>
      if decide (k = key) then (key, value) :: rest
      else (k, v) :: items_insert key value rest
  end.

(** [d.pop(key)] *)
Definition items_delete {V : Type} (key : string) (l : list (string * V))
    : list (string * V) :=
  filter (fun kv => kv.1 <> key) l.

#[global] Instance odict_lookup {V : Type} : Lookup string V (odict V) :=
  fun key d => items_lookup key (items d).
#[global] Instance odict_insert {V : Type} : Insert string V (odict V) :=
  fun key value d => Odict (items_insert key value (items d)).
#[global] Instance odict_delete {V : Type} : Delete string (odict V) :=
  fun key d => Odict (items_delete key (items d)).
#[global] Instance odict_empty {V : Type} : Empty (odict V) := Odict [].

(** [list(d.values())] *)
Definition dict_values {V : Type} (d : odict V) : list V := (items d).*2.

(** ** Python values

    Python floats are kept abstract: the handler only stores them, wraps
    them in quantities and formats them into messages. *)

Class PyFloat := {
  float : Type;
  str_float : float -> string      (* what [format] prints for a float *)
}.

Section Values.
Context `{PyFloat}.

(** [modules.quantity.Q(value, unit)]: a magnitude and a unit string. *)
Record quantity := Q { q_m : float; q_u : string }.

Inductive pyval : Type :=
| PNone
| PBool (b : bool)
| PInt (z : Z)
| PFloat (f : float)
| PStr (s : string)
| PQuantity (q : quantity)
| PException (e : exn)
| PObject (id : nat).      (* any other object: a dict of results, an array *)

(** A [PlottedTrace] made by [onCreateTrace], with the attributes the
    handler reads and writes. *)
Record PlottedTrace := mkPlottedTrace {
  tr_name : string;
  tr_windowName : string;
  tr_xAxisUnit : string;
  tr_xAxisLabel : string;
  tr_collection_name : string;
  tr_comment : string;
  tr_x : list float;
  tr_y : list float
}.

Definition set_xy (x y : list float) (t : PlottedTrace) : PlottedTrace :=
  {| tr_name := tr_name t; tr_windowName := tr_windowName t;
     tr_xAxisUnit := tr_xAxisUnit t; tr_xAxisLabel := tr_xAxisLabel t;
     tr_collection_name := tr_collection_name t;
     tr_comment := tr_comment t; tr_x := x; tr_y := y |}.

(** *** The Script entity *)
Record Script := mkScript {
  stopped : bool;
  paused : bool;
  waitOnScan : bool;
  repeat : bool;
  scanIsRunning : bool;
  analysisReady : bool;
  dataReady : bool;
  allDataReady : bool;
  exception : option exn;
  data : pyval;
  allData : pyval;
  analysisResults : pyval;
  genericResult : pyval;
  shortname : string;
  isRunning : bool
}.

(** *** The handler's own attributes *)
Record Handler := mkHandler {
  scriptTraces : odict PlottedTrace;
  traceAlreadyCreated : gmap string bool;
  globalVariablesRevertDict : gmap string quantity;
  namedTraceList : gset string
}.

(** *** The GUI objects the handler reaches through [experimentUi] *)
Record Ui := mkUi {
  globalDict : gmap string quantity;     (* globalVariablesUi.globalDict *)
  shutter : Z;                           (* pulser.shutter *)
  scanNames : list string;               (* scanControlWidget.comboBox *)
  scanSettingsName : string;             (* scanControlWidget.settingsName *)
  evaluationNames : list string;         (* evaluationControlWidget.comboBox *)
  evaluationSettingsName : string;
  analysisDefinitionDict : gset string;  (* analysisControlWidget *)
  currentAnalysisName : string;
  plotDict : gset string                 (* scanExperiment.plotDict *)
}.

Record World := mkWorld {
  script : Script;
  self : Handler;
  ui : Ui;
  mutexHeld : bool;                      (* script.mutex *)
  waiters : list (thread * cv);          (* who is blocked in c.wait(mutex) *)
  log : list event                       (* oldest first *)
}.

(** *** Attribute assignment, one function per attribute that is written *)

Definition set_stopped (v : bool) (r : Script) : Script :=
  {| stopped := v; paused := paused r; waitOnScan := waitOnScan r; repeat
  := repeat r; scanIsRunning := scanIsRunning r; analysisReady :=
  analysisReady r; dataReady := dataReady r; allDataReady := allDataReady
  r; exception := exception r; data := data r; allData := allData r;
  analysisResults := analysisResults r; genericResult := genericResult r;
  shortname := shortname r; isRunning := isRunning r |}.

Definition set_paused (v : bool) (r : Script) : Script :=
  {| stopped := stopped r; paused := v; waitOnScan := waitOnScan r; repeat
  := repeat r; scanIsRunning := scanIsRunning r; analysisReady :=
  analysisReady r; dataReady := dataReady r; allDataReady := allDataReady
  r; exception := exception r; data := data r; allData := allData r;
  analysisResults := analysisResults r; genericResult := genericResult r;
  shortname := shortname r; isRunning := isRunning r |}.

Definition set_waitOnScan (v : bool) (r : Script) : Script :=
  {| stopped := stopped r; paused := paused r; waitOnScan := v; repeat :=
  repeat r; scanIsRunning := scanIsRunning r; analysisReady :=
  analysisReady r; dataReady := dataReady r; allDataReady := allDataReady
  r; exception := exception r; data := data r; allData := allData r;
  analysisResults := analysisResults r; genericResult := genericResult r;
  shortname := shortname r; isRunning := isRunning r |}.

Definition set_repeat (v : bool) (r : Script) : Script :=
  {| stopped := stopped r; paused := paused r; waitOnScan := waitOnScan r;
  repeat := v; scanIsRunning := scanIsRunning r; analysisReady :=
  analysisReady r; dataReady := dataReady r; allDataReady := allDataReady
  r; exception := exception r; data := data r; allData := allData r;
  analysisResults := analysisResults r; genericResult := genericResult r;
  shortname := shortname r; isRunning := isRunning r |}.

Definition set_scanIsRunning (v : bool) (r : Script) : Script :=
  {| stopped := stopped r; paused := paused r; waitOnScan := waitOnScan r;
  repeat := repeat r; scanIsRunning := v; analysisReady := analysisReady
  r; dataReady := dataReady r; allDataReady := allDataReady r; exception
  := exception r; data := data r; allData := allData r; analysisResults :=
  analysisResults r; genericResult := genericResult r; shortname :=
  shortname r; isRunning := isRunning r |}.

Definition set_analysisReady (v : bool) (r : Script) : Script :=
  {| stopped := stopped r; paused := paused r; waitOnScan := waitOnScan r;
  repeat := repeat r; scanIsRunning := scanIsRunning r; analysisReady :=
  v; dataReady := dataReady r; allDataReady := allDataReady r; exception
  := exception r; data := data r; allData := allData r; analysisResults :=
  analysisResults r; genericResult := genericResult r; shortname :=
  shortname r; isRunning := isRunning r |}.

Definition set_dataReady (v : bool) (r : Script) : Script :=
  {| stopped := stopped r; paused := paused r; waitOnScan := waitOnScan r;
  repeat := repeat r; scanIsRunning := scanIsRunning r; analysisReady :=
  analysisReady r; dataReady := v; allDataReady := allDataReady r;
  exception := exception r; data := data r; allData := allData r;
  analysisResults := analysisResults r; genericResult := genericResult r;
  shortname := shortname r; isRunning := isRunning r |}.

Definition set_allDataReady (v : bool) (r : Script) : Script :=
  {| stopped := stopped r; paused := paused r; waitOnScan := waitOnScan r;
  repeat := repeat r; scanIsRunning := scanIsRunning r; analysisReady :=
  analysisReady r; dataReady := dataReady r; allDataReady := v; exception
  := exception r; data := data r; allData := allData r; analysisResults :=
  analysisResults r; genericResult := genericResult r; shortname :=
  shortname r; isRunning := isRunning r |}.

Definition set_exception (v : option exn) (r : Script) : Script :=
  {| stopped := stopped r; paused := paused r; waitOnScan := waitOnScan r;
  repeat := repeat r; scanIsRunning := scanIsRunning r; analysisReady :=
  analysisReady r; dataReady := dataReady r; allDataReady := allDataReady
  r; exception := v; data := data r; allData := allData r; analysisResults
  := analysisResults r; genericResult := genericResult r; shortname :=
  shortname r; isRunning := isRunning r |}.

Definition set_data (v : pyval) (r : Script) : Script :=
  {| stopped := stopped r; paused := paused r; waitOnScan := waitOnScan r;
  repeat := repeat r; scanIsRunning := scanIsRunning r; analysisReady :=
  analysisReady r; dataReady := dataReady r; allDataReady := allDataReady
  r; exception := exception r; data := v; allData := allData r;
  analysisResults := analysisResults r; genericResult := genericResult r;
  shortname := shortname r; isRunning := isRunning r |}.

Definition set_allData (v : pyval) (r : Script) : Script :=
  {| stopped := stopped r; paused := paused r; waitOnScan := waitOnScan r;
  repeat := repeat r; scanIsRunning := scanIsRunning r; analysisReady :=
  analysisReady r; dataReady := dataReady r; allDataReady := allDataReady
  r; exception := exception r; data := data r; allData := v;
  analysisResults := analysisResults r; genericResult := genericResult r;
  shortname := shortname r; isRunning := isRunning r |}.

Definition set_analysisResults (v : pyval) (r : Script) : Script :=
  {| stopped := stopped r; paused := paused r; waitOnScan := waitOnScan r;
  repeat := repeat r; scanIsRunning := scanIsRunning r; analysisReady :=
  analysisReady r; dataReady := dataReady r; allDataReady := allDataReady
  r; exception := exception r; data := data r; allData := allData r;
  analysisResults := v; genericResult := genericResult r; shortname :=
  shortname r; isRunning := isRunning r |}.

Definition set_genericResult (v : pyval) (r : Script) : Script :=
  {| stopped := stopped r; paused := paused r; waitOnScan := waitOnScan r;
  repeat := repeat r; scanIsRunning := scanIsRunning r; analysisReady :=
  analysisReady r; dataReady := dataReady r; allDataReady := allDataReady
  r; exception := exception r; data := data r; allData := allData r;
  analysisResults := analysisResults r; genericResult := v; shortname :=
  shortname r; isRunning := isRunning r |}.

Definition set_isRunning (v : bool) (r : Script) : Script :=
  {| stopped := stopped r; paused := paused r; waitOnScan := waitOnScan r;
  repeat := repeat r; scanIsRunning := scanIsRunning r; analysisReady :=
  analysisReady r; dataReady := dataReady r; allDataReady := allDataReady
  r; exception := exception r; data := data r; allData := allData r;
  analysisResults := analysisResults r; genericResult := genericResult r;
  shortname := shortname r; isRunning := v |}.

Definition set_scriptTraces (v : odict PlottedTrace) (r : Handler) : Handler :=
  {| scriptTraces := v; traceAlreadyCreated := traceAlreadyCreated r;
  globalVariablesRevertDict := globalVariablesRevertDict r; namedTraceList
  := namedTraceList r |}.

Definition set_traceAlreadyCreated (v : gmap string bool) (r : Handler) : Handler :=
  {| scriptTraces := scriptTraces r; traceAlreadyCreated := v;
  globalVariablesRevertDict := globalVariablesRevertDict r; namedTraceList
  := namedTraceList r |}.

Definition set_globalVariablesRevertDict (v : gmap string quantity) (r : Handler) : Handler :=
  {| scriptTraces := scriptTraces r; traceAlreadyCreated :=
  traceAlreadyCreated r; globalVariablesRevertDict := v; namedTraceList :=
  namedTraceList r |}.

Definition set_namedTraceList (v : gset string) (r : Handler) : Handler :=
  {| scriptTraces := scriptTraces r; traceAlreadyCreated :=
  traceAlreadyCreated r; globalVariablesRevertDict :=
  globalVariablesRevertDict r; namedTraceList := v |}.

Definition set_globalDict (v : gmap string quantity) (r : Ui) : Ui :=
  {| globalDict := v; shutter := shutter r; scanNames := scanNames r;
  scanSettingsName := scanSettingsName r; evaluationNames :=
  evaluationNames r; evaluationSettingsName := evaluationSettingsName r;
  analysisDefinitionDict := analysisDefinitionDict r; currentAnalysisName
  := currentAnalysisName r; plotDict := plotDict r |}.

Definition set_shutter (v : Z) (r : Ui) : Ui :=
  {| globalDict := globalDict r; shutter := v; scanNames := scanNames r;
  scanSettingsName := scanSettingsName r; evaluationNames :=
  evaluationNames r; evaluationSettingsName := evaluationSettingsName r;
  analysisDefinitionDict := analysisDefinitionDict r; currentAnalysisName
  := currentAnalysisName r; plotDict := plotDict r |}.

Definition set_scanSettingsName (v : string) (r : Ui) : Ui :=
  {| globalDict := globalDict r; shutter := shutter r; scanNames :=
  scanNames r; scanSettingsName := v; evaluationNames := evaluationNames
  r; evaluationSettingsName := evaluationSettingsName r;
  analysisDefinitionDict := analysisDefinitionDict r; currentAnalysisName
  := currentAnalysisName r; plotDict := plotDict r |}.

Definition set_evaluationSettingsName (v : string) (r : Ui) : Ui :=
  {| globalDict := globalDict r; shutter := shutter r; scanNames :=
  scanNames r; scanSettingsName := scanSettingsName r; evaluationNames :=
  evaluationNames r; evaluationSettingsName := v; analysisDefinitionDict
  := analysisDefinitionDict r; currentAnalysisName := currentAnalysisName
  r; plotDict := plotDict r |}.

Definition set_currentAnalysisName (v : string) (r : Ui) : Ui :=
  {| globalDict := globalDict r; shutter := shutter r; scanNames :=
  scanNames r; scanSettingsName := scanSettingsName r; evaluationNames :=
  evaluationNames r; evaluationSettingsName := evaluationSettingsName r;
  analysisDefinitionDict := analysisDefinitionDict r; currentAnalysisName
  := v; plotDict := plotDict r |}.

Definition set_script (v : Script) (r : World) : World :=
  {| script := v; self := self r; ui := ui r; mutexHeld := mutexHeld r;
  waiters := waiters r; log := log r |}.

Definition set_self (v : Handler) (r : World) : World :=
  {| script := script r; self := v; ui := ui r; mutexHeld := mutexHeld r;
  waiters := waiters r; log := log r |}.

Definition set_ui (v : Ui) (r : World) : World :=
  {| script := script r; self := self r; ui := v; mutexHeld := mutexHeld
  r; waiters := waiters r; log := log r |}.

Definition set_mutexHeld (v : bool) (r : World) : World :=
  {| script := script r; self := self r; ui := ui r; mutexHeld := v;
  waiters := waiters r; log := log r |}.

Definition set_waiters (v : list (thread * cv)) (r : World) : World :=
  {| script := script r; self := self r; ui := ui r; mutexHeld :=
  mutexHeld r; waiters := v; log := log r |}.

Definition set_log (v : list event) (r : World) : World :=
  {| script := script r; self := self r; ui := ui r; mutexHeld :=
  mutexHeld r; waiters := waiters r; log := v |}.

Definition upd_script (f : Script -> Script) (w : World) : World :=
  set_script (f (script w)) w.
Definition upd_self (f : Handler -> Handler) (w : World) : World :=
  set_self (f (self w)) w.
Definition upd_ui (f : Ui -> Ui) (w : World) : World :=
  set_ui (f (ui w)) w.

(** ** The monad of handler code: state and exceptions *)

Definition M (A : Type) : Type := World -> Res A * World.

Definition ret {A} (a : A) : M A := fun w => (Ok a, w).

Definition raise {A} (e : exn) : M A := fun w => (Raise e, w).

Definition bind {A B} (m : M A) (k : A -> M B) : M B :=
  fun w => match m w with
           | (Ok a, w') => k a w'
           | (Raise e, w') => (Raise e, w')
           end.

Definition get : M World := fun w => (Ok w, w).

Definition modify (f : World -> World) : M unit := fun w => (Ok tt, f w).

Definition lift {A} (r : Res A) : M A := fun w => (r, w).

Definition emit (e : event) : M unit :=
  modify (fun w => set_log (log w ++ [e]) w).

(** [self.script.attribute = value] *)
Definition assign (attribute : string) (f : Script -> Script) : M unit :=
  bind (modify (upd_script f)) (fun _ => emit (EvAssign attribute)).

(** [try: body  except Exception as e: handler e] *)
Definition try_except {A} (body : M A) (handler : exn -> M A) : M A :=
  fun w => match body w with
           | (Ok a, w') => (Ok a, w')
           | (Raise e, w') => handler e w'
           end.

(** [try: body  finally: fin]: [fin] runs on both paths; an exception
    of [fin] replaces the outcome of [body]. *)
Definition try_finally {A} (body : M A) (fin : M unit) : M A :=
  fun w => match body w with
           | (r, w') =>
               match fin w' with
               | (Ok _, w'') => (r, w'')
               | (Raise e, w'') => (Raise e, w'')
               end
           end.

Definition lock : M unit :=
  bind (emit EvLock) (fun _ => modify (set_mutexHeld true)).

Definition unlock : M unit :=
  bind (emit EvUnlock) (fun _ => modify (set_mutexHeld false)).

(** [with QtCore.QMutexLocker(self.script.mutex): body] *)
Definition with_lock {A} (body : M A) : M A :=
  bind lock (fun _ => try_finally body unlock).

(** Who is blocked on [c], in the order they went to sleep. *)
Definition waiting_on (c : cv) (ws : list (thread * cv)) : list thread :=
  (filter (fun p => p.2 = c) ws).*1.

(** [c.wakeAll()]: every thread blocked on [c] is released, the
    others stay blocked. *)
Definition wakeAll (c : cv) : M unit :=
  fun w =>
    (Ok tt,
     set_log (log w ++ [EvWakeAll c (waiting_on c (waiters w))])
       (set_waiters (filter (fun p => p.2 <> c) (waiters w)) w)).

(** What a computation appended to the log. *)
Definition events {A} (m : M A) (w : World) : list event :=
  drop (length (log w)) (log (m w).2).
End Values.

Declare Scope monad_scope.
Delimit Scope monad_scope with monad.
Notation "x <- c1 ;; c2" := (bind c1 (fun x => c2))
  (at level 100, c1 at next level, c2 at level 200, right associativity)
  : monad_scope.
Notation "c1 ;; c2" := (bind c1 (fun _ => c2))
  (at level 100, c2 at level 200, right associativity) : monad_scope.

(** What the model leaves to the Python runtime: how a tuple of
    arguments prints, and what calling [getattr(self, funcname)]
    on the arguments does for the attributes of the handler that are not embedded here
    (it raises [AttributeError] when there is none, [TypeError] when the
    arguments do not fit, or runs that method). *)
Class Runtime `{PyFloat} := {
  repr_args : list pyval -> string;
  other_attr : string -> list pyval -> list (string * pyval) -> M pyval
}.

(** ** String formatting *)

Definition str_bool (b : bool) : string := if b then "True" else "False".

Definition str_int (z : Z) : string := pretty z.

Definition newline : string := String (Ascii.ascii_of_nat 10) EmptyString.

Fixpoint join (sep : string) (l : list string) : string :=
  match l with
  | [] => EmptyString
  | [x] => x
  | x :: rest => x +:+ sep +:+ join sep rest
  end.

(** The truth value of a message: [None] and the empty string are false. *)
Definition truthy (message : option string) : bool :=
  match message with
  | None => false
  | Some m => negb (bool_decide (m = EmptyString))
  end.

Definition str_message (message : option string) : string :=
  default EmptyString message.

(** [QComboBox.findText(text)]: the index of the first item equal to
    [text], or -1. *)
Fixpoint findText (items : list string) (text : string) : Z :=
  match items with
  | [] => -1
  | item :: rest =>
      if decide (item = text) then 0
      else let i := findText rest text in
           if decide (i = -1)%Z then (-1)%Z else (i + 1)%Z
  end.

Section ScriptHandler.
Context `{Runtime}.
Local Open Scope monad_scope.

Definition str_list (l : list float) : string :=
  "[" +:+ join ", " (str_float <$> l) +:+ "]".

(** [writeToConsole(message, error, color)] *)
Definition writeToConsole (message : string) (error : bool)
    (color : string) : M unit :=
  emit (EvConsole message error color).

(** *** The decorator [scriptCommand] *)
Definition baseScriptCommand (func : M (bool * option string)) : M unit :=
  try_finally
    (try_except
       (r <- func ;;
        let error := r.1 in
        let message := r.2 in
        if error && truthy message then
          emit (EvLog ERROR (str_message message)) ;;
          writeToConsole (str_message message) true EmptyString ;;
          raise (ScriptException (str_message message))
        else if error && negb (truthy message) then
          raise (ScriptException EmptyString)
        else if negb error && truthy message then
          emit (EvLog DEBUG (str_message message)) ;;
          writeToConsole (str_message message) false EmptyString
        else ret tt)
       (fun e =>
          with_lock
            (assign "exception" (set_exception (Some e)) ;;
             emit EvPrintExc ;;
             emit (EvLog ERROR "None"))))
    (wakeAll guiWait).

Definition scriptCommand (func : M (bool * option string)) : M unit :=
  baseScriptCommand func.

(** Modelled from the spec: [globalVariablesUi.model.update] is not in
    src; "set global 'name' to 'value, unit'" stores the quantity under
    the name. *)
Definition model_update (name : string) (magValue : quantity) : M unit :=
  modify (upd_ui (fun u =>
    set_globalDict (<[name := magValue]> (globalDict u)) u)) ;;
  emit (EvGui "globalVariablesUi.model.update" name).

(** *** [onSetGlobal] *)
Definition onSetGlobal (name : string) (value : float) (unit : string)
    : M (bool * option string) :=
  let magValue := Q value unit in
  w <- get ;;
  let doesNotExist := bool_decide (globalDict (ui w) !! name = None) in
  if doesNotExist then
    ret (true, Some ("Global variable " +:+ name +:+ " does not exist."))
  else
    (if bool_decide (globalVariablesRevertDict (self w) !! name = None)
     then
       match globalDict (ui w) !! name with
       | Some original =>
           modify (upd_self (fun h =>
             set_globalVariablesRevertDict
               (<[name := original]> (globalVariablesRevertDict h)) h))
       | None => raise (KeyError name)
       end
     else ret tt) ;;
    model_update name magValue ;;
    ret (false, Some ("Global variable " +:+ name +:+ " set to "
                       +:+ str_float value +:+ " " +:+ unit)).

(** *** [onSetShutter] and [getShutter] *)
Definition onSetShutter (index : Z) (value : bool)
    : M (bool * option string) :=
  w <- get ;;
  shutter' <- lift (set_shutter_bit (shutter (ui w)) index value) ;;
  modify (upd_ui (set_shutter shutter')) ;;
  ret (false, Some ("Set shutter " +:+ str_int index +:+ " to "
                     +:+ str_bool value)).

Definition getShutter (index : Z) : M bool :=
  w <- get ;;
  lift (get_shutter_bit (shutter (ui w)) index).

(** *** [getGlobal] *)
Definition getGlobal (name : string) : M pyval :=
  w <- get ;;
  match globalDict (ui w) !! name with
  | Some q => ret (PQuantity q)
  | None =>
      ret (PException
             (ScriptException ("Global '" +:+ name +:+ "' does not exist!")))
  end.

(** [getattr(self, funcname)] called on [args] and [kwargs] *)
Definition getattr_call (funcname : string) (args : list pyval)
    (kwargs : list (string * pyval)) : M pyval :=
  match args, kwargs with
  | [PStr name], [] =>
      if decide (funcname = "getGlobal") then getGlobal name
      else other_attr funcname args kwargs
  | [PInt index], [] =>
      if decide (funcname = "getShutter")
      then b <- getShutter index ;; ret (PBool b)
      else other_attr funcname args kwargs
  | _, _ => other_attr funcname args kwargs
  end.

(** *** [onGenericCall] *)
Definition onGenericCall (funcname : string) (args : list pyval)
    (kwargs : list (string * pyval)) : M (bool * option string) :=
  early <- try_except
             (with_lock
                (r <- getattr_call funcname args kwargs ;;
                 assign "genericResult" (set_genericResult r)) ;;
              wakeAll genericWait ;;
              ret None)
             (fun e => ret (Some (true, Some (exn_str e)))) ;;
  match early with
  | Some result => ret result
  | None => ret (false, Some (funcname +:+ repr_args args +:+ " executed"))
  end.

(** *** [onSetScan], [onSetEvaluation], [onSetAnalysis] *)

(** Modelled from the spec: [scanControlWidget.loadSetting] is not in
    src; setting a scan makes the named scan the active one. *)
Definition scan_loadSetting (name : string) : M unit :=
  modify (upd_ui (set_scanSettingsName name)) ;;
  emit (EvGui "scanControlWidget.loadSetting" name).

(** Modelled from the spec: [evaluationControlWidget.loadSetting] is
    not in src; it makes the named evaluation the active one. *)
Definition evaluation_loadSetting (name : string) : M unit :=
  modify (upd_ui (set_evaluationSettingsName name)) ;;
  emit (EvGui "evaluationControlWidget.loadSetting" name).

(** Modelled from the spec: [onLoadAnalysisConfiguration] of the
    analysis widget is not in src; it makes the named analysis the
    active one. *)
Definition onLoadAnalysisConfiguration (name : string) : M unit :=
  modify (upd_ui (set_currentAnalysisName name)) ;;
  emit (EvGui "analysisControlWidget.onLoadAnalysisConfiguration" name).

Definition onSetScan (name : string) : M (bool * option string) :=
  w <- get ;;
  let doesNotExist := bool_decide (findText (scanNames (ui w)) name = -1)%Z in
  if doesNotExist then
    ret (true, Some ("Scan " +:+ name +:+ " does not exist."))
  else
    scan_loadSetting name ;;
    ret (false, Some ("Scan set to " +:+ name)).

Definition onSetEvaluation (name : string) : M (bool * option string) :=
  w <- get ;;
  let doesNotExist :=
    bool_decide (findText (evaluationNames (ui w)) name = -1)%Z in
  if doesNotExist then
    ret (true, Some ("Evaluation " +:+ name +:+ " does not exist."))
  else
    evaluation_loadSetting name ;;
    ret (false, Some ("Evaluation set to " +:+ name)).

Definition onSetAnalysis (name : string) : M (bool * option string) :=
  w <- get ;;
  let doesNotExist := bool_decide (name ∉ analysisDefinitionDict (ui w)) in
  if doesNotExist then
    ret (true, Some ("Analysis " +:+ name +:+ " does not exist."))
  else
    onLoadAnalysisConfiguration name ;;
    ret (false, Some ("Analysis set to " +:+ name)).

(** *** Traces *)
Definition registerMeasurement (plottedTrace : PlottedTrace) : M unit :=
  emit (EvGui "measurementLog.container.addMeasurement"
          (tr_name plottedTrace)).

Definition finalize (plottedTrace : PlottedTrace) : M unit :=
  emit (EvGui "traceCollection.save" (tr_name plottedTrace)) ;;
  registerMeasurement plottedTrace.

Definition onCreateTrace (traceCreationData : list string)
    : M (bool * option string) :=
  match traceCreationData with
  | [traceName; plotName; xUnit; xLabel; comment] =>
      w <- get ;;
      if bool_decide (plotName ∉ plotDict (ui w)) then
        ret (true, Some ("plot " +:+ plotName +:+ " does not exist"))
      else
        let commentIntro := "Created by script " +:+ shortname (script w) in
        let plottedTrace :=
          {| tr_name := traceName; tr_windowName := plotName;
             tr_xAxisUnit := xUnit; tr_xAxisLabel := xLabel;
             tr_collection_name := shortname (script w);
             tr_comment := if bool_decide (comment = EmptyString)
                           then commentIntro
                           else commentIntro +:+ " -- " +:+ comment;
             tr_x := []; tr_y := [] |} in
        emit (EvGui "view.enableAutoRange" plotName) ;;
        modify (upd_self (fun h =>
          set_scriptTraces (<[traceName := plottedTrace]> (scriptTraces h)) h)) ;;
        modify (upd_self (fun h =>
          set_traceAlreadyCreated
            (<[traceName := false]> (traceAlreadyCreated h)) h)) ;;
        ret (false, Some ("Added trace " +:+ traceName +:+ newline
                          +:+ " plot: " +:+ plotName +:+ newline
                          +:+ " xUnit: " +:+ xUnit +:+ newline
                          +:+ " xLabel: " +:+ xLabel +:+ newline
                          +:+ " comment: " +:+ comment))
  | _ => raise (ValueError "wrong number of values to unpack")
  end.

Definition onCloseTrace (traceName : string) : M (bool * option string) :=
  w <- get ;;
  match scriptTraces (self w) !! traceName with
  | None => ret (true, Some ("Trace " +:+ traceName +:+ " does not exist"))
  | Some plottedTrace =>
      modify (upd_self (fun h =>
        set_scriptTraces (delete traceName (scriptTraces h)) h)) ;;
      finalize plottedTrace ;;
      ret (false, Some ("Trace " +:+ traceName +:+ " closed"))
  end.

(** [plotList]: the two dictionary reads sit in one [try] whose
    [except KeyError] answers that the trace does not exist. *)
Definition plotList (xList yList : list float) (traceName : string)
    (overwrite : bool) (plotStyle : Z) : M (bool * option string) :=
  w <- get ;;
  match scriptTraces (self w) !! traceName,
        (traceAlreadyCreated (self w) !! traceName : option bool) with
  | Some plottedTrace, Some created =>
      if negb (bool_decide (length xList = length yList)) then
        ret (true, Some "x and y lists are of unequal lengths")
      else
        (if created then
           let t := if negb overwrite
                    then set_xy (tr_x plottedTrace ++ xList)
                                (tr_y plottedTrace ++ yList) plottedTrace
                    else set_xy xList yList plottedTrace in
           modify (upd_self (fun h =>
             set_scriptTraces (<[traceName := t]> (scriptTraces h)) h)) ;;
           emit (EvGui "plottedTrace.replot" traceName)
         else
           modify (upd_self (fun h =>
             set_scriptTraces
               (<[traceName := set_xy xList yList plottedTrace]>
                  (scriptTraces h)) h)) ;;
           emit (EvGui "traceui.addTrace" traceName) ;;
           emit (EvGui "traceui.resizeColumnsToContents" EmptyString) ;;
           modify (upd_self (fun h =>
             set_traceAlreadyCreated
               (<[traceName := true]> (traceAlreadyCreated h)) h))) ;;
        ret (false, Some (str_list xList +:+ ", " +:+ str_list yList
                          +:+ " plotted to trace: " +:+ traceName))
  | _, _ => ret (true, Some ("Trace " +:+ traceName +:+ " does not exist"))
  end.

Definition onPlotPoint (x y : float) (traceName : string) (plotStyle : Z)
    : M (bool * option string) :=
  plotList [x] [y] traceName false plotStyle.

Definition onPlotList (xList yList : list float) (traceName : string)
    (overwrite : bool) (plotStyle : Z) : M (bool * option string) :=
  plotList xList yList traceName overwrite plotStyle.

(** [for a in l: body a] *)
Fixpoint for_each {A} (l : list A) (body : A -> M unit) : M unit :=
  match l with
  | [] => ret tt
  | a :: rest => body a ;; for_each rest body
  end.

Definition onFinished : M unit :=
  w <- get ;;
  for_each (dict_values (scriptTraces (self w))) finalize ;;
  modify (upd_self (set_scriptTraces ∅)) ;;
  emit (EvGui "namedTraceui.saveAndUpdateFileList" "namedTraceList").

(** *** Starting, pausing and stopping the script *)
Definition onStartScript : M unit :=
  w <- get ;;
  if negb (isRunning (script w)) then
    modify (upd_self (set_globalVariablesRevertDict ∅)) ;;
    with_lock
      (assign "paused" (set_paused false) ;;
       assign "stopped" (set_stopped false) ;;
       assign "exception" (set_exception None) ;;
       emit (EvGui "script.start" EmptyString) ;;
       modify (upd_script (set_isRunning true)) ;;
       modify (upd_self (set_namedTraceList ∅)))
  else ret tt.

Definition onPauseScript (paused : bool) : M unit :=
  with_lock
    (assign "paused" (set_paused paused) ;;
     if negb paused then wakeAll pauseWait else ret tt).

Definition onStopScript : M unit :=
  with_lock
    (assign "stopped" (set_stopped true) ;;
     assign "paused" (set_paused false) ;;
     assign "waitOnScan" (set_waitOnScan false) ;;
     assign "repeat" (set_repeat false) ;;
     assign "analysisReady" (set_analysisReady true) ;;
     assign "dataReady" (set_dataReady true) ;;
     assign "allDataReady" (set_allDataReady true) ;;
     wakeAll guiWait ;;
     wakeAll pauseWait ;;
     wakeAll scanWait ;;
     wakeAll dataWait ;;
     wakeAll analysisWait ;;
     wakeAll genericWait ;;
     emit (EvGui "namedTraceui.saveAndUpdateFileList" EmptyString)).

Definition onStopScriptFromScript : M (bool * option string) :=
  onStopScript ;;
  ret (false, Some "script stopped").

(** *** The producers of the result slots *)
Definition onAnalysisResult (allResults : pyval) : M unit :=
  with_lock
    (assign "analysisResults" (set_analysisResults allResults) ;;
     assign "analysisReady" (set_analysisReady true) ;;
     wakeAll analysisWait).

Definition onData (data : pyval) : M unit :=
  with_lock
    (assign "data" (set_data data) ;;
     assign "dataReady" (set_dataReady true) ;;
     wakeAll dataWait).

Definition onAllData (allData : pyval) : M unit :=
  with_lock
    (assign "allData" (set_allData allData) ;;
     assign "allDataReady" (set_allDataReady true) ;;
     wakeAll allDataWait).

(** *** The slots: the decorated handlers, as the signals call them *)
Definition onSetGlobal_slot (name : string) (value : float) (unit : string)
    : M Datatypes.unit := scriptCommand (onSetGlobal name value unit).
Definition onSetShutter_slot (index : Z) (value : bool) : M unit :=
  scriptCommand (onSetShutter index value).
Definition onGenericCall_slot (funcname : string) (args : list pyval)
    (kwargs : list (string * pyval)) : M unit :=
  scriptCommand (onGenericCall funcname args kwargs).
Definition onSetScan_slot (name : string) : M unit :=
  scriptCommand (onSetScan name).
Definition onSetEvaluation_slot (name : string) : M unit :=
  scriptCommand (onSetEvaluation name).
Definition onSetAnalysis_slot (name : string) : M unit :=
  scriptCommand (onSetAnalysis name).
Definition onCreateTrace_slot (traceCreationData : list string) : M unit :=
  scriptCommand (onCreateTrace traceCreationData).
Definition onCloseTrace_slot (traceName : string) : M unit :=
  scriptCommand (onCloseTrace traceName).
Definition onPlotPoint_slot (x y : float) (traceName : string)
    (plotStyle : Z) : M unit :=
  scriptCommand (onPlotPoint x y traceName plotStyle).
Definition onPlotList_slot (xList yList : list float) (traceName : string)
    (overwrite : bool) (plotStyle : Z) : M unit :=
  scriptCommand (onPlotList xList yList traceName overwrite plotStyle).
Definition onStopScriptFromScript_slot : M unit :=
  scriptCommand onStopScriptFromScript.
End ScriptHandler.

(** ** The instrument adapters of [StandardExternalParameter.py]

    The unit library and the vendor clients are not part of the
    repository.  [m_as] is the quantity's magnitude in a given unit, or
    the exception the library raises when the quantity cannot be
    converted to that unit; [int] and [bool] are Python's casts of a
    float.  A call into a vendor client is recorded with the value it is
    handed. *)

Class Pint `{PyFloat} := {
  m_as : quantity -> string -> Res float;
  py_int : float -> Z;
  py_bool : float -> bool
}.

(** [dc_ctr_enum]'s channel constants. *)
Inductive dc_channel : Set :=
| CHANNEL_N1 | CHANNEL_N2 | CHANNEL_R1 | CHANNEL_R2 | CHANNEL_R3 | CHANNEL_R4.

(** [d[key]] on a dictionary written as a literal in the source. *)
Fixpoint dict_get {V : Type} (d : list (string * V)) (key : string)
    : Res V :=
  match d with
  | [] => Raise (KeyError key)
  | (k, v) :: rest => if decide (k = key) then Ok v else dict_get rest key
  end.

Section Adapters.
Context `{Pint}.

(** A value as the adapter passes it on. *)
Inductive arg : Type :=
| AInt (z : Z)
| AFloat (f : float)
| ABool (b : bool)
| AStr (s : string).

Inductive effect : Type :=
| VendorCall (client member target : string) (value : arg)
    (* client.member(target, value); setattr(client, member, value) has
       an empty target *)
| VendorDC (member : string) (target : option dc_channel) (value : arg)
| VendorPlain (client member : string)           (* a call with no value *)
| Print (target : dc_channel) (value : float)
| NewData (key : string).

Definition vendor_values (l : list effect) : list arg :=
  omap (fun e => match e with
                 | VendorCall _ _ _ a => Some a
                 | VendorDC _ _ a => Some a
                 | _ => None
                 end) l.

(** The outcome of [setValue]: what it did, and what it returned. *)
Definition outcome : Type := list effect * Res quantity.

(** *** [SRS_DS345_FunctionGenerator] *)
Definition DS345_outputChannels : list (string * string) :=
  [("Frequency", "kHz"); ("Amplitude(Vpp)", "V"); ("Offset", "V");
   ("Function", EmptyString)].

Definition DS345_outputLookup : list (string * (string * string)) :=
  [("Frequency", ("frequency", "Hz"));
   ("Amplitude(Vpp)", ("amplitude", "V"));
   ("Offset", ("offset", "V"));
   ("Function", ("function", EmptyString))].

Definition DS345_setValue (channel : string) (v : quantity) : outcome :=
  match dict_get DS345_outputLookup channel with
  | Raise e => ([], Raise e)
  | Ok (func_name, unit) =>
      match m_as v unit with
      | Raise e => ([], Raise e)
      | Ok m => ([VendorCall "DS345" func_name EmptyString (AFloat m)], Ok v)
      end
  end.

(** *** [LaserFreqPID] *)
Definition LaserFreqPID_channels : list (string * string) :=
  [("FrequencySetpoint", "THz"); ("EnableLock", EmptyString)].

(** [_outputLookup]: the configuration key, the unit and [set_func]
    ([get_func] only serves [getValue]). *)
Definition LaserFreqPID_outputLookup
    : list (string * (string * string * (float -> string))) :=
  [("FrequencySetpoint",
    ("freq_setpoint", "THz", fun x => "[" +:+ str_float x +:+ "]"));
   ("EnableLock",
    ("enable_lock", EmptyString, fun v => str_bool (py_bool v)))].

Definition LaserFreqPID_getValue (channel : string) : list effect :=
  [VendorPlain "ConfigREQClient" "get_config"].

Definition LaserFreqPID_setValue (name : string) (channel : string)
    (v : quantity) : outcome :=
  match dict_get LaserFreqPID_outputLookup channel with
  | Raise e => ([], Raise e)
  | Ok (config_name, unit, set_func) =>
      match m_as v unit with
      | Raise e => ([], Raise e)
      | Ok m =>
          ([VendorCall "ConfigREQClient" "update_config" config_name
              (AStr (set_func m));
            VendorPlain "ConfigREQClient" "set_config"]
           ++ LaserFreqPID_getValue channel
           ++ [NewData (name +:+ "_" +:+ channel)],
           Ok v)
      end
  end.

(** *** [DCVoltageControl] *)
Definition DC_outputChannels : list (string * string) :=
  [("Enable Remote Control", EmptyString);
   ("Needle_1_Voltage", "V"); ("Needle_2_Voltage", "V");
   ("Rod_1_Voltage", "V"); ("Rod_2_Voltage", "V");
   ("Rod_3_Voltage", "V"); ("Rod_4_Voltage", "V")].

Definition DC_outputLookup : list (string * dc_channel) :=
  [("Needle_1_Voltage", CHANNEL_N1); ("Needle_2_Voltage", CHANNEL_N2);
   ("Rod_1_Voltage", CHANNEL_R1); ("Rod_2_Voltage", CHANNEL_R2);
   ("Rod_3_Voltage", CHANNEL_R3); ("Rod_4_Voltage", CHANNEL_R4)].

Definition available_mode (m : Z) : bool :=
  bool_decide (m = 0)%Z || bool_decide (m = 1)%Z || bool_decide (m = 255)%Z.

Definition DC_setValue (channel : string) (v : quantity) : outcome :=
  if decide (channel = "Enable Remote Control") then
    match m_as v EmptyString with
    | Raise e => ([], Raise e)
    | Ok m =>
        let v_value := py_int m in
        if negb (available_mode v_value)
        then ([], Raise (ValueError "Not an available mode!!!!!"))
        else ([VendorDC "set_mode_all" None (AInt v_value)], Ok v)
    end
  else
    match m_as v "V" with
    | Raise e => ([], Raise e)
    | Ok v_value =>
        match dict_get DC_outputLookup channel with
        | Raise e => ([], Raise e)
        | Ok v_channel =>
            ([Print v_channel v_value;
              VendorDC "set_volt" (Some v_channel) (AFloat v_value)], Ok v)
        end
    end.

(** *** [FourRodOvenControl] *)
Definition Oven_outputChannels : list (string * string) :=
  [("Oven current set", "A"); ("Oven voltage set", "V");
   ("Oven current reading (read only)", "A");
   ("Oven voltage reading (read only)", "V");
   ("Oven status (0=CV, 1=CC)", EmptyString)].

(** One of the two [if] statements of [FourRodOvenControl.setValue]:
    the call it makes, or the exception of the conversion. *)
Definition Oven_set (channel set_channel unit member : string) (v : quantity)
    : Res (list effect) :=
  if decide (channel = set_channel) then
    match m_as v unit with
    | Raise e => Raise e
    | Ok v_value =>
        Ok [VendorCall "oven_client" member EmptyString (AFloat v_value)]
    end
  else Ok [].

Definition Oven_setValue (channel : string) (v : quantity) : outcome :=
  match Oven_set channel "Oven current set" "A" "set_current" v with
  | Raise e => ([], Raise e)
  | Ok current =>
      match Oven_set channel "Oven voltage set" "V" "set_voltage" v with
      | Raise e => (current, Raise e)
      | Ok voltage => (current ++ voltage, Ok v)
      end
  end.

(** *** [RFController] *)
Definition RF_outputChannels : list (string * string) :=
  [("frequency_cooling_eom", "MHz");
   ("frequency_detection_aom", "MHz");
   ("frequency_repump_eom", "MHz");
   ("frequency_cooling_aom", "MHz");
   ("frequency_optpump_eom", "MHz");
   ("frequency_microwave_modulation", "MHz");
   ("frequency_dmd_aom", "MHz");
   ("power_cooling_eom", EmptyString);
   ("power_detection_aom", EmptyString);
   ("power_repump_eom", EmptyString);
   ("power_cooling_aom", EmptyString);
   ("power_optpump_eom", EmptyString);
   ("power_microwave_modulation", EmptyString);
   ("power_dmd_aom", EmptyString);
   ("output_state_cooling_eom", EmptyString);
   ("output_state_microwave_modulation", EmptyString)].

Definition RF_outputLookup : list (string * (string * string)) :=
  [("frequency_cooling_eom", ("four_rod_cooling_eom", "frequency"));
   ("frequency_detection_aom", ("four_rod_detection_aom", "frequency"));
   ("frequency_repump_eom", ("four_rod_repump_eom", "frequency"));
   ("frequency_cooling_aom", ("four_rod_cooling_aom", "frequency"));
   ("frequency_optpump_eom", ("four_rod_optpump_eom", "frequency"));
   ("frequency_microwave_modulation", ("four_rod_microwave_modulation", "frequency"));
   ("frequency_dmd_aom", ("four_rod_dmd_aom", "frequency"));
   ("power_cooling_eom", ("four_rod_cooling_eom", "power"));
   ("power_detection_aom", ("four_rod_detection_aom", "power"));
   ("power_repump_eom", ("four_rod_repump_eom", "power"));
   ("power_cooling_aom", ("four_rod_cooling_aom", "power"));
   ("power_optpump_eom", ("four_rod_optpump_eom", "power"));
   ("power_microwave_modulation", ("four_rod_microwave_modulation", "power"));
   ("power_dmd_aom", ("four_rod_dmd_aom", "power"));
   ("output_state_cooling_eom", ("four_rod_cooling_eom", "output_state"));
   ("output_state_microwave_modulation", ("four_rod_microwave_modulation", "output_state"))].

Definition RF_unitLookup : list (string * string) :=
  [("frequency", "Hz"); ("power", EmptyString);
   ("output_state", EmptyString)].

Definition RF_setTypeLookup : list (string * (float -> arg)) :=
  [("frequency", fun x => AInt (py_int x));
   ("power", fun x => AFloat x);
   ("output_state", fun x => ABool (py_bool x))].

Definition RF_setValue (channel : string) (v : quantity) : outcome :=
  match dict_get RF_outputLookup channel with
  | Raise e => ([], Raise e)
  | Ok (rf_channel, parameter_name) =>
      match dict_get RF_unitLookup parameter_name with
      | Raise e => ([], Raise e)
      | Ok unit =>
          match m_as v unit with
          | Raise e => ([], Raise e)
          | Ok parameter =>
              match dict_get RF_setTypeLookup parameter_name with
              | Raise e => ([], Raise e)
              | Ok cast =>
                  ([VendorCall "client" ("set_" +:+ parameter_name) rf_channel
                      (cast parameter)], Ok v)
              end
          end
      end
  end.

(** *** [SANAControl] *)
Definition SANA_outputChannels : list (string * string) :=
  [("dmd_FP_mirror_horizontal", "V"); ("dmd_FP_mirror_vertical", "V")].

Definition SANA_outputLookup : list (string * string) :=
  [("dmd_FP_mirror_horizontal", "2A"); ("dmd_FP_mirror_vertical", "2B")].

Definition SANA_setValue (channel : string) (v : quantity) : outcome :=
  match dict_get SANA_outputLookup channel with
  | Raise e => ([], Raise e)
  | Ok sana_channel =>
      match m_as v "V" with
      | Raise e => ([], Raise e)
      | Ok parameter =>
          ([VendorCall "client" "set_channel_voltage" sana_channel
              (AFloat parameter)], Ok v)
      end
  end.

(** *** The adapter classes of the file *)
Record adapter := mkAdapter {
  className : string;
  outputChannels : list (string * string);
  setValue : string -> quantity -> outcome
}.

Definition SRS_DS345_FunctionGenerator : adapter :=
  mkAdapter "QITI SRS DS345 Function Generator" DS345_outputChannels
    DS345_setValue.

(** An instance of [LaserFreqPID] named [name]. *)
Definition LaserFreqPID (name : string) : adapter :=
  mkAdapter "QITI Laser Frequency PID Lock" LaserFreqPID_channels
    (LaserFreqPID_setValue name).

Definition DCVoltageControl : adapter :=
  mkAdapter "Four rod DC Voltage Control" DC_outputChannels DC_setValue.

Definition FourRodOvenControl : adapter :=
  mkAdapter "Four Rod Oven Control" Oven_outputChannels Oven_setValue.

Definition RFController : adapter :=
  mkAdapter "RF Controller" RF_outputChannels RF_setValue.

Definition SANAControl : adapter :=
  mkAdapter "SANA" SANA_outputChannels SANA_setValue.

Definition adapters (name : string) : list adapter :=
  [SRS_DS345_FunctionGenerator; LaserFreqPID name; DCVoltageControl;
   FourRodOvenControl; RFController; SANAControl].

(** The unit [setValue] converts to: the one of the adapter's lookup
    table, which is Hz where the channel is configured in kHz (DS345)
    or MHz (RF controller), and the configured unit elsewhere. *)
Definition conversion_unit (a : adapter) (channel configured : string)
    : string :=
  if decide (className a = className SRS_DS345_FunctionGenerator
             /\ channel = "Frequency") then "Hz"
  else if decide (className a = className RFController
                  /\ configured = "MHz") then "Hz"
  else configured.

(** The forms in which a converted magnitude [m] reaches a vendor
    client: as it is ([float]), through [int] or [bool], or printed. *)
Definition from_conversion (m : float) (x : arg) : Prop :=
  x = AFloat m \/ x = AInt (py_int m) \/ x = ABool (py_bool m)
  \/ x = AStr ("[" +:+ str_float m +:+ "]")
  \/ x = AStr (str_bool (py_bool m)).

(** The contract of [setValue] as the interface describes it: the
    quantity comes back, and what reaches the vendor client is its
    magnitude in the unit the channel is configured with. *)
Definition setValue_contract (a : adapter) : Prop :=
  forall channel configured v,
    (channel, configured) ∈ outputChannels a ->
    (setValue a channel v).2 = Ok v /\
    forall x, x ∈ vendor_values (setValue a channel v).1 ->
              exists m, m_as v configured = Ok m /\ from_conversion m x.

(** The channels that [setValue] leaves alone: the oven's readings and
    its status. *)
Definition read_only (a : adapter) (channel : string) : Prop :=
  className a = className FourRodOvenControl /\
  channel <> "Oven current set" /\ channel <> "Oven voltage set".

(** The guard of [DCVoltageControl.setValue]: a mode that is not 0, 1
    or 255. *)
Definition refused (a : adapter) (channel : string) (m : float) : Prop :=
  className a = className DCVoltageControl /\
  channel = "Enable Remote Control" /\
  available_mode (py_int m) = false.
End Adapters.

(** ** A concrete Python for examples

    Magnitudes are whole numbers, frequencies convert between Hz, kHz
    and MHz, every other unit only to itself. *)

Definition hertz (unit : string) : Z :=
  if decide (unit = "kHz") then 1000
  else if decide (unit = "MHz") then 1000000
  else 1.

#[global] Instance Z_float : PyFloat :=
  {| float := Z; str_float := fun z => pretty z +:+ ".0" |}.

Definition is_frequency (unit : string) : bool :=
  bool_decide (unit = "Hz") || bool_decide (unit = "kHz")
  || bool_decide (unit = "MHz").

Definition compatible (unit other : string) : bool :=
  bool_decide (unit = other) || (is_frequency unit && is_frequency other).

Definition DimensionalityError (unit other : string) : exn :=
  mkExn "DimensionalityError"
    ("Cannot convert from '" +:+ unit +:+ "' to '" +:+ other +:+ "'").

#[global] Instance Z_pint : Pint :=
  {| m_as := fun q unit =>
       if compatible (q_u q) unit
       then Ok (q_m q * hertz (q_u q) / hertz unit)%Z
       else Raise (DimensionalityError (q_u q) unit);
     py_int := fun z => z;
     py_bool := fun z => negb (z =? 0)%Z |}.

Definition AttributeError (name : string) : exn :=
  mkExn "AttributeError"
    ("'ScriptHandler' object has no attribute '" +:+ name +:+ "'").

(** A runtime whose handler has no attribute besides the embedded ones,
    and which prints a tuple of strings the way Python does. *)
Definition repr_value (v : pyval) : string :=
  match v with
  | PStr s => "'" +:+ s +:+ "'"
  | PInt z => pretty z
  | PBool b => str_bool b
  | PNone => "None"
  | _ => "<object>"
  end.

Definition repr_tuple (args : list pyval) : string :=
  match args with
  | [a] => "(" +:+ repr_value a +:+ ",)"
  | _ => "(" +:+ join ", " (repr_value <$> args) +:+ ")"
  end.

#[global] Instance bare_runtime : Runtime :=
  {| repr_args := repr_tuple;
     other_attr := fun funcname _ _ => raise (AttributeError funcname) |}.

(** An idle world: nothing set, nobody waiting, nothing logged. *)
Definition idle_script : Script :=
  {| stopped := false; paused := false; waitOnScan := false; repeat := false;
     scanIsRunning := false; analysisReady := false; dataReady := false;
     allDataReady := false; exception := None; data := PNone;
     allData := PNone; analysisResults := PNone; genericResult := PNone;
     shortname := "script.py"; isRunning := false |}.

Definition new_handler : Handler :=
  {| scriptTraces := ∅; traceAlreadyCreated := ∅;
     globalVariablesRevertDict := ∅; namedTraceList := ∅ |}.

Definition lab_ui : Ui :=
  {| globalDict := {[ "Detuning" := Q 5%Z "MHz" ]};
     shutter := 5;
     scanNames := ["Scan_A"]; scanSettingsName := "Scan_A";
     evaluationNames := ["Eval_A"]; evaluationSettingsName := "Eval_A";
     analysisDefinitionDict := {[ "Fit_A" ]}; currentAnalysisName := "Fit_A";
     plotDict := {[ "Scan Data" ]} |}.

Definition idle : World :=
  {| script := idle_script; self := new_handler; ui := lab_ui;
     mutexHeld := false; waiters := []; log := [] |}.

(** Four threads blocked, one per wait condition, and the result of an
    earlier generic call still in its slot. *)
Definition blocked : World :=
  set_waiters [(1, allDataWait); (2, dataWait); (3, genericWait);
               (4, guiWait)]
    (upd_script (set_genericResult (PInt 7)) idle).

(** The idle world after [createTrace('trace1', 'Scan Data', ...)]. *)
Definition with_trace : World :=
  (onCreateTrace ["trace1"; "Scan Data"; "s"; "time"; "first"] idle).2.

(** ** Notions used to state the properties *)

Section Notions.
Context `{Runtime}.

(** A handler rejects a request in world [w]: it returns the error
    flag with [message] and changes nothing, and the slot built from it
    leaves the GUI objects and the handler's dictionaries as they were. *)
Definition rejects (handler : M (bool * option string)) (message : string)
    (w : World) : Prop :=
  handler w = (Ok (true, Some message), w) /\
  ui (scriptCommand handler w).2 = ui w /\
  self (scriptCommand handler w).2 = self w.

(** The world in which the body of a [with QMutexLocker] starts. *)
Definition locked (w : World) : World := (lock w).2.

(** A run of [onSetGlobal] slots, in order. *)
Definition set_globals (calls : list (string * float * string))
    (w : World) : World :=
  foldl (fun w c => (onSetGlobal_slot c.1.1 c.1.2 c.2 w).2) w calls.

(** Every script trace has its entry in [traceAlreadyCreated]. *)
Definition traces_registered (h : Handler) : Prop :=
  forall name, is_Some (scriptTraces h !! name) ->
               is_Some (traceAlreadyCreated h !! name).
End Notions.

(** ** More of the handler *)

(** A value given for a global in [onStartScan]: a quantity, a
    (value, unit) pair, or a bare number. *)
Inductive override `{PyFloat} : Type :=
| OvQuantity (q : quantity)
| OvPair (value : float) (unit : string)
| OvNumber (value : float).

Section MoreHandlers.
Context `{Runtime}.
Local Open Scope monad_scope.

(** *** Scan control *)

(** Whether the running Python still has [collections.Sized]: it was
    deprecated in 3.3 and removed in 3.10.  Where it is gone,
    [isinstance(value, collections.Sized)] raises. *)
Variable collections_has_Sized : bool.

Definition no_Sized : exn :=
  mkExn "AttributeError" "module 'collections' has no attribute 'Sized'".

(** The body of the loop of [onStartScan] that hands on (key,
    magnitude) pairs: a quantity as it is, and otherwise, once
    [collections.Sized] has been looked up, [Q(value[0], value[1])] for
    a pair and [Q(value)] for a number. *)
Definition to_magnitude (value : override) : Res quantity :=
  match value with
  | OvQuantity q => Ok q
  | OvPair v unit =>
      if collections_has_Sized then Ok (Q v unit) else Raise no_Sized
  | OvNumber v =>
      if collections_has_Sized then Ok (Q v EmptyString) else Raise no_Sized
  end.

Fixpoint myGlobalOverrides (globalOverrides : list (string * override))
    : Res (list (string * quantity)) :=
  match globalOverrides with
  | [] => Ok []
  | (key, value) :: rest =>
      match to_magnitude value with
      | Raise e => Raise e
      | Ok q =>
          match myGlobalOverrides rest with
          | Raise e => Raise e
          | Ok overrides => Ok ((key, q) :: overrides)
          end
      end
  end.

Definition str_override (kv : string * quantity) : string :=
  kv.1 +:+ "=" +:+ str_float (q_m kv.2) +:+ " " +:+ q_u kv.2.

(** [onStartScan]; [now] is what [str(datetime.now())] gives. *)
Definition onStartScan (now : string)
    (globalOverrides : list (string * override)) : M (bool * option string) :=
  with_lock
    (assign "scanIsRunning" (set_scanIsRunning true) ;;
     assign "analysisReady" (set_analysisReady false) ;;
     assign "dataReady" (set_dataReady false) ;;
     assign "allDataReady" (set_allDataReady false)) ;;
  match myGlobalOverrides globalOverrides with
  | Raise e => raise e
  | Ok overrides =>
      emit (EvGui "experimentUi.onStart"
              (join ", " (str_override <$> overrides))) ;;
      w <- get ;;
      let message :=
        "Scan started at " +:+ now +:+ " with scan = "
        +:+ scanSettingsName (ui w) +:+ ", evaluation = "
        +:+ evaluationSettingsName (ui w) +:+ ", analysis = "
        +:+ currentAnalysisName (ui w) in
      emit (EvLog INFO message) ;;
      writeToConsole message false "green" ;;
      ret (false, None)
  end.

(** The overrides that are quantities already. *)
Definition is_quantity (value : override) : bool :=
  match value with OvQuantity _ => true | _ => false end.

Definition onPauseScan : M (bool * option string) :=
  emit (EvGui "experimentUi.actionPause.trigger" EmptyString) ;;
  ret (false, Some "Scan paused").

Definition onStopScan : M (bool * option string) :=
  emit (EvGui "experimentUi.actionStop.trigger" EmptyString) ;;
  with_lock (assign "scanIsRunning" (set_scanIsRunning false)) ;;
  ret (false, Some "Scan stopped").

Definition onAbortScan : M (bool * option string) :=
  emit (EvGui "experimentUi.actionAbort.trigger" EmptyString) ;;
  with_lock (assign "scanIsRunning" (set_scanIsRunning false)) ;;
  ret (false, Some "Scan aborted").

(** *** The buttons of the scripting window *)
Definition onPauseScriptAndScan : M unit :=
  onPauseScript true ;;
  emit (EvGui "experimentUi.actionPause.trigger" EmptyString).

Definition onStopScriptAndScan : M unit :=
  onStopScript ;;
  emit (EvGui "experimentUi.actionStop.trigger" EmptyString).

Definition onRepeat (repeat : bool) : M unit :=
  with_lock (assign "repeat" (set_repeat repeat)).

(** *** Arbitrary waveform generators

    [AWGUiDict] maps the name of a generator to its window; of a window
    the handler reads the items of [settingsComboBox]. *)
Definition onSetAWG (AWGUiDict : gmap string (list string))
    (AWGname name : string) : M (bool * option string) :=
  match AWGUiDict !! AWGname with
  | None => ret (true, Some ("AWG " +:+ AWGname +:+ " does not exist"))
  | Some settingsComboBox =>
      let doesNotExist :=
        bool_decide (findText settingsComboBox name = -1)%Z in
      if doesNotExist then
        ret (true, Some ("AWG " +:+ AWGname +:+ " settings " +:+ name
                         +:+ " does not exist."))
      else
        emit (EvGui ("AWGUiDict[" +:+ AWGname +:+ "].loadSetting") name) ;;
        ret (false, Some ("AWG " +:+ AWGname +:+ " settings set to " +:+ name))
  end.

Definition onProgramAWG (AWGUiDict : gmap string (list string))
    (AWGname : string) : M (bool * option string) :=
  match AWGUiDict !! AWGname with
  | None => ret (true, Some ("AWG " +:+ AWGname +:+ " does not exist"))
  | Some _ =>
      emit (EvGui ("AWGUiDict[" +:+ AWGname +:+ "].device.program")
              EmptyString) ;;
      ret (false, Some ("AWG " +:+ AWGname +:+ " programmed"))
  end.

(** *** Named traces *)
Definition onPushToNamedTrace (topNode child : string) (row : Z)
    (data : float) (col : string) (ignorenans : bool)
    : M (bool * option string) :=
  modify (upd_self (fun h =>
    set_namedTraceList ({[ topNode ]} ∪ namedTraceList h) h)) ;;
  emit (EvGui "namedTraceui.updateExternally" (topNode +:+ "_" +:+ child)) ;;
  ret (false, Some ("pushed value " +:+ str_float data
                    +:+ " to named trace " +:+ topNode +:+ "_" +:+ child)).

(** *** More slots *)
Definition onStartScan_slot (now : string)
    (globalOverrides : list (string * override)) : M unit :=
  scriptCommand (onStartScan now globalOverrides).
Definition onPauseScan_slot : M unit := scriptCommand onPauseScan.
Definition onStopScan_slot : M unit := scriptCommand onStopScan.
Definition onAbortScan_slot : M unit := scriptCommand onAbortScan.
Definition onSetAWG_slot (AWGUiDict : gmap string (list string))
    (AWGname name : string) : M unit :=
  scriptCommand (onSetAWG AWGUiDict AWGname name).
Definition onProgramAWG_slot (AWGUiDict : gmap string (list string))
    (AWGname : string) : M unit :=
  scriptCommand (onProgramAWG AWGUiDict AWGname).
Definition onPushToNamedTrace_slot (topNode child : string) (row : Z)
    (data : float) (col : string) (ignorenans : bool) : M unit :=
  scriptCommand (onPushToNamedTrace topNode child row data col ignorenans).

(** *** Notions *)

(** Every script trace has as many x values as y values. *)
Definition traces_aligned (h : Handler) : Prop :=
  forall name t, scriptTraces h !! name = Some t ->
                 length (tr_x t) = length (tr_y t).

(** The threads still blocked when [onStopScript] has made its six
    calls of [wakeAll]. *)
Definition after_stop (ws : list (thread * cv)) : list (thread * cv) :=
  filter (fun p => p.2 <> genericWait)
    (filter (fun p => p.2 <> analysisWait)
       (filter (fun p => p.2 <> dataWait)
          (filter (fun p => p.2 <> scanWait)
             (filter (fun p => p.2 <> pauseWait)
                (filter (fun p => p.2 <> guiWait) ws))))).

(** A run of [onPushToNamedTrace] slots; a push is (topNode, child, row,
    data, col, ignorenans). *)
Definition push_all
    (pushes : list (string * string * Z * float * string * bool))
    (w : World) : World :=
  foldl (fun w p =>
           match p with
           | (topNode, child, row, data, col, ignorenans) =>
               (onPushToNamedTrace_slot topNode child row data col
                  ignorenans w).2
           end) w pushes.

Definition topNode_of (p : string * string * Z * float * string * bool)
    : string :=
  p.1.1.1.1.1.

(** A run of [onPlotList] slots on one trace, none of them overwriting. *)
Definition plot_all (batches : list (list float * list float))
    (traceName : string) (w : World) : World :=
  foldl (fun w b => (onPlotList_slot b.1 b.2 traceName false (-1) w).2)
    w batches.
End MoreHandlers.

(** ** Reading the instruments back

    [reading] is what the vendor client answers. *)

Section ReadBack.
Context `{Pint}.

(** [SRS_DS345_FunctionGenerator.getValue], which [getExternalValue]
    calls. *)
Definition DS345_getValue (channel : string) (reading : float) : outcome :=
  match dict_get DS345_outputLookup channel with
  | Raise e => ([], Raise e)
  | Ok (func_name, unit) => ([VendorPlain "DS345" func_name], Ok (Q reading unit))
  end.

Definition DS345_getExternalValue (channel : string) (reading : float)
    : outcome :=
  DS345_getValue channel reading.

(** [SANAControl.getExternalValue] *)
Definition SANA_getExternalValue (channel : string) (reading : float)
    : outcome :=
  match dict_get SANA_outputLookup channel with
  | Raise e => ([], Raise e)
  | Ok sana_channel =>
      ([VendorPlain "client" "get_channel_voltage"], Ok (Q reading "V"))
  end.

(** [FourRodOvenControl]: the unit and the key of the oven data. *)
Definition Oven_outputLookup : list (string * (string * string)) :=
  [("Oven current set", ("A", "current_set"));
   ("Oven voltage set", ("V", "voltage_set"));
   ("Oven current reading (read only)", ("A", "current_reading"));
   ("Oven voltage reading (read only)", ("V", "voltage_reading"));
   ("Oven status (0=CV, 1=CC)", (EmptyString, "status"))].

(** [FourRodOvenControl.getValue]; [oven_data] is what
    [oven_client.get_data()] answers. *)
Definition Oven_getValue (channel : string)
    (oven_data : list (string * float)) : outcome :=
  match dict_get Oven_outputLookup channel with
  | Raise e => ([], Raise e)
  | Ok (unit, data_key) =>
      match dict_get oven_data data_key with
      | Raise e => ([VendorPlain "oven_client" "get_data"], Raise e)
      | Ok value =>
          ([VendorPlain "oven_client" "get_data"], Ok (Q value unit))
      end
  end.

Definition Oven_getExternalValue (channel : string)
    (oven_data : list (string * float)) : outcome :=
  Oven_getValue channel oven_data.

(** Converting a quantity to the unit it is in gives its magnitude. *)
Definition m_as_own_unit : Prop :=
  forall (x : float) (unit : string), m_as (Q x unit) unit = Ok x.

(** [channel] is a key of the dictionary [d]. *)
Definition has_key {V : Type} (d : list (string * V)) (channel : string)
    : Prop :=
  channel ∈ d.*1.
End ReadBack.

(** ** The server process of [pulser/ServerProcess.py]

    [ServerProcess.run] polls the command pipe, runs the method a
    message names and sends back what it returns or the exception it
    raises.  The methods and [readDataFifo] belong to the subclass: they
    are parameters here, and may change the object, put data on the data
    queue, return or raise.  The pipe is a list of ticks, one for each
    [poll(0.01)]; [recv] may fail, and so may [send], on an object it
    cannot send; the pipe's [poll], the queues and the logger are taken
    not to fail. *)

Inductive tick (argument : Type) : Type :=
| Quiet                                  (* poll answers False *)
| Message (commandstring : string) (argument_ : argument)
| RecvFails (e : exn).                   (* recv, or unpacking the pair *)
Arguments Quiet {argument}.
Arguments Message {argument} commandstring argument_.
Arguments RecvFails {argument} e.

Inductive queue_item (value : Type) : Type :=
| Data (v : value)
| FinishException.
Arguments Data {value} v.
Arguments FinishException {value}.

Inductive server_event (value : Type) : Type :=
| ConfigureServerLogging
| PipeSend (answer : Res value)     (* a result, or the exception object *)
| DataPut (item : queue_item value)
| DataClose
| LoggingPutNone
| LoggingClose
| LogDebug (message : string)
| LogInfo (message : string)
| LogError (message : string).
Arguments ConfigureServerLogging {value}.
Arguments PipeSend {value} answer.
Arguments DataPut {value} item.
Arguments DataClose {value}.
Arguments LoggingPutNone {value}.
Arguments LoggingClose {value}.
Arguments LogDebug {value} message.
Arguments LogInfo {value} message.
Arguments LogError {value} message.

(** How the [while] loop ended. *)
Inductive loop_end : Type :=
| Finished                (* [self.running] was found false *)
| Failed (e : exn)        (* an exception left the loop *)
| Polling.                (* still in the loop when the ticks ran out *)

Definition NoAttribute (class_name name : string) : exn :=
  mkExn "AttributeError"
    ("'" +:+ class_name +:+ "' object has no attribute '" +:+ name +:+ "'").

Section ServerProcess.
Variables attrs argument value : Type.

Record ServerProcess := mkServerProcess {
  running : bool;
  attributes : attrs              (* what the subclass keeps *)
}.

(** A method of the subclass: what it puts on the data queue, what it
    returns or raises, and the object afterwards. *)
Definition method (A R : Type) : Type :=
  A -> ServerProcess -> list value * Res R * ServerProcess.

Variable class_name : string.
Variable getattr : string -> option (method argument value).
Variable readDataFifo : method unit unit.

(** What [self.commandPipe.send(x)] raises, if it fails on [x]. *)
Variable send_fails : Res value -> option exn.

Definition puts (items : list value) : list (server_event value) :=
  (fun v => DataPut (Data v)) <$> items.

(** [self.commandPipe.send(x)]: the object is on the pipe, or [send]
    has raised. *)
Definition send (x : Res value) : list (server_event value) * option exn :=
  match send_fails x with
  | None => ([PipeSend x], None)
  | Some e => ([], Some e)
  end.

(** The body of [if self.commandPipe.poll(0.01):], with the exception
    that leaves it, if any: the one [send] raises in the [except]
    clause. *)
Definition serve (t : tick argument) (self : ServerProcess)
    : list (server_event value) * option exn * ServerProcess :=
  match t with
  | Quiet => ([], None, self)
  | RecvFails e => (send (Raise e), self)
  | Message commandstring argument_ =>
      match getattr commandstring with
      | None => (send (Raise (NoAttribute class_name commandstring)), self)
      | Some command =>
          let '(items, answer, self') := command argument_ self in
          let before :=
            LogDebug ("ProcessServer " +:+ commandstring) :: puts items in
          match answer with
          | Raise e =>
              let '(sent, failed) := send (Raise e) in
              (before ++ sent, failed, self')
          | Ok v =>
              match send_fails (Ok v) with
              | None => (before ++ [PipeSend (Ok v)], None, self')
              | Some e =>
                  let '(sent, failed) := send (Raise e) in
                  (before ++ sent, failed, self')
              end
          end
      end
  end.

(** [while self.running: ...] *)
Fixpoint loop (ticks : list (tick argument)) (self : ServerProcess)
    : list (server_event value) * loop_end * ServerProcess :=
  if running self then
    match ticks with
    | [] => ([], Polling, self)
    | t :: ticks' =>
        let '(served, failed, self1) := serve t self in
        match failed with
        | Some e => (served, Failed e, self1)
        | None =>
            let '(items, r, self2) := readDataFifo tt self1 in
            match r with
            | Raise e => (served ++ puts items, Failed e, self2)
            | Ok _ =>
                let '(rest, how, self3) := loop ticks' self2 in
                (served ++ puts items ++ rest, how, self3)
            end
        end
    end
  else ([], Finished, self).

Definition close_queues : list (server_event value) :=
  [DataClose; LoggingPutNone; LoggingClose].

(** [ServerProcess.run]: what it does, and the object when it has
    returned ([None] while it is still in the loop). *)
Definition ServerProcess_run (ticks : list (tick argument))
    (self : ServerProcess)
    : list (server_event value) * option ServerProcess :=
  let '(looped, how, self') := loop ticks self in
  match how with
  | Polling => (ConfigureServerLogging :: looped, None)
  | Finished =>
      (ConfigureServerLogging :: looped
         ++ [DataPut FinishException;
             LogInfo "Pulser Hardware Server Process finished."]
         ++ close_queues,
       Some self')
  | Failed e =>
      (ConfigureServerLogging :: looped
         ++ [LogError ("Pulser Hardware Server Process exception "
                       +:+ exn_str e)]
         ++ close_queues,
       Some self')
  end.

(** What was sent on the command pipe, and what was put on the data
    queue, in order. *)
Definition sent (events : list (server_event value)) : list (Res value) :=
  omap (fun e => match e with PipeSend answer => Some answer | _ => None end)
    events.

Definition data_queue (events : list (server_event value))
    : list (queue_item value) :=
  omap (fun e => match e with DataPut item => Some item | _ => None end)
    events.

(** The messages among the ticks. *)
Definition is_message (t : tick argument) : bool :=
  match t with Quiet => false | _ => true end.

(** What the pipe gets for a method's result: the result, or the
    exception [send] raised on it. *)
Definition answer_for (result : Res value) : Res value :=
  match result with
  | Raise e => Raise e
  | Ok v => match send_fails (Ok v) with
            | None => Ok v
            | Some e => Raise e
            end
  end.

(** [answer] is what the message of tick [t] is answered with. *)
Definition answers (t : tick argument) (answer : Res value) : Prop :=
  match t with
  | Quiet => False
  | RecvFails e => answer = Raise e
  | Message commandstring argument_ =>
      match getattr commandstring with
      | None => answer = Raise (NoAttribute class_name commandstring)
      | Some command =>
          exists self, answer = answer_for (command argument_ self).1.2
      end
  end.

(** The method a message names, if there is one, leaves [running] set. *)
Definition stays_running (t : tick argument) : Prop :=
  match t with
  | Message commandstring argument_ =>
      forall command self,
        getattr commandstring = Some command ->
        running self = true -> running (command argument_ self).2 = true
  | _ => True
  end.
End ServerProcess.

Arguments running {attrs} _.
Arguments attributes {attrs} _.
Arguments mkServerProcess {attrs} running attributes.

(** A server that counts: [add] adds its argument to the counter and
    puts the sum on the data queue, [fail] raises, [finish] clears
    [running]. *)
Definition counter_getattr (name : string) : option (method Z Z Z Z) :=
  if decide (name = "add") then
    Some (fun n self =>
            let total := (attributes self + n)%Z in
            ([total], Ok total, mkServerProcess (running self) total))
  else if decide (name = "fail") then
    Some (fun _ self => ([], Raise (ValueError "fail"), self))
  else if decide (name = "finish") then
    Some (fun _ self => ([], Ok 0%Z, mkServerProcess false (attributes self)))
  else None.

Definition counter_readDataFifo : method Z Z unit unit :=
  fun _ self => ([], Ok tt, self).

(** Its pipe cannot send a number above 100. *)
Definition counter_send_fails (x : Res Z) : option exn :=
  match x with
  | Ok v => if decide (100 < v)%Z
            then Some (mkExn "PicklingError" "number too large")
            else None
  | Raise _ => None
  end.

(** * Properties *)

(** ** Dictionaries whose order matters *)

Lemma odict_lookup_empty {V : Type} (key : string) :
  (∅ : odict V) !! key = None.
Proof. reflexivity. Qed.

Lemma odict_lookup_insert_eq {V : Type} (d : odict V) (key : string)
    (value : V) :
  <[key := value]> d !! key = Some value.
Proof.
  destruct d as [l]. unfold lookup, insert, odict_lookup, odict_insert. simpl.
  induction l as [|[k v] l IH]; simpl.
  - now rewrite decide_True.
  - destruct (decide (k = key)) as [->|Hne]; simpl.
    + now rewrite decide_True.
    + now rewrite decide_False.
Qed.

Lemma odict_lookup_insert_ne {V : Type} (d : odict V) (key other : string)
    (value : V) :
  key <> other -> <[key := value]> d !! other = d !! other.
Proof.
  intros Hne. destruct d as [l].
  unfold lookup, insert, odict_lookup, odict_insert. simpl.
  induction l as [|[k v] l IH]; simpl.
  - now rewrite decide_False.
  - destruct (decide (k = key)) as [->|Hk]; simpl.
    + now rewrite !decide_False.
    + destruct (decide (k = other)); [reflexivity | exact IH].
Qed.

Lemma odict_lookup_delete_eq {V : Type} (d : odict V) (key : string) :
  delete key d !! key = None.
Proof.
  destruct d as [l]. unfold lookup, delete, odict_lookup, odict_delete. simpl.
  unfold items_delete. induction l as [|[k v] l IH]; [reflexivity|].
  rewrite filter_cons. simpl. destruct (decide (k <> key)) as [Hne|_].
  - simpl. now rewrite decide_False.
  - exact IH.
Qed.

Lemma odict_lookup_delete_ne {V : Type} (d : odict V) (key other : string) :
  key <> other -> delete key d !! other = d !! other.
Proof.
  intros Hne. destruct d as [l].
  unfold lookup, delete, odict_lookup, odict_delete. simpl.
  unfold items_delete. induction l as [|[k v] l IH]; [reflexivity|].
  rewrite filter_cons. simpl. destruct (decide (k <> key)) as [Hk|Hk].
  - simpl. destruct (decide (k = other)); [reflexivity | exact IH].
  - apply dec_stable in Hk. subst k. now rewrite decide_False.
Qed.

Lemma odict_lookup_delete_Some {V : Type} (d : odict V) (key other : string)
    (value : V) :
  delete key d !! other = Some value -> key <> other /\ d !! other = Some value.
Proof.
  intros Hl. destruct (decide (key = other)) as [->|Hne].
  - now rewrite odict_lookup_delete_eq in Hl.
  - split; [exact Hne|]. now rewrite odict_lookup_delete_ne in Hl.
Qed.

(** A new key goes last. *)
Lemma odict_insert_new {V : Type} (d : odict V) (key : string) (value : V) :
  d !! key = None -> items (<[key := value]> d) = items d ++ [(key, value)].
Proof.
  destruct d as [l]. unfold lookup, insert, odict_lookup, odict_insert. simpl.
  induction l as [|[k v] l IH]; simpl; [reflexivity|].
  destruct (decide (k = key)); [discriminate|].
  intros Hl. now rewrite IH.
Qed.

(** A value that a lookup finds is among the values of the dict. *)
Lemma elem_of_dict_values {V : Type} (d : odict V) (key : string) (value : V) :
  d !! key = Some value -> value ∈ dict_values d.
Proof.
  destruct d as [l]. unfold lookup, odict_lookup, dict_values. simpl.
  induction l as [|[k v] l IH]; simpl; [discriminate|].
  destruct (decide (k = key)).
  - intros [= ->]. left.
  - intros Hl. right. now apply IH.
Qed.

(** ** Shutter words *)

Lemma get_shutter_bit_testbit (shutter index : Z) :
  (0 <= index)%Z ->
  get_shutter_bit shutter index = Ok (Z.testbit shutter index).
Proof.
  intros Hi. unfold get_shutter_bit, py_rshift.
  destruct (decide (index < 0)%Z) as [Hn|_]; [lia|].
  f_equal.
  assert (Hb : Z.land (Z.shiftr shutter index) 1
               = Z.b2z (Z.testbit shutter index)).
  { change 1%Z with (Z.ones 1). rewrite Z.land_ones by lia.
    rewrite <- Z.bit0_mod, Z.shiftr_spec by lia.
    now rewrite Z.add_0_l. }
  rewrite Hb. now destruct (Z.testbit shutter index).
Qed.

Lemma set_shutter_bit_ok (shutter index : Z) (value : bool) :
  (0 <= index)%Z ->
  set_shutter_bit shutter index value
  = Ok (Z.lor (Z.land shutter (Z.lnot (Z.shiftl 1 index)))
              (Z.land (Z.shiftl (Z.b2z value) index) (Z.shiftl 1 index))).
Proof.
  intros Hi. unfold set_shutter_bit, py_lshift.
  destruct (decide (index < 0)%Z); [lia|reflexivity].
Qed.

Lemma testbit_one_shifted (index j : Z) :
  (0 <= index)%Z -> (0 <= j)%Z ->
  Z.testbit (Z.shiftl 1 index) j = bool_decide (j = index).
Proof.
  intros Hi Hj. rewrite Z.shiftl_spec by lia.
  case_bool_decide as Hd.
  - subst. now rewrite Z.sub_diag.
  - destruct (Z.lt_ge_cases j index).
    + apply Z.testbit_neg_r. lia.
    + destruct (j - index)%Z as [|p|p] eqn:Hp; [lia| |lia].
      now destruct p.
Qed.

Lemma testbit_b2z_shifted (value : bool) (index j : Z) :
  (0 <= index)%Z -> (0 <= j)%Z ->
  Z.testbit (Z.shiftl (Z.b2z value) index) j
  = bool_decide (j = index) && value.
Proof.
  intros Hi Hj. destruct value; simpl.
  - rewrite testbit_one_shifted by lia. now rewrite andb_true_r.
  - rewrite Z.shiftl_0_l, Z.bits_0. now rewrite andb_false_r.
Qed.

Lemma set_shutter_bit_testbit (shutter index j : Z) (value : bool) :
  (0 <= index)%Z -> (0 <= j)%Z ->
  exists shutter',
    set_shutter_bit shutter index value = Ok shutter' /\
    Z.testbit shutter' j
    = if bool_decide (j = index) then value else Z.testbit shutter j.
Proof.
  intros Hi Hj. eexists. split; [now apply set_shutter_bit_ok|].
  rewrite Z.lor_spec, !Z.land_spec, Z.lnot_spec by lia.
  rewrite testbit_b2z_shifted, testbit_one_shifted by lia.
  case_bool_decide; simpl.
  - rewrite andb_false_r. simpl. now rewrite andb_true_r.
  - now rewrite andb_true_r, orb_false_r.
Qed.

(** ** [findText] *)

Lemma findText_ge (items : list string) (text : string) :
  (-1 <= findText items text)%Z.
Proof.
  induction items as [|item rest IH]; simpl; [lia|].
  destruct (decide (item = text)); [lia|].
  destruct (decide (findText rest text = -1)%Z); lia.
Qed.

Lemma findText_absent (items : list string) (text : string) :
  findText items text = (-1)%Z <-> text ∉ items.
Proof.
  induction items as [|item rest IH]; simpl.
  - split; [intros _; apply not_elem_of_nil | reflexivity].
  - destruct (decide (item = text)) as [->|Hne].
    + split; [lia | intros Hn; exfalso; apply Hn; left].
    + rewrite not_elem_of_cons.
      destruct (decide (findText rest text = -1)%Z) as [He|He].
      * split; [intros _; split; [congruence | now apply IH] | reflexivity].
      * pose proof (findText_ge rest text).
        split; [lia | intros [_ Hn]; apply IH in Hn; contradiction].
Qed.

(** ** Running handler code *)

Ltac fields :=
  cbv beta delta
    [set_stopped set_paused set_waitOnScan set_repeat set_scanIsRunning
     set_analysisReady set_dataReady set_allDataReady set_exception
     set_data set_allData set_analysisResults set_genericResult
     set_isRunning set_scriptTraces set_traceAlreadyCreated
     set_globalVariablesRevertDict set_namedTraceList set_globalDict
     set_shutter set_scanSettingsName set_evaluationSettingsName
     set_currentAnalysisName set_script set_self set_ui
     set_mutexHeld set_waiters set_log upd_script upd_self upd_ui];
  cbn [stopped paused waitOnScan repeat scanIsRunning analysisReady
       dataReady allDataReady exception data allData
       analysisResults genericResult shortname isRunning
       scriptTraces traceAlreadyCreated globalVariablesRevertDict
       namedTraceList globalDict shutter scanNames
       scanSettingsName evaluationNames evaluationSettingsName
       analysisDefinitionDict currentAnalysisName plotDict script
       self ui mutexHeld waiters log fst snd].

Ltac run :=
  unfold scriptCommand, baseScriptCommand, with_lock, lock, unlock, assign,
    emit, writeToConsole, try_finally, try_except, bind, ret, raise, get,
    modify, lift, wakeAll;
  simpl.

(** Call-by-value evaluation of handler code on a world given by its
    components. *)
Ltac evaluate :=
  cbv beta iota zeta delta
    [scriptCommand baseScriptCommand with_lock lock unlock assign emit
     writeToConsole try_finally try_except bind ret raise get modify lift
     wakeAll events
     set_stopped set_paused set_waitOnScan set_repeat set_scanIsRunning
     set_analysisReady set_dataReady set_allDataReady set_exception
     set_data set_allData set_analysisResults set_genericResult
     set_isRunning set_scriptTraces set_traceAlreadyCreated
     set_globalVariablesRevertDict set_namedTraceList set_globalDict
     set_shutter set_scanSettingsName set_evaluationSettingsName
     set_currentAnalysisName set_script set_self set_ui
     set_mutexHeld set_waiters set_log upd_script upd_self upd_ui
     stopped paused waitOnScan repeat scanIsRunning analysisReady
     dataReady allDataReady exception data allData analysisResults
     genericResult shortname isRunning scriptTraces traceAlreadyCreated
     globalVariablesRevertDict namedTraceList globalDict shutter
     scanNames scanSettingsName evaluationNames evaluationSettingsName
     analysisDefinitionDict currentAnalysisName plotDict script self ui
     mutexHeld waiters log];
  cbn [fst snd].

Section ScriptHandlerProperties.
Context `{Runtime}.
Local Open Scope monad_scope.

(** *** The shutter *)

(** C10.  For a shutter word, a bit index and a value, [onSetShutter]
    writes a word whose bit [index] is [value] and whose other bits are
    those of the old word, and changes nothing else; [getShutter index]
    then returns [value], and [getShutter j] for another bit returns
    what it returned before. *)
Theorem onSetShutter_frame (w : World) (index : Z) (value : bool) :
  (0 <= index)%Z ->
  exists shutter',
    onSetShutter index value w
    = (Ok (false, Some ("Set shutter " +:+ str_int index +:+ " to "
                         +:+ str_bool value)),
       upd_ui (set_shutter shutter') w) /\
    (forall j, (0 <= j)%Z ->
      Z.testbit shutter' j
      = if bool_decide (j = index) then value
        else Z.testbit (shutter (ui w)) j) /\
    (getShutter index (upd_ui (set_shutter shutter') w)).1 = Ok value /\
    (forall j, (0 <= j)%Z -> j <> index ->
      (getShutter j (upd_ui (set_shutter shutter') w)).1
      = (getShutter j w).1).
Proof.
  intros Hi.
  destruct (set_shutter_bit_testbit (shutter (ui w)) index index value Hi Hi)
    as (s' & Hs & _).
  exists s'. split; [|split; [|split]].
  - unfold onSetShutter. run. rewrite Hs. reflexivity.
  - intros j Hj.
    destruct (set_shutter_bit_testbit (shutter (ui w)) index j value Hi Hj)
      as (s'' & Hs' & Hbit).
    rewrite Hs in Hs'. injection Hs' as <-. exact Hbit.
  - unfold getShutter. run. rewrite get_shutter_bit_testbit by lia. simpl.
    destruct (set_shutter_bit_testbit (shutter (ui w)) index index value Hi Hi)
      as (s'' & Hs' & Hbit).
    rewrite Hs in Hs'. injection Hs' as <-. rewrite Hbit.
    now rewrite bool_decide_eq_true_2.
  - intros j Hj Hne. unfold getShutter. run.
    rewrite !get_shutter_bit_testbit by lia. simpl.
    destruct (set_shutter_bit_testbit (shutter (ui w)) index j value Hi Hj)
      as (s'' & Hs' & Hbit).
    rewrite Hs in Hs'. injection Hs' as <-. rewrite Hbit.
    now rewrite bool_decide_eq_false_2.
Qed.

(** *** The decorator *)

Lemma scriptCommand_returns (func : M (bool * option string)) (w : World) :
  (scriptCommand func w).1 = Ok tt.
Proof.
  run. destruct (func w) as [[[[] m]|e] w1]; simpl;
    try destruct (truthy m); reflexivity.
Qed.

Lemma scriptCommand_ui (func : M (bool * option string)) (w : World) :
  ui (scriptCommand func w).2 = ui (func w).2.
Proof.
  run. destruct (func w) as [[[[] m]|e] w1]; simpl;
    try destruct (truthy m); reflexivity.
Qed.

Lemma scriptCommand_self (func : M (bool * option string)) (w : World) :
  self (scriptCommand func w).2 = self (func w).2.
Proof.
  run. destruct (func w) as [[[[] m]|e] w1]; simpl;
    try destruct (truthy m); reflexivity.
Qed.

(** What the decorator leaves in [script.exception]. *)
Lemma scriptCommand_exception (func : M (bool * option string)) (w : World) :
  exception (script (scriptCommand func w).2)
  = match func w with
    | (Raise e, _) => Some e
    | (Ok (true, message), _) =>
        Some (ScriptException (if truthy message then str_message message
                               else EmptyString))
    | (Ok (false, _), w1) => exception (script w1)
    end.
Proof.
  run. destruct (func w) as [[[[] m]|e] w1]; simpl;
    try destruct (truthy m); reflexivity.
Qed.

(** Nobody stays blocked on [guiWait]. *)
Lemma scriptCommand_wakes_gui (func : M (bool * option string)) (w : World) :
  waiting_on guiWait (waiters (scriptCommand func w).2) = [].
Proof.
  assert (Hf : forall ws : list (thread * cv),
             waiting_on guiWait (filter (fun p => p.2 <> guiWait) ws) = []).
  { intros ws. unfold waiting_on. induction ws as [|[t c] ws IH]; [done|].
    rewrite filter_cons. simpl. destruct (decide (c <> guiWait)) as [Hc|Hc].
    - rewrite filter_cons. simpl. destruct (decide (c = guiWait)); [done|].
      exact IH.
    - exact IH. }
  run. destruct (func w) as [[[[] m]|e] w1]; simpl;
    try destruct (truthy m); simpl; apply Hf.
Qed.

(** An error reported by a handler: logged, written to the console as
    an error, stored in [script.exception] under the mutex, and [guiWait]
    woken afterwards. *)
Lemma scriptCommand_reports (func : M (bool * option string)) (w w1 : World)
    (message : string) :
  func w = (Ok (true, Some message), w1) ->
  message <> EmptyString ->
  exception (script (scriptCommand func w).2)
  = Some (ScriptException message) /\
  log (scriptCommand func w).2
  = log w1 ++ [EvLog ERROR message; EvConsole message true EmptyString;
               EvLock; EvAssign "exception"; EvPrintExc; EvLog ERROR "None";
               EvUnlock;
               EvWakeAll guiWait (waiting_on guiWait (waiters w1))].
Proof.
  intros Hf Hm. run. rewrite Hf. simpl.
  rewrite bool_decide_eq_false_2 by exact Hm. simpl. fields.
  split; [reflexivity|]. now rewrite <- !app_assoc.
Qed.

Lemma rejects_intro (handler : M (bool * option string)) (message : string)
    (w : World) :
  handler w = (Ok (true, Some message), w) -> rejects handler message w.
Proof.
  intros Hh. split; [exact Hh|].
  rewrite scriptCommand_ui, scriptCommand_self, Hh. done.
Qed.

(** *** Unknown names *)

(** C3.  A name that is not registered makes [onSetGlobal], [onSetScan],
    [onSetEvaluation] and [onSetAnalysis] return [error = True] with the
    message that names it, and nothing is changed: no global is
    updated, no setting is loaded, the active scan, evaluation and
    analysis stay. *)
Theorem unknown_name_rejected (w : World) (name : string) :
  (forall value unit,
     globalDict (ui w) !! name = None ->
     rejects (onSetGlobal name value unit)
       ("Global variable " +:+ name +:+ " does not exist.") w) /\
  (name ∉ scanNames (ui w) ->
     rejects (onSetScan name) ("Scan " +:+ name +:+ " does not exist.") w) /\
  (name ∉ evaluationNames (ui w) ->
     rejects (onSetEvaluation name)
       ("Evaluation " +:+ name +:+ " does not exist.") w) /\
  (name ∉ analysisDefinitionDict (ui w) ->
     rejects (onSetAnalysis name)
       ("Analysis " +:+ name +:+ " does not exist.") w).
Proof.
  split; [|split; [|split]].
  - intros value unit Hn. apply rejects_intro.
    unfold onSetGlobal. run.
    now rewrite bool_decide_eq_true_2.
  - intros Hn. apply rejects_intro.
    unfold onSetScan. run.
    rewrite bool_decide_eq_true_2; [done | now apply findText_absent].
  - intros Hn. apply rejects_intro.
    unfold onSetEvaluation. run.
    rewrite bool_decide_eq_true_2; [done | now apply findText_absent].
  - intros Hn. apply rejects_intro.
    unfold onSetAnalysis. run.
    now rewrite bool_decide_eq_true_2.
Qed.

(** *** The revert snapshot of [onSetGlobal] *)

Lemma onSetGlobal_records (w : World) (name : string) (value : float)
    (unit : string) (original : quantity) :
  globalDict (ui w) !! name = Some original ->
  globalVariablesRevertDict (self w) !! name = None ->
  globalVariablesRevertDict (self (onSetGlobal name value unit w).2) !! name
  = Some original.
Proof.
  intros Hg Hr. unfold onSetGlobal, model_update. run.
  rewrite bool_decide_eq_false_2 by congruence.
  rewrite bool_decide_eq_true_2 by exact Hr.
  rewrite Hg. simpl. apply lookup_insert_eq.
Qed.

Lemma onSetGlobal_keeps (w : World) (name name' : string) (value : float)
    (unit : string) (snapshot : quantity) :
  globalVariablesRevertDict (self w) !! name = Some snapshot ->
  globalVariablesRevertDict (self (onSetGlobal name' value unit w).2) !! name
  = Some snapshot.
Proof.
  intros Hr. unfold onSetGlobal, model_update. run.
  case_bool_decide as Hg; [exact Hr|].
  case_bool_decide as Hn; simpl; [|exact Hr].
  destruct (globalDict (ui w) !! name') as [g|]; simpl; [|exact Hr].
  rewrite lookup_insert_ne; [exact Hr | congruence].
Qed.

Lemma set_globals_keeps (calls : list (string * float * string))
    (w : World) (name : string) (snapshot : quantity) :
  globalVariablesRevertDict (self w) !! name = Some snapshot ->
  globalVariablesRevertDict (self (set_globals calls w)) !! name
  = Some snapshot.
Proof.
  revert w. induction calls as [|[[n v] u] calls IH]; intros w Hr;
    [exact Hr|].
  simpl. apply IH. unfold onSetGlobal_slot.
  rewrite scriptCommand_self. now apply onSetGlobal_keeps.
Qed.

(** C4.  In a script run, the first [onSetGlobal] on an existing global
    records in [globalVariablesRevertDict] the value the global had
    before that call, every later [onSetGlobal] leaves that entry as it
    is, and starting a script run clears the dictionary. *)
Theorem revert_snapshot_recorded_once (w : World) (name : string) :
  (forall original value unit,
     globalDict (ui w) !! name = Some original ->
     globalVariablesRevertDict (self w) !! name = None ->
     let w1 := (onSetGlobal_slot name value unit w).2 in
     globalVariablesRevertDict (self w1) !! name = Some original /\
     forall later,
       globalVariablesRevertDict (self (set_globals later w1)) !! name
       = Some original) /\
  (isRunning (script w) = false ->
   globalVariablesRevertDict (self (onStartScript w).2) = ∅).
Proof.
  split.
  - intros original value unit Hg Hr w1.
    assert (H1 : globalVariablesRevertDict (self w1) !! name = Some original).
    { unfold w1, onSetGlobal_slot. rewrite scriptCommand_self.
      now apply onSetGlobal_records. }
    split; [exact H1|]. intros later. now apply set_globals_keeps.
  - intros Hrun. unfold onStartScript. run. rewrite Hrun. reflexivity.
Qed.

(** *** Plotting to a trace *)

(** The handler starts with both dictionaries empty, and every handler
    that writes one of them keeps each script trace registered. *)
Lemma new_handler_registered (h : Handler) :
  scriptTraces h = ∅ -> traces_registered h.
Proof. intros He name. rewrite He, odict_lookup_empty. now intros [? ?]. Qed.

Lemma onCreateTrace_registered (w : World) (traceCreationData : list string) :
  traces_registered (self w) ->
  traces_registered (self (onCreateTrace traceCreationData w).2).
Proof.
  intros Hreg. unfold onCreateTrace.
  destruct traceCreationData as [|a [|b [|c [|d [|e [|? ?]]]]]];
    try exact Hreg.
  run. case_bool_decide; [exact Hreg|]. intros name. fields.
  destruct (decide (a = name)) as [->|Hne].
  - rewrite ?lookup_insert_eq, ?odict_lookup_insert_eq. eauto.
  - rewrite ?lookup_insert_ne, ?odict_lookup_insert_ne by done. apply Hreg.
Qed.

Lemma onCloseTrace_registered (w : World) (traceName : string) :
  traces_registered (self w) ->
  traces_registered (self (onCloseTrace traceName w).2).
Proof.
  intros Hreg. unfold onCloseTrace, finalize, registerMeasurement. run.
  destruct (scriptTraces (self w) !! traceName) eqn:Ht; [|exact Hreg].
  intros name. fields. destruct (decide (traceName = name)) as [->|Hne].
  - rewrite odict_lookup_delete_eq. now intros [? ?].
  - rewrite odict_lookup_delete_ne by done. apply Hreg.
Qed.

Lemma plotList_registered (w : World) (xList yList : list float)
    (traceName : string) (overwrite : bool) (plotStyle : Z) :
  traces_registered (self w) ->
  traces_registered (self (plotList xList yList traceName overwrite plotStyle w).2).
Proof.
  intros Hreg. unfold plotList. run.
  destruct (scriptTraces (self w) !! traceName) as [t|] eqn:Ht;
    [|exact Hreg].
  destruct (traceAlreadyCreated (self w) !! traceName) as [created|] eqn:Hc;
    [|exact Hreg].
  case_bool_decide; simpl; [|exact Hreg].
  destruct created; intros name; fields;
    (destruct (decide (traceName = name)) as [->|Hne];
     [ rewrite ?lookup_insert_eq, ?odict_lookup_insert_eq; eauto
     | rewrite ?lookup_insert_ne, ?odict_lookup_insert_ne by done; apply Hreg ]).
Qed.

Lemma finalize_ok (t : PlottedTrace) (w : World) :
  exists w', finalize t w = (Ok tt, w') /\ self w' = self w.
Proof. unfold finalize, registerMeasurement. run. eauto. Qed.

Lemma finalize_all_self (l : list PlottedTrace) (w : World) :
  (for_each l finalize w).1 = Ok tt /\
  self (for_each l finalize w).2 = self w.
Proof.
  revert w. induction l as [|t rest IH]; intros w; [done|].
  destruct (finalize_ok t w) as (w' & Hf & Hs).
  simpl. unfold bind. rewrite Hf, <- Hs. apply IH.
Qed.

Lemma onFinished_registered (w : World) :
  traces_registered (self (onFinished w).2).
Proof.
  unfold onFinished.
  pose proof (finalize_all_self
                (dict_values (scriptTraces (self w))) w) as [Hok _].
  run.
  destruct (for_each _ finalize w) as [[[]|e] w1]; [|discriminate].
  now apply new_handler_registered.
Qed.

(** C9.  With an existing trace and lists of unequal lengths,
    [plotList] (and so [onPlotList]) returns the error flag with
    'x and y lists are of unequal lengths' and changes nothing, so the
    trace's data and its flag in [traceAlreadyCreated] stay; with a name
    that is not in [scriptTraces], [plotList], [onPlotList] and
    [onPlotPoint] return the error flag with 'Trace ... does not exist'
    and change nothing, so no trace is created. *)
Theorem plotList_rejects (w : World) (xList yList : list float)
    (traceName : string) (overwrite : bool) (plotStyle : Z) :
  traces_registered (self w) ->
  (is_Some (scriptTraces (self w) !! traceName) ->
   length xList <> length yList ->
   plotList xList yList traceName overwrite plotStyle w
   = (Ok (true, Some "x and y lists are of unequal lengths"), w) /\
   rejects (onPlotList xList yList traceName overwrite plotStyle)
     "x and y lists are of unequal lengths" w) /\
  (scriptTraces (self w) !! traceName = None ->
   plotList xList yList traceName overwrite plotStyle w
   = (Ok (true, Some ("Trace " +:+ traceName +:+ " does not exist")), w) /\
   rejects (onPlotList xList yList traceName overwrite plotStyle)
     ("Trace " +:+ traceName +:+ " does not exist") w /\
   forall x y,
     rejects (onPlotPoint x y traceName plotStyle)
       ("Trace " +:+ traceName +:+ " does not exist") w).
Proof.
  intros Hreg. split.
  - intros Ht Hlen.
    assert (Hp : plotList xList yList traceName overwrite plotStyle w
                 = (Ok (true, Some "x and y lists are of unequal lengths"), w)).
    { destruct (Hreg traceName Ht) as [created Hc]. destruct Ht as [t Ht].
      unfold plotList. run. rewrite Ht, Hc.
      now rewrite bool_decide_eq_false_2. }
    split; [exact Hp | now apply rejects_intro].
  - intros Ht.
    assert (Hp : forall xs ys ov,
              plotList xs ys traceName ov plotStyle w
              = (Ok (true, Some ("Trace " +:+ traceName +:+ " does not exist")), w)).
    { intros xs ys ov. unfold plotList. run. now rewrite Ht. }
    split; [apply Hp|]. split; [apply rejects_intro, Hp|].
    intros x y. apply rejects_intro. unfold onPlotPoint. apply Hp.
Qed.

(** *** Waking *)

Lemma waiting_on_filter (c c' : cv) (ws : list (thread * cv)) :
  waiting_on c (filter (fun p => p.2 <> c') ws)
  = if decide (c = c') then [] else waiting_on c ws.
Proof.
  unfold waiting_on. destruct (decide (c = c')) as [->|Hcc].
  - induction ws as [|[t d] ws IH]; [done|].
    rewrite filter_cons. cbn [snd].
    destruct (decide (d <> c')) as [Hd|Hd]; [|exact IH].
    rewrite filter_cons. cbn [snd].
    destruct (decide (d = c')); [contradiction | exact IH].
  - induction ws as [|[t d] ws IH]; [done|].
    rewrite (filter_cons (fun p => p.2 <> c')),
            (filter_cons (fun p => p.2 = c) (t, d) ws). cbn [snd].
    destruct (decide (d = c)) as [->|Hdc].
    + destruct (decide (c <> c')); [|contradiction].
      rewrite filter_cons. cbn [snd].
      destruct (decide (c = c)); [|contradiction].
      rewrite !fmap_cons. f_equal. exact IH.
    + destruct (decide (d <> c')); [|exact IH].
      rewrite filter_cons. cbn [snd].
      destruct (decide (d = c)); [contradiction | exact IH].
Qed.

Lemma events_app {A} (m : M A) (w : World) (l : list event) :
  log (m w).2 = log w ++ l -> events m w = l.
Proof. intros Hl. unfold events. rewrite Hl. apply drop_app_length. Qed.

(** C1, as the code runs.  [onStopScript] sets the stopped flag and
    the three ready flags and releases every thread blocked on
    [guiWait], [pauseWait], [scanWait], [dataWait], [analysisWait] or
    [genericWait]; it never calls [allDataWait.wakeAll()], so whoever
    is blocked on [allDataWait] stays blocked. *)
Theorem onStopScript_effect (w : World) :
  let w' := (onStopScript w).2 in
  (onStopScript w).1 = Ok tt /\
  stopped (script w') = true /\
  paused (script w') = false /\
  analysisReady (script w') = true /\
  dataReady (script w') = true /\
  allDataReady (script w') = true /\
  (forall c, c <> allDataWait -> waiting_on c (waiters w') = []) /\
  waiting_on allDataWait (waiters w') = waiting_on allDataWait (waiters w) /\
  (forall t, wakeups t allDataWait (events onStopScript w) = 0).
Proof.
  destruct w as [[] h u m ws l]. unfold onStopScript. evaluate.
  repeat (split; [reflexivity|]).
  split; [|split].
  - intros c Hc. rewrite !waiting_on_filter.
    destruct c; simpl; try reflexivity. contradiction.
  - now rewrite !waiting_on_filter.
  - intros t. rewrite <- !app_assoc, drop_app_length. reflexivity.
Qed.

Lemma elem_of_waiting_on (t : thread) (c : cv) (ws : list (thread * cv)) :
  t ∈ waiting_on c ws <-> (t, c) ∈ ws.
Proof.
  unfold waiting_on. rewrite list_elem_of_fmap. split.
  - intros [[t' c'] [-> Hin]]. apply list_elem_of_filter in Hin as [Hc Hin].
    simpl in *. now subst.
  - intros Hin. exists (t, c). split; [done|].
    apply list_elem_of_filter. done.
Qed.

(** *** The producers of the result slots *)

Lemma onData_events (w : World) (value : pyval) :
  events (onData value) w
  = [EvLock; EvAssign "data"; EvAssign "dataReady";
     EvWakeAll dataWait (waiting_on dataWait (waiters w)); EvUnlock].
Proof.
  apply events_app. unfold onData. run. fields.
  now rewrite <- !app_assoc.
Qed.

Lemma onAllData_events (w : World) (value : pyval) :
  events (onAllData value) w
  = [EvLock; EvAssign "allData"; EvAssign "allDataReady";
     EvWakeAll allDataWait (waiting_on allDataWait (waiters w)); EvUnlock].
Proof.
  apply events_app. unfold onAllData. run. fields.
  now rewrite <- !app_assoc.
Qed.

Lemma onAnalysisResult_events (w : World) (value : pyval) :
  events (onAnalysisResult value) w
  = [EvLock; EvAssign "analysisResults"; EvAssign "analysisReady";
     EvWakeAll analysisWait (waiting_on analysisWait (waiters w)); EvUnlock].
Proof.
  apply events_app. unfold onAnalysisResult. run. fields.
  now rewrite <- !app_assoc.
Qed.

(** A consumer blocked on the slot's wait condition is released once,
    and finds the slot filled with the value of this event. *)
Lemma producers_deliver (w : World) (value : pyval) (t : thread) :
  ((t, dataWait) ∈ waiters w ->
   data (script (onData value w).2) = value /\
   dataReady (script (onData value w).2) = true /\
   wakeups t dataWait (events (onData value) w) = 1 /\
   (t, dataWait) ∉ waiters (onData value w).2) /\
  ((t, allDataWait) ∈ waiters w ->
   allData (script (onAllData value w).2) = value /\
   allDataReady (script (onAllData value w).2) = true /\
   wakeups t allDataWait (events (onAllData value) w) = 1 /\
   (t, allDataWait) ∉ waiters (onAllData value w).2) /\
  ((t, analysisWait) ∈ waiters w ->
   analysisResults (script (onAnalysisResult value w).2) = value /\
   analysisReady (script (onAnalysisResult value w).2) = true /\
   wakeups t analysisWait (events (onAnalysisResult value) w) = 1 /\
   (t, analysisWait) ∉ waiters (onAnalysisResult value w).2).
Proof.
  split; [|split]; intros Hin.
  - rewrite onData_events. simpl.
    rewrite decide_True by (split; [done | now apply elem_of_waiting_on]).
    repeat split. unfold onData. run. fields.
    rewrite list_elem_of_filter. simpl. tauto.
  - rewrite onAllData_events. simpl.
    rewrite decide_True by (split; [done | now apply elem_of_waiting_on]).
    repeat split. unfold onAllData. run. fields.
    rewrite list_elem_of_filter. simpl. tauto.
  - rewrite onAnalysisResult_events. simpl.
    rewrite decide_True by (split; [done | now apply elem_of_waiting_on]).
    repeat split. unfold onAnalysisResult. run. fields.
    rewrite list_elem_of_filter. simpl. tauto.
Qed.

Lemma locked_eq (w : World) :
  locked w = set_mutexHeld true (set_log (log w ++ [EvLock]) w).
Proof. reflexivity. Qed.

(** A generic call whose method returns without logging anything. *)
Lemma onGenericCall_events (w w1 : World) (funcname : string)
    (args : list pyval) (kwargs : list (string * pyval)) (value : pyval) :
  getattr_call funcname args kwargs (locked w) = (Ok value, w1) ->
  log w1 = log (locked w) ->
  events (onGenericCall funcname args kwargs) w
  = [EvLock; EvAssign "genericResult"; EvUnlock;
     EvWakeAll genericWait (waiting_on genericWait (waiters w1))].
Proof.
  intros Hcall Hlog. apply events_app. unfold onGenericCall. run.
  rewrite <- locked_eq, Hcall. simpl. fields. rewrite Hlog.
  rewrite locked_eq. fields. now rewrite <- !app_assoc.
Qed.

(** What a producer leaves: the value in its slot, the ready flag set
    and nobody blocked on the slot's wait condition. *)
Lemma producers_store (w : World) (value : pyval) :
  (data (script (onData value w).2) = value /\
   dataReady (script (onData value w).2) = true /\
   waiting_on dataWait (waiters (onData value w).2) = []) /\
  (allData (script (onAllData value w).2) = value /\
   allDataReady (script (onAllData value w).2) = true /\
   waiting_on allDataWait (waiters (onAllData value w).2) = []) /\
  (analysisResults (script (onAnalysisResult value w).2) = value /\
   analysisReady (script (onAnalysisResult value w).2) = true /\
   waiting_on analysisWait (waiters (onAnalysisResult value w).2) = []).
Proof.
  split; [|split].
  - unfold onData. run. fields. rewrite waiting_on_filter.
    now rewrite decide_True by reflexivity.
  - unfold onAllData. run. fields. rewrite waiting_on_filter.
    now rewrite decide_True by reflexivity.
  - unfold onAnalysisResult. run. fields. rewrite waiting_on_filter.
    now rewrite decide_True by reflexivity.
Qed.

(** A generic call whose method returns stores what it returned. *)
Lemma onGenericCall_stores (w w1 : World) (funcname : string)
    (args : list pyval) (kwargs : list (string * pyval)) (value : pyval) :
  getattr_call funcname args kwargs (locked w) = (Ok value, w1) ->
  genericResult (script (onGenericCall funcname args kwargs w).2) = value.
Proof.
  intros Hcall. unfold onGenericCall. run.
  rewrite <- locked_eq, Hcall. reflexivity.
Qed.

(** C5, as the code has it.  [onData], [onAllData] and
    [onAnalysisResult] take the Script mutex, store the value, set the
    ready flag, call [wakeAll] on the slot's wait condition and only then
    release the mutex: these five events are all they do, the value is
    in the slot, the flag is set and nobody is left blocked on the
    condition.  [onGenericCall] stores what the method returned in
    [genericResult] while holding the mutex.  The decorator
    [scriptCommand] wakes [guiWait] as its last act, after every
    locker's scope has ended: when the handler leaves the mutex
    released, [guiWait.wakeAll()] is called without it. *)
Theorem producers_wake_under_lock (w : World) (value : pyval) :
  (data (script (onData value w).2) = value /\
   dataReady (script (onData value w).2) = true /\
   waiting_on dataWait (waiters (onData value w).2) = [] /\
   events (onData value) w
   = [EvLock; EvAssign "data"; EvAssign "dataReady";
      EvWakeAll dataWait (waiting_on dataWait (waiters w)); EvUnlock]) /\
  (allData (script (onAllData value w).2) = value /\
   allDataReady (script (onAllData value w).2) = true /\
   waiting_on allDataWait (waiters (onAllData value w).2) = [] /\
   events (onAllData value) w
   = [EvLock; EvAssign "allData"; EvAssign "allDataReady";
      EvWakeAll allDataWait (waiting_on allDataWait (waiters w)); EvUnlock]) /\
  (analysisResults (script (onAnalysisResult value w).2) = value /\
   analysisReady (script (onAnalysisResult value w).2) = true /\
   waiting_on analysisWait (waiters (onAnalysisResult value w).2) = [] /\
   events (onAnalysisResult value) w
   = [EvLock; EvAssign "analysisResults"; EvAssign "analysisReady";
      EvWakeAll analysisWait (waiting_on analysisWait (waiters w));
      EvUnlock]) /\
  (forall held,
     wakes_guarded held (events (onData value) w) /\
     assigns_guarded held (events (onData value) w) /\
     wakes_guarded held (events (onAllData value) w) /\
     assigns_guarded held (events (onAllData value) w) /\
     wakes_guarded held (events (onAnalysisResult value) w) /\
     assigns_guarded held (events (onAnalysisResult value) w)) /\
  (forall funcname args kwargs w1 held,
     getattr_call funcname args kwargs (locked w) = (Ok value, w1) ->
     log w1 = log (locked w) ->
     genericResult (script (onGenericCall funcname args kwargs w).2) = value /\
     events (onGenericCall funcname args kwargs) w
     = [EvLock; EvAssign "genericResult"; EvUnlock;
        EvWakeAll genericWait (waiting_on genericWait (waiters w1))] /\
     assigns_guarded held (events (onGenericCall funcname args kwargs) w)) /\
  (forall func,
     mutexHeld (func w).2 = false ->
     mutexHeld (scriptCommand func w).2 = false /\
     exists woken,
       last (log (scriptCommand func w).2) = Some (EvWakeAll guiWait woken)).
Proof.
  destruct (producers_store w value)
    as ((D1 & D2 & D3) & (A1 & A2 & A3) & (R1 & R2 & R3)).
  split; [|split; [|split; [|split; [|split]]]].
  - split; [exact D1|]. split; [exact D2|]. split; [exact D3|].
    apply onData_events.
  - split; [exact A1|]. split; [exact A2|]. split; [exact A3|].
    apply onAllData_events.
  - split; [exact R1|]. split; [exact R2|]. split; [exact R3|].
    apply onAnalysisResult_events.
  - intros held.
    rewrite onData_events, onAllData_events, onAnalysisResult_events.
    unfold wakes_guarded, assigns_guarded. simpl. done.
  - intros funcname args kwargs w1 held Hcall Hlog.
    split; [exact (onGenericCall_stores w w1 funcname args kwargs value Hcall)|].
    rewrite (onGenericCall_events w w1 funcname args kwargs value Hcall Hlog).
    split; reflexivity.
  - intros func Hm. revert Hm. run.
    destruct (func w) as [[[[] m]|e] w1]; simpl;
      try destruct (truthy m); simpl; intros Hm; fields;
      (split; [done | eexists; apply last_snoc]).
Qed.

(** *** Generic calls *)

(** A generic call whose method returns: the value is in the slot, and
    a consumer blocked on [genericWait] is released once. *)
Lemma generic_call_delivers (w w1 : World) (funcname : string)
    (args : list pyval) (kwargs : list (string * pyval)) (value : pyval)
    (t : thread) :
  getattr_call funcname args kwargs (locked w) = (Ok value, w1) ->
  (t, genericWait) ∈ waiters w1 ->
  let w' := (onGenericCall_slot funcname args kwargs w).2 in
  genericResult (script w') = value /\
  ((t, genericWait) ∉ waiters w') /\
  wakeups t genericWait (drop (length (log w1)) (log w')) = 1.
Proof.
  intros Hcall Hin. unfold onGenericCall_slot, onGenericCall. run.
  rewrite <- locked_eq, Hcall. simpl.
  assert (Hw : t ∈ waiting_on genericWait (waiters w1))
    by now apply elem_of_waiting_on.
  destruct (bool_decide
              (funcname +:+ repr_args args +:+ " executed" = EmptyString));
    simpl; fields.
  - split; [reflexivity|]. split.
    + rewrite !list_elem_of_filter. simpl. tauto.
    + rewrite <- !app_assoc, drop_app_length. simpl.
      rewrite decide_True by done. reflexivity.
  - split; [reflexivity|]. split.
    + rewrite !list_elem_of_filter. simpl. tauto.
    + rewrite <- !app_assoc, drop_app_length. simpl.
      rewrite decide_True by done. reflexivity.
Qed.

(** C2, at a generic call whose method raises.  The decorator catches
    the exception, stores it in [script.exception] and wakes [guiWait];
    [genericWait.wakeAll()] is skipped, so whoever is blocked on
    [genericWait] when the method raises stays blocked. *)
Theorem generic_call_exception_skips_wake (w w1 : World)
    (funcname : string) (args : list pyval) (kwargs : list (string * pyval))
    (e : exn) :
  getattr_call funcname args kwargs (locked w) = (Raise e, w1) ->
  let w' := (onGenericCall_slot funcname args kwargs w).2 in
  (onGenericCall_slot funcname args kwargs w).1 = Ok tt /\
  exception (script w') = Some (ScriptException (exn_str e)) /\
  waiting_on guiWait (waiters w') = [] /\
  waiting_on genericWait (waiters w') = waiting_on genericWait (waiters w1) /\
  (forall t, wakeups t genericWait (drop (length (log w1)) (log w')) = 0).
Proof.
  intros Hcall. unfold onGenericCall_slot, onGenericCall. run.
  rewrite <- locked_eq, Hcall. simpl.
  unfold truthy, str_message. simpl.
  case_bool_decide as He; simpl; fields; rewrite ?He;
    (split; [reflexivity|]); (split; [reflexivity|]);
    rewrite !waiting_on_filter; simpl;
    (split; [reflexivity|]); (split; [reflexivity|]);
    intros t; rewrite <- !app_assoc, drop_app_length; reflexivity.
Qed.

(** C6, at [getGlobal] on a global that does not exist, called through
    [onGenericCall].  [getGlobal] returns the [ScriptException] instead
    of raising it: the call counts as executed, the console gets the
    success message, [script.exception] is not set, and the exception
    object is handed to the script as the result. *)
Theorem getGlobal_unknown_not_raised (w : World) (name : string) :
  globalDict (ui w) !! name = None ->
  let w' := (onGenericCall_slot "getGlobal" [PStr name] [] w).2 in
  let message := "getGlobal" +:+ repr_args [PStr name] +:+ " executed" in
  exception (script w') = exception (script w) /\
  genericResult (script w')
  = PException (ScriptException ("Global '" +:+ name +:+ "' does not exist!")) /\
  events (onGenericCall_slot "getGlobal" [PStr name] []) w
  = [EvLock; EvAssign "genericResult"; EvUnlock;
     EvWakeAll genericWait (waiting_on genericWait (waiters w));
     EvLog DEBUG message; EvConsole message false EmptyString;
     EvWakeAll guiWait
       (waiting_on guiWait
          (filter (fun p => p.2 <> genericWait) (waiters w)))].
Proof.
  intros Hg. unfold events, onGenericCall_slot, onGenericCall, getattr_call,
    getGlobal. run. rewrite Hg. simpl. fields.
  split; [reflexivity|]. split; [reflexivity|].
  rewrite <- !app_assoc. apply drop_app_length.
Qed.

(** C8, at a generic call whose method raises ([getShutter] with a
    negative index).  A consumer blocked on [genericWait] gets no
    wakeup and [genericResult] keeps the value of an earlier request. *)
Theorem generic_call_lost_wakeup (w : World) (index : Z) (t : thread) :
  (index < 0)%Z ->
  (t, genericWait) ∈ waiters w ->
  let w' := (onGenericCall_slot "getShutter" [PInt index] [] w).2 in
  (t, genericWait) ∈ waiters w' /\
  wakeups t genericWait
    (events (onGenericCall_slot "getShutter" [PInt index] []) w) = 0 /\
  genericResult (script w') = genericResult (script w).
Proof.
  intros Hi Hin. unfold events, onGenericCall_slot, onGenericCall,
    getattr_call, getShutter, get_shutter_bit, py_rshift. run.
  rewrite decide_True by exact Hi. simpl. fields.
  split; [|split; [|reflexivity]].
  - apply list_elem_of_filter. done.
  - rewrite <- !app_assoc, drop_app_length. reflexivity.
Qed.
End ScriptHandlerProperties.

(** ** The instrument adapters *)

Section AdapterProperties.
Context `{Pint}.

Ltac channels Hc :=
  repeat (apply elem_of_cons in Hc as [Hc|Hc];
          [injection Hc as -> ->|]);
  [..|apply elem_of_nil in Hc; contradiction].

(** One configured channel of one adapter, other than a read-only
    channel of the oven and other than the mode of the DC controller. *)
Ltac plain_channel :=
  cbv zeta; unfold conversion_unit, read_only, refused; simpl;
  split; [intros (Hc & Ha & Hb); try discriminate Hc;
          try (now contradiction Ha); try (now contradiction Hb)|];
  intros _; split;
  [ intros e He;
    unfold DS345_setValue, LaserFreqPID_setValue, DC_setValue, Oven_setValue,
      Oven_set, RF_setValue, SANA_setValue; simpl; rewrite He; reflexivity
  | intros m Hm; split;
    [ intros (Hc & Ha & _); try discriminate Hc; discriminate Ha
    | intros _;
      unfold DS345_setValue, LaserFreqPID_setValue, DC_setValue,
        Oven_setValue, Oven_set, RF_setValue, SANA_setValue; simpl;
      rewrite Hm; simpl; split;
      [ reflexivity
      | eexists; split; [reflexivity | unfold from_conversion; tauto] ] ] ].

(** A read-only channel of the oven. *)
Ltac read_only_channel :=
  cbv zeta; unfold read_only; simpl;
  split; [intros _; reflexivity|];
  intros Hn; contradiction Hn; repeat split; discriminate.

End AdapterProperties.

(** ** The properties at concrete inputs *)

Lemma onSetShutter_frame_witness :
  (0 <= 1)%Z /\
  exists shutter',
    onSetShutter 1 true idle
    = (Ok (false, Some "Set shutter 1 to True"),
       upd_ui (set_shutter shutter') idle) /\
    (getShutter 1 (upd_ui (set_shutter shutter') idle)).1 = Ok true /\
    (getShutter 0 (upd_ui (set_shutter shutter') idle)).1
    = (getShutter 0 idle).1.
Proof.
  assert (Hi : (0 <= 1)%Z) by lia. split; [exact Hi|].
  destruct (onSetShutter_frame idle 1 true Hi) as (s & H1 & _ & H3 & H4).
  exists s. split; [exact H1|]. split; [exact H3|]. apply H4; lia.
Defined.

Lemma unknown_name_rejected_witness :
  globalDict (ui idle) !! "Scan_B" = None /\
  ("Scan_B" ∉ scanNames (ui idle)) /\
  ("Scan_B" ∉ evaluationNames (ui idle)) /\
  ("Scan_B" ∉ analysisDefinitionDict (ui idle)) /\
  rejects (onSetGlobal "Scan_B" 1%Z "MHz")
    "Global variable Scan_B does not exist." idle /\
  onSetScan "Scan_B" idle
  = (Ok (true, Some "Scan Scan_B does not exist."), idle) /\
  scanSettingsName (ui (onSetScan_slot "Scan_B" idle).2) = "Scan_A" /\
  rejects (onSetEvaluation "Scan_B") "Evaluation Scan_B does not exist." idle /\
  rejects (onSetAnalysis "Scan_B") "Analysis Scan_B does not exist." idle.
Proof.
  assert (Hg : globalDict (ui idle) !! "Scan_B" = None) by reflexivity.
  assert (Hs : "Scan_B" ∉ scanNames (ui idle)).
  { simpl. intros Hin. apply list_elem_of_singleton in Hin. discriminate. }
  assert (He : "Scan_B" ∉ evaluationNames (ui idle)).
  { simpl. intros Hin. apply list_elem_of_singleton in Hin. discriminate. }
  assert (Ha : "Scan_B" ∉ analysisDefinitionDict (ui idle)).
  { simpl. intros Hin. apply elem_of_singleton in Hin. discriminate. }
  destruct (unknown_name_rejected idle "Scan_B") as (Tg & Ts & Te & Ta).
  split; [exact Hg|]. split; [exact Hs|]. split; [exact He|].
  split; [exact Ha|]. split; [exact (Tg (1%Z : @float Z_float) "MHz" Hg)|].
  destruct (Ts Hs) as (Ts1 & Ts2 & _).
  split; [exact Ts1|]. split; [unfold onSetScan_slot; now rewrite Ts2|].
  split; [exact (Te He) | exact (Ta Ha)].
Defined.

Lemma onStopScript_effect_witness :
  guiWait <> allDataWait /\
  (onStopScript blocked).1 = Ok tt /\
  stopped (script (onStopScript blocked).2) = true /\
  allDataReady (script (onStopScript blocked).2) = true /\
  waiting_on guiWait (waiters (onStopScript blocked).2) = [] /\
  waiting_on allDataWait (waiters (onStopScript blocked).2) = [1] /\
  wakeups 1 allDataWait (events onStopScript blocked) = 0.
Proof.
  assert (Hc : guiWait <> allDataWait) by discriminate.
  destruct (onStopScript_effect blocked)
    as (H1 & H2 & _ & _ & _ & H6 & H7 & H8 & H9).
  split; [exact Hc|]. split; [exact H1|]. split; [exact H2|].
  split; [exact H6|]. split; [exact (H7 guiWait Hc)|].
  split; [exact H8 | exact (H9 1)].
Defined.

Lemma revert_snapshot_recorded_once_witness :
  globalDict (ui idle) !! "Detuning" = Some (Q 5%Z "MHz") /\
  globalVariablesRevertDict (self idle) !! "Detuning" = None /\
  isRunning (script idle) = false /\
  globalVariablesRevertDict
    (self (set_globals [("Detuning", 7%Z, "MHz"); ("Detuning", 9%Z, "MHz")]
             (onSetGlobal_slot "Detuning" 6%Z "MHz" idle).2)) !! "Detuning"
  = Some (Q 5%Z "MHz") /\
  globalVariablesRevertDict (self (onStartScript idle).2) = ∅.
Proof.
  assert (Hg : globalDict (ui idle) !! "Detuning" = Some (Q 5%Z "MHz"))
    by reflexivity.
  assert (Hr : globalVariablesRevertDict (self idle) !! "Detuning" = None)
    by reflexivity.
  assert (Hi : isRunning (script idle) = false) by reflexivity.
  destruct (revert_snapshot_recorded_once idle "Detuning") as (Tset & Tstart).
  destruct (Tset (@Q Z_float 5%Z "MHz") (6%Z : @float Z_float) "MHz" Hg Hr)
  as (_ & Tlater).
  split; [exact Hg|]. split; [exact Hr|]. split; [exact Hi|].
  split; [apply Tlater | exact (Tstart Hi)].
Defined.

Lemma with_trace_registered : traces_registered (self with_trace).
Proof.
  apply onCreateTrace_registered. now apply new_handler_registered.
Qed.

Lemma plotList_rejects_witness :
  traces_registered (self with_trace) /\
  is_Some (scriptTraces (self with_trace) !! "trace1") /\
  length [1%Z; 2%Z] <> length [3%Z] /\
  scriptTraces (self with_trace) !! "ghost" = None /\
  plotList [1%Z; 2%Z] [3%Z] "trace1" false (-1) with_trace
  = (Ok (true, Some "x and y lists are of unequal lengths"), with_trace) /\
  plotList [1%Z] [3%Z] "ghost" false (-1) with_trace
  = (Ok (true, Some "Trace ghost does not exist"), with_trace) /\
  rejects (onPlotPoint 1%Z 3%Z "ghost" (-1)) "Trace ghost does not exist"
    with_trace.
Proof.
  assert (Ht : is_Some (scriptTraces (self with_trace) !! "trace1")).
  { eexists. vm_compute. reflexivity. }
  assert (Hl : length [1%Z; 2%Z] <> length [3%Z]) by (simpl; lia).
  assert (Hn : scriptTraces (self with_trace) !! "ghost" = None)
    by (vm_compute; reflexivity).
  destruct (plotList_rejects with_trace
              ([1%Z; 2%Z] : list (@float Z_float)) [3%Z] "trace1" false (-1)
              with_trace_registered) as (T1 & _).
  destruct (plotList_rejects with_trace
              ([1%Z] : list (@float Z_float)) [3%Z] "ghost" false (-1)
              with_trace_registered) as (_ & T2).
  destruct (T1 Ht Hl) as (T1a & _). destruct (T2 Hn) as (T2a & _ & T2c).
  split; [exact with_trace_registered|]. split; [exact Ht|].
  split; [exact Hl|]. split; [exact Hn|]. split; [exact T1a|].
  split; [exact T2a | exact (T2c (1%Z : @float Z_float) 3%Z)].
Defined.

(** Two wakes that are not under the mutex: the decorator's wake of
    [guiWait] after a slot that succeeds, and the wake of [genericWait]
    after the locker of [onGenericCall] has gone out of scope. *)
Lemma guiWait_woken_without_mutex :
  events (onSetScan_slot "Scan_A") idle
  = [EvGui "scanControlWidget.loadSetting" "Scan_A";
     EvLog DEBUG "Scan set to Scan_A";
     EvConsole "Scan set to Scan_A" false EmptyString;
     EvWakeAll guiWait []] /\
  ~ wakes_guarded (mutexHeld idle) (events (onSetScan_slot "Scan_A") idle) /\
  events (onGenericCall "getGlobal" [PStr "Detuning"] []) idle
  = [EvLock; EvAssign "genericResult"; EvUnlock; EvWakeAll genericWait []] /\
  ~ wakes_guarded (mutexHeld idle)
      (events (onGenericCall "getGlobal" [PStr "Detuning"] []) idle).
Proof.
  assert (He : events (onSetScan_slot "Scan_A") idle
               = [EvGui "scanControlWidget.loadSetting" "Scan_A";
                  EvLog DEBUG "Scan set to Scan_A";
                  EvConsole "Scan set to Scan_A" false EmptyString;
                  EvWakeAll guiWait []]) by (vm_compute; reflexivity).
  assert (Hg : events (onGenericCall "getGlobal" [PStr "Detuning"] []) idle
               = [EvLock; EvAssign "genericResult"; EvUnlock;
                  EvWakeAll genericWait []]) by (vm_compute; reflexivity).
  split; [exact He|]. split.
  { rewrite He. unfold wakes_guarded. simpl. discriminate. }
  split; [exact Hg|].
  rewrite Hg. unfold wakes_guarded. simpl. discriminate.
Qed.

Lemma producers_wake_under_lock_witness :
  mutexHeld (onSetScan "Scan_A" idle).2 = false /\
  getattr_call "getGlobal" [PStr "Detuning"] [] (locked idle)
  = (Ok (PQuantity (Q 5%Z "MHz")), locked idle) /\
  data (script (onData (PObject 1) blocked).2) = PObject 1 /\
  dataReady (script (onData (PObject 1) blocked).2) = true /\
  events (onData (PObject 1)) blocked
  = [EvLock; EvAssign "data"; EvAssign "dataReady"; EvWakeAll dataWait [2];
     EvUnlock] /\
  wakes_guarded false (events (onData (PObject 1)) blocked) /\
  assigns_guarded false (events (onAllData (PObject 2)) blocked) /\
  genericResult
    (script (onGenericCall "getGlobal" [PStr "Detuning"] [] idle).2)
  = PQuantity (Q 5%Z "MHz") /\
  assigns_guarded false
    (events (onGenericCall "getGlobal" [PStr "Detuning"] []) idle) /\
  mutexHeld (scriptCommand (onSetScan "Scan_A") idle).2 = false /\
  exists woken,
    last (log (scriptCommand (onSetScan "Scan_A") idle).2)
    = Some (EvWakeAll guiWait woken).
Proof.
  assert (Hm : mutexHeld (onSetScan "Scan_A" idle).2 = false) by reflexivity.
  destruct (producers_wake_under_lock blocked (PObject 1))
    as ((D1 & D2 & _ & D4) & _ & _ & Tp & _).
  destruct (Tp false) as (T1 & _).
  destruct (producers_wake_under_lock blocked (PObject 2))
    as (_ & _ & _ & Tq & _).
  destruct (Tq false) as (_ & _ & _ & T4 & _).
  assert (Hc : getattr_call "getGlobal" [PStr "Detuning"] [] (locked idle)
               = (Ok (PQuantity (Q 5%Z "MHz")), locked idle))
    by reflexivity.
  destruct (producers_wake_under_lock idle (PQuantity (@Q Z_float 5%Z "MHz")))
    as (_ & _ & _ & _ & Tg & Tw).
  destruct (Tg "getGlobal" [PStr "Detuning"] [] (locked idle) false
              Hc eq_refl) as (G1 & _ & G3).
  destruct (Tw (onSetScan "Scan_A") Hm) as (T5 & T6).
  split; [exact Hm|]. split; [exact Hc|]. split; [exact D1|].
  split; [exact D2|]. split; [exact D4|]. split; [exact T1|].
  split; [exact T4|]. split; [exact G1|]. split; [exact G3|].
  split; [exact T5 | exact T6].
Defined.

Lemma generic_call_exception_skips_wake_witness :
  getattr_call "frobnicate" [] [] (locked blocked)
  = (Raise (AttributeError "frobnicate"), locked blocked) /\
  (onGenericCall_slot "frobnicate" [] [] blocked).1 = Ok tt /\
  exception (script (onGenericCall_slot "frobnicate" [] [] blocked).2)
  = Some (ScriptException
            "'ScriptHandler' object has no attribute 'frobnicate'") /\
  waiting_on guiWait (waiters (onGenericCall_slot "frobnicate" [] [] blocked).2)
  = [] /\
  waiting_on genericWait
    (waiters (onGenericCall_slot "frobnicate" [] [] blocked).2) = [3].
Proof.
  assert (Hc : getattr_call "frobnicate" [] [] (locked blocked)
               = (Raise (AttributeError "frobnicate"), locked blocked))
    by reflexivity.
  destruct (generic_call_exception_skips_wake blocked (locked blocked)
              "frobnicate" [] [] (AttributeError "frobnicate") Hc)
    as (T1 & T2 & T3 & T4 & _).
  split; [exact Hc|]. split; [exact T1|]. split; [exact T2|].
  split; [exact T3 | exact T4].
Defined.

Lemma getGlobal_unknown_not_raised_witness :
  globalDict (ui idle) !! "nosuch" = None /\
  exception (script (onGenericCall_slot "getGlobal" [PStr "nosuch"] [] idle).2)
  = None /\
  genericResult (script (onGenericCall_slot "getGlobal" [PStr "nosuch"] [] idle).2)
  = PException (ScriptException "Global 'nosuch' does not exist!") /\
  events (onGenericCall_slot "getGlobal" [PStr "nosuch"] []) idle
  = [EvLock; EvAssign "genericResult"; EvUnlock; EvWakeAll genericWait [];
     EvLog DEBUG "getGlobal('nosuch',) executed";
     EvConsole "getGlobal('nosuch',) executed" false EmptyString;
     EvWakeAll guiWait []].
Proof.
  assert (Hg : globalDict (ui idle) !! "nosuch" = None) by reflexivity.
  destruct (getGlobal_unknown_not_raised idle "nosuch" Hg) as (T1 & T2 & T3).
  split; [exact Hg|]. split; [exact T1|]. split; [exact T2 | exact T3].
Defined.

Lemma generic_call_lost_wakeup_witness :
  (-1 < 0)%Z /\
  (3, genericWait) ∈ waiters blocked /\
  (3, genericWait)
    ∈ waiters (onGenericCall_slot "getShutter" [PInt (-1)] [] blocked).2 /\
  wakeups 3 genericWait
    (events (onGenericCall_slot "getShutter" [PInt (-1)] []) blocked) = 0 /\
  genericResult (script (onGenericCall_slot "getShutter" [PInt (-1)] [] blocked).2)
  = PInt 7.
Proof.
  assert (Hi : (-1 < 0)%Z) by lia.
  assert (Hw : (3, genericWait) ∈ waiters blocked).
  { simpl. do 2 apply list_elem_of_further. apply list_elem_of_here. }
  destruct (generic_call_lost_wakeup blocked (-1) 3 Hi Hw) as (T1 & T2 & T3).
  split; [exact Hi|]. split; [exact Hw|]. split; [exact T1|].
  split; [exact T2 | exact T3].
Defined.



(** * Further properties of the handler *)

Section ShutterProperties.
Context `{Runtime}.
Local Open Scope monad_scope.

Lemma onSetShutter_world (w : World) (index : Z) (value : bool) :
  (0 <= index)%Z ->
  exists shutter',
    (onSetShutter index value w).2 = upd_ui (set_shutter shutter') w /\
    forall j, (0 <= j)%Z ->
      Z.testbit shutter' j
      = if bool_decide (j = index) then value
        else Z.testbit (shutter (ui w)) j.
Proof.
  intros Hi.
  exists (Z.lor (Z.land (shutter (ui w)) (Z.lnot (Z.shiftl 1 index)))
                (Z.land (Z.shiftl (Z.b2z value) index) (Z.shiftl 1 index))).
  split.
  - unfold onSetShutter. run. now rewrite set_shutter_bit_ok.
  - intros j Hj.
    destruct (set_shutter_bit_testbit (shutter (ui w)) index j value Hi Hj)
      as (s' & Hs & Hbit).
    rewrite set_shutter_bit_ok in Hs by exact Hi. now injection Hs as ->.
Qed.

Lemma upd_shutter_twice (w : World) (a b : Z) :
  upd_ui (set_shutter b) (upd_ui (set_shutter a) w)
  = upd_ui (set_shutter b) w.
Proof. reflexivity. Qed.

(** X1.  Writing one shutter twice: the last value wins, as if the first
    write had not happened. *)
Theorem onSetShutter_last_wins (w : World) (index : Z) (first last : bool) :
  (0 <= index)%Z ->
  (onSetShutter index last (onSetShutter index first w).2).2
  = (onSetShutter index last w).2.
Proof.
  intros Hi.
  destruct (onSetShutter_world w index first Hi) as (s1 & -> & H1).
  destruct (onSetShutter_world (upd_ui (set_shutter s1) w) index last Hi)
    as (s2 & -> & H2).
  destruct (onSetShutter_world w index last Hi) as (s3 & -> & H3).
  rewrite upd_shutter_twice. f_equal. f_equal.
  apply Z.bits_inj'. intros j Hj. rewrite H2, H3 by exact Hj.
  case_bool_decide; [reflexivity|].
  simpl. rewrite H1 by exact Hj. now rewrite bool_decide_eq_false_2.
Qed.

(** X2.  Writes to two different shutters can be made in either order. *)
Theorem onSetShutter_commutes (w : World) (i j : Z) (a b : bool) :
  (0 <= i)%Z -> (0 <= j)%Z -> i <> j ->
  (onSetShutter j b (onSetShutter i a w).2).2
  = (onSetShutter i a (onSetShutter j b w).2).2.
Proof.
  intros Hi Hj Hne.
  destruct (onSetShutter_world w i a Hi) as (s1 & -> & H1).
  destruct (onSetShutter_world (upd_ui (set_shutter s1) w) j b Hj)
    as (s2 & -> & H2).
  destruct (onSetShutter_world w j b Hj) as (t1 & -> & G1).
  destruct (onSetShutter_world (upd_ui (set_shutter t1) w) i a Hi)
    as (t2 & -> & G2).
  rewrite !upd_shutter_twice. f_equal. f_equal.
  apply Z.bits_inj'. intros k Hk. rewrite H2, G2 by exact Hk. simpl.
  rewrite H1, G1 by exact Hk.
  repeat case_bool_decide; congruence.
Qed.

(** X3.  Writing to a shutter the value [getShutter] reports for it changes
    nothing. *)
Theorem onSetShutter_same_value (w : World) (index : Z) (value : bool) :
  (0 <= index)%Z ->
  (getShutter index w).1 = Ok value ->
  (onSetShutter index value w).2 = w.
Proof.
  intros Hi Hget.
  destruct (onSetShutter_world w index value Hi) as (s1 & -> & H1).
  assert (Hbit : Z.testbit (shutter (ui w)) index = value).
  { revert Hget. unfold getShutter. run.
    rewrite get_shutter_bit_testbit by exact Hi. now intros [= ->]. }
  assert (Hs : s1 = shutter (ui w)).
  { apply Z.bits_inj'. intros j Hj. rewrite H1 by exact Hj.
    case_bool_decide; [now subst | reflexivity]. }
  rewrite Hs. destruct w as [s h [] m ws l]. reflexivity.
Qed.

(** X4.  A shutter written through its slot is read back by the script
    through a generic call of [getShutter]; the two requests leave
    [script.exception] as it was. *)
Theorem shutter_written_then_read (w : World) (index : Z) (value : bool) :
  (0 <= index)%Z ->
  let w1 := (onSetShutter_slot index value w).2 in
  let w2 := (onGenericCall_slot "getShutter" [PInt index] [] w1).2 in
  genericResult (script w2) = PBool value /\
  exception (script w2) = exception (script w) /\
  shutter (ui w2) = shutter (ui w1).
Proof.
  intros Hi.
  destruct (onSetShutter_world w index value Hi) as (s1 & Hw1 & Hbits).
  assert (Hset : exists m, onSetShutter index value w
                           = (Ok (false, Some m), upd_ui (set_shutter s1) w)
                           /\ truthy (Some m) = true).
  { eexists. split.
    - rewrite <- Hw1. unfold onSetShutter. run.
      now rewrite set_shutter_bit_ok.
    - reflexivity. }
  destruct Hset as (m & Hset & Hm).
  cbv zeta. unfold onSetShutter_slot.
  assert (Hs1 : shutter (ui (scriptCommand (onSetShutter index value) w).2) = s1).
  { rewrite scriptCommand_ui, Hset. reflexivity. }
  assert (He1 : exception (script (scriptCommand (onSetShutter index value) w).2)
                = exception (script w)).
  { rewrite scriptCommand_exception, Hset. reflexivity. }
  set (w1 := (scriptCommand (onSetShutter index value) w).2) in *.
  unfold onGenericCall_slot, onGenericCall, getattr_call, getShutter. run.
  rewrite Hs1, get_shutter_bit_testbit by exact Hi. simpl. fields.
  rewrite Hbits by exact Hi. rewrite bool_decide_eq_true_2 by reflexivity.
  now rewrite He1, Hs1.
Qed.

(** X5.  A negative shutter index: [1 << index] raises [ValueError]; the slot
    stores it in [script.exception], leaves the shutter word and the
    rest of the GUI state alone, and still wakes [guiWait]. *)
Theorem onSetShutter_negative_index (w : World) (index : Z) (value : bool) :
  (index < 0)%Z ->
  onSetShutter index value w = (Raise negative_shift, w) /\
  let w' := (onSetShutter_slot index value w).2 in
  exception (script w') = Some negative_shift /\
  ui w' = ui w /\ self w' = self w /\
  waiting_on guiWait (waiters w') = [].
Proof.
  intros Hi.
  assert (Hr : onSetShutter index value w = (Raise negative_shift, w)).
  { unfold onSetShutter, set_shutter_bit, py_lshift. run.
    now rewrite decide_True by exact Hi. }
  split; [exact Hr|]. cbv zeta. unfold onSetShutter_slot.
  rewrite scriptCommand_exception, scriptCommand_ui, scriptCommand_self, Hr.
  repeat split. apply scriptCommand_wakes_gui.
Qed.
End ShutterProperties.

Section DecoratorProperties.
Context `{Runtime}.
Local Open Scope monad_scope.

Lemma scriptCommand_other_waiters (func : M (bool * option string))
    (w : World) (c : cv) :
  c <> guiWait ->
  waiting_on c (waiters (scriptCommand func w).2)
  = waiting_on c (waiters (func w).2).
Proof.
  intros Hc. run.
  destruct (func w) as [[[[] m]|e] w1]; simpl;
    try destruct (truthy m); simpl; fields;
    rewrite waiting_on_filter; now destruct (decide (c = guiWait)).
Qed.

(** X6.  What a slot does with each outcome of its handler.  It never
    raises.  A success with a message is logged at debug level and
    written to the console; a success without one leaves no trace but
    the wake of [guiWait].  An error with a message is logged, written
    to the console as an error and stored as a [ScriptException] with
    that message; an error without a message is stored as
    [ScriptException('')] and the console is not written; an exception
    of the handler is stored as it is.  A thread blocked on a wait
    condition other than [guiWait] is not released by the decorator. *)
Theorem scriptCommand_outcomes (func : M (bool * option string))
    (w w1 : World) :
  let w' := (scriptCommand func w).2 in
  let wake := EvWakeAll guiWait (waiting_on guiWait (waiters w1)) in
  let store := [EvLock; EvAssign "exception"; EvPrintExc;
                EvLog ERROR "None"; EvUnlock] in
  (scriptCommand func w).1 = Ok tt /\
  (forall c, c <> guiWait ->
     waiting_on c (waiters w') = waiting_on c (waiters (func w).2)) /\
  (forall message,
     func w = (Ok (false, Some message), w1) -> message <> EmptyString ->
     exception (script w') = exception (script w1) /\
     log w' = log w1 ++ [EvLog DEBUG message;
                         EvConsole message false EmptyString; wake]) /\
  (forall message,
     func w = (Ok (false, message), w1) -> truthy message = false ->
     exception (script w') = exception (script w1) /\
     log w' = log w1 ++ [wake]) /\
  (forall message,
     func w = (Ok (true, Some message), w1) -> message <> EmptyString ->
     exception (script w') = Some (ScriptException message) /\
     log w' = log w1 ++ [EvLog ERROR message;
                         EvConsole message true EmptyString] ++ store
                     ++ [wake]) /\
  (forall message,
     func w = (Ok (true, message), w1) -> truthy message = false ->
     exception (script w') = Some (ScriptException EmptyString) /\
     log w' = log w1 ++ store ++ [wake]) /\
  (forall e,
     func w = (Raise e, w1) ->
     exception (script w') = Some e /\
     log w' = log w1 ++ store ++ [wake]).
Proof.
  cbv zeta. split; [apply scriptCommand_returns|].
  split; [intros c Hc; now apply scriptCommand_other_waiters|].
  split; [|split; [|split; [|split]]].
  - intros message Hf Hm. run. rewrite Hf. simpl.
    rewrite bool_decide_eq_false_2 by exact Hm. simpl. fields.
    split; [reflexivity | now rewrite <- !app_assoc].
  - intros message Hf Hm. run. rewrite Hf. simpl. rewrite Hm. simpl.
    fields. done.
  - intros message Hf Hm. run. rewrite Hf. simpl.
    rewrite bool_decide_eq_false_2 by exact Hm. simpl. fields.
    split; [reflexivity | now rewrite <- !app_assoc].
  - intros message Hf Hm. run. rewrite Hf. simpl. rewrite Hm. simpl.
    fields. split; [reflexivity | now rewrite <- !app_assoc].
  - intros e Hf. run. rewrite Hf. simpl. fields.
    split; [reflexivity | now rewrite <- !app_assoc].
Qed.
End DecoratorProperties.

Section TraceProperties.
Context `{Runtime}.
Local Open Scope monad_scope.

Lemma onCreateTrace_aligned (w : World) (traceCreationData : list string) :
  traces_aligned (self w) ->
  traces_aligned (self (onCreateTrace traceCreationData w).2).
Proof.
  intros Hal. unfold onCreateTrace.
  destruct traceCreationData as [|a [|b [|c [|d [|e [|? ?]]]]]];
    try exact Hal.
  run. case_bool_decide; [exact Hal|]. intros name t. fields.
  destruct (decide (a = name)) as [->|Hne].
  - rewrite ?lookup_insert_eq, ?odict_lookup_insert_eq. now intros [= <-].
  - rewrite ?lookup_insert_ne, ?odict_lookup_insert_ne by done. apply Hal.
Qed.

Lemma onCloseTrace_aligned (w : World) (traceName : string) :
  traces_aligned (self w) ->
  traces_aligned (self (onCloseTrace traceName w).2).
Proof.
  intros Hal. unfold onCloseTrace, finalize, registerMeasurement. run.
  destruct (scriptTraces (self w) !! traceName) eqn:Ht; [|exact Hal].
  intros name t. fields. intros Hl.
  apply odict_lookup_delete_Some in Hl as [_ Hl]. now apply (Hal name).
Qed.

Lemma plotList_aligned (w : World) (xList yList : list float)
    (traceName : string) (overwrite : bool) (plotStyle : Z) :
  traces_aligned (self w) ->
  traces_aligned
    (self (plotList xList yList traceName overwrite plotStyle w).2).
Proof.
  intros Hal. unfold plotList. run.
  destruct (scriptTraces (self w) !! traceName) as [t|] eqn:Ht;
    [|exact Hal].
  destruct (traceAlreadyCreated (self w) !! traceName) as [created|] eqn:Hc;
    [|exact Hal].
  case_bool_decide as Hlen; simpl; [|exact Hal].
  pose proof (Hal traceName t Ht) as Hold.
  destruct created, overwrite; intros name t'; fields;
    (destruct (decide (traceName = name)) as [->|Hne];
     [ rewrite ?lookup_insert_eq, ?odict_lookup_insert_eq; intros [= <-]; simpl;
       rewrite ?length_app; lia
     | rewrite ?lookup_insert_ne, ?odict_lookup_insert_ne by done; apply Hal ]).
Qed.

(** X7.  Two invariants of the handler's traces: the x and y data of
    every script trace have the same length, and every script trace has
    its flag in [traceAlreadyCreated].  When they hold, they hold after
    each of the slots that create, close and plot to a trace, whatever
    the arguments, and after [onFinished]. *)
Theorem trace_invariants_kept (w : World) :
  traces_aligned (self w) /\ traces_registered (self w) ->
  (forall traceCreationData,
     let w' := (onCreateTrace_slot traceCreationData w).2 in
     traces_aligned (self w') /\ traces_registered (self w')) /\
  (forall traceName,
     let w' := (onCloseTrace_slot traceName w).2 in
     traces_aligned (self w') /\ traces_registered (self w')) /\
  (forall xList yList traceName overwrite plotStyle,
     let w' := (onPlotList_slot xList yList traceName overwrite plotStyle w).2 in
     traces_aligned (self w') /\ traces_registered (self w')) /\
  (forall x y traceName plotStyle,
     let w' := (onPlotPoint_slot x y traceName plotStyle w).2 in
     traces_aligned (self w') /\ traces_registered (self w')) /\
  (let w' := (onFinished w).2 in
   traces_aligned (self w') /\ traces_registered (self w')).
Proof.
  intros [Hal Hreg]. cbv zeta.
  unfold onCreateTrace_slot, onCloseTrace_slot, onPlotList_slot,
    onPlotPoint_slot, onPlotList, onPlotPoint.
  split; [|split; [|split; [|split]]]; intros;
    rewrite ?scriptCommand_self.
  - split; [now apply onCreateTrace_aligned
           | now apply onCreateTrace_registered].
  - split; [now apply onCloseTrace_aligned
           | now apply onCloseTrace_registered].
  - split; [now apply plotList_aligned | now apply plotList_registered].
  - split; [now apply plotList_aligned | now apply plotList_registered].
  - split; [|apply onFinished_registered].
    unfold onFinished.
    pose proof (finalize_all_self
                  (dict_values (scriptTraces (self w))) w) as [Hok _].
    run.
    destruct (for_each _ finalize w) as [[[]|e] w1]; [|discriminate].
    intros name t. fields. now rewrite odict_lookup_empty.
Qed.

Lemma plotList_appends (w : World) (traceName : string) (t : PlottedTrace)
    (created : bool) (xList yList : list float) (plotStyle : Z) :
  scriptTraces (self w) !! traceName = Some t ->
  traceAlreadyCreated (self w) !! traceName = Some created ->
  length xList = length yList ->
  (created = false -> tr_x t = [] /\ tr_y t = []) ->
  exists t',
    scriptTraces (self (plotList xList yList traceName false plotStyle w).2)
      !! traceName = Some t' /\
    traceAlreadyCreated
      (self (plotList xList yList traceName false plotStyle w).2)
      !! traceName = Some true /\
    tr_x t' = tr_x t ++ xList /\ tr_y t' = tr_y t ++ yList.
Proof.
  intros Ht Hc Hlen Hnew. unfold plotList. run. rewrite Ht, Hc.
  rewrite bool_decide_eq_true_2 by exact Hlen. simpl.
  destruct created; simpl; fields.
  - eexists. rewrite ?lookup_insert_eq, ?odict_lookup_insert_eq. split; [reflexivity|].
    split; [exact Hc | done].
  - destruct (Hnew eq_refl) as [-> ->].
    eexists. rewrite ?lookup_insert_eq, ?odict_lookup_insert_eq. done.
Qed.

Lemma plot_all_appends (batches : list (list float * list float))
    (w : World) (traceName : string) (t : PlottedTrace) (created : bool) :
  scriptTraces (self w) !! traceName = Some t ->
  traceAlreadyCreated (self w) !! traceName = Some created ->
  Forall (fun b => length b.1 = length b.2) batches ->
  (created = false -> tr_x t = [] /\ tr_y t = []) ->
  exists t',
    scriptTraces (self (plot_all batches traceName w)) !! traceName = Some t' /\
    tr_x t' = tr_x t ++ concat batches.*1 /\
    tr_y t' = tr_y t ++ concat batches.*2.
Proof.
  revert w t created.
  induction batches as [|[x y] batches IH]; intros w t created Ht Hc Hall Hnew.
  - exists t. simpl. now rewrite !app_nil_r.
  - apply Forall_cons in Hall as [Hlen Hall]. simpl in Hlen.
    destruct (plotList_appends w traceName t created x y (-1) Ht Hc Hlen Hnew)
      as (t1 & Ht1 & Hc1 & Hx & Hy).
    change (plot_all ((x, y) :: batches) traceName w)
      with (plot_all batches traceName
              (onPlotList_slot x y traceName false (-1) w).2).
    destruct (IH (onPlotList_slot x y traceName false (-1) w).2 t1 true)
      as (t' & Ht' & Hx' & Hy').
    + unfold onPlotList_slot, onPlotList. now rewrite scriptCommand_self.
    + unfold onPlotList_slot, onPlotList. now rewrite scriptCommand_self.
    + exact Hall.
    + discriminate.
    + exists t'. split; [exact Ht'|].
      rewrite Hx', Hy', Hx, Hy, !fmap_cons, <- !app_assoc. done.
Qed.

(** X8.  Plotting accumulates.  After [onCreateTrace] on an existing plot, a
    run of [onPlotList] requests without overwrite, each with as many x
    as y values, leaves in the trace the x values of all requests and
    the y values of all requests, in the order of the requests. *)
Theorem plots_accumulate (w : World)
    (traceName plotName xUnit xLabel comment : string)
    (batches : list (list float * list float)) :
  plotName ∈ plotDict (ui w) ->
  Forall (fun b => length b.1 = length b.2) batches ->
  let w1 :=
    (onCreateTrace_slot [traceName; plotName; xUnit; xLabel; comment] w).2 in
  exists t,
    scriptTraces (self (plot_all batches traceName w1)) !! traceName = Some t /\
    tr_x t = concat batches.*1 /\ tr_y t = concat batches.*2.
Proof.
  intros Hplot Hall. cbv zeta.
  set (w1 := (onCreateTrace_slot [traceName; plotName; xUnit; xLabel; comment]
                w).2).
  assert (Hself : exists t0,
             scriptTraces (self w1) !! traceName = Some t0 /\
             traceAlreadyCreated (self w1) !! traceName = Some false /\
             tr_x t0 = [] /\ tr_y t0 = []).
  { unfold w1, onCreateTrace_slot. rewrite scriptCommand_self.
    unfold onCreateTrace. run.
    rewrite bool_decide_eq_false_2 by (intros Hn; now apply Hn).
    fields. eexists. rewrite ?lookup_insert_eq, ?odict_lookup_insert_eq. done. }
  destruct Hself as (t0 & Ht0 & Hc0 & Hx0 & Hy0).
  destruct (plot_all_appends batches w1 traceName t0 false Ht0 Hc0 Hall)
    as (t & Ht & Hx & Hy); [done|].
  exists t. now rewrite Hx, Hy, Hx0, Hy0.
Qed.

(** X9.  With overwrite, [plotList] replaces whatever the trace held, whether
    or not it had been plotted before. *)
Theorem plot_overwrite_replaces (w : World) (traceName : string)
    (xList yList : list float) (plotStyle : Z) :
  is_Some (scriptTraces (self w) !! traceName) ->
  is_Some (traceAlreadyCreated (self w) !! traceName) ->
  length xList = length yList ->
  let w' := (onPlotList_slot xList yList traceName true plotStyle w).2 in
  exists t,
    scriptTraces (self w') !! traceName = Some t /\
    tr_x t = xList /\ tr_y t = yList /\
    traceAlreadyCreated (self w') !! traceName = Some true /\
    forall other, other <> traceName ->
      scriptTraces (self w') !! other = scriptTraces (self w) !! other.
Proof.
  intros [t Ht] [created Hc] Hlen. cbv zeta.
  unfold onPlotList_slot, onPlotList. rewrite scriptCommand_self.
  unfold plotList. run. rewrite Ht, Hc.
  rewrite bool_decide_eq_true_2 by exact Hlen. simpl.
  destruct created; simpl; fields; eexists;
    rewrite ?lookup_insert_eq, ?odict_lookup_insert_eq; (split; [reflexivity|]);
    (split; [reflexivity|]); (split; [reflexivity|]);
    (split; [done|]); intros other Hne; now rewrite odict_lookup_insert_ne.
Qed.

(** X10.  [onCreateTrace] refuses what it cannot use and changes nothing: a
    plot that does not exist is answered with the error message, a list
    that does not have five entries raises [ValueError], which the slot
    stores in [script.exception]. *)
Theorem onCreateTrace_refuses (w : World) (traceCreationData : list string) :
  (forall traceName plotName xUnit xLabel comment,
     traceCreationData = [traceName; plotName; xUnit; xLabel; comment] ->
     plotName ∉ plotDict (ui w) ->
     rejects (onCreateTrace traceCreationData)
       ("plot " +:+ plotName +:+ " does not exist") w) /\
  (length traceCreationData <> 5 ->
   exists e,
     exn_class e = "ValueError" /\
     onCreateTrace traceCreationData w = (Raise e, w) /\
     exception (script (onCreateTrace_slot traceCreationData w).2) = Some e /\
     self (onCreateTrace_slot traceCreationData w).2 = self w /\
     ui (onCreateTrace_slot traceCreationData w).2 = ui w).
Proof.
  split.
  - intros traceName plotName xUnit xLabel comment -> Hn.
    apply rejects_intro. unfold onCreateTrace. run.
    now rewrite bool_decide_eq_true_2.
  - intros Hlen. exists (ValueError "wrong number of values to unpack").
    assert (Hr : onCreateTrace traceCreationData w
                 = (Raise (ValueError "wrong number of values to unpack"), w)).
    { unfold onCreateTrace.
      destruct traceCreationData as [|a [|b [|c [|d [|e [|? ?]]]]]];
        try reflexivity. simpl in Hlen. lia. }
    split; [reflexivity|]. split; [exact Hr|].
    unfold onCreateTrace_slot.
    now rewrite scriptCommand_exception, scriptCommand_self,
      scriptCommand_ui, Hr.
Qed.

(** X11.  Closing a trace removes it from [scriptTraces], saves it and
    registers it in the measurement log, and leaves its flag in
    [traceAlreadyCreated]; after that, plotting to it and closing it
    again are answered with 'Trace ... does not exist'. *)
Theorem onCloseTrace_lifecycle (w : World) (traceName : string)
    (t : PlottedTrace) :
  scriptTraces (self w) !! traceName = Some t ->
  let w' := (onCloseTrace_slot traceName w).2 in
  let message := "Trace " +:+ traceName +:+ " closed" in
  scriptTraces (self w') = delete traceName (scriptTraces (self w)) /\
  traceAlreadyCreated (self w') = traceAlreadyCreated (self w) /\
  exception (script w') = exception (script w) /\
  events (onCloseTrace_slot traceName) w
  = [EvGui "traceCollection.save" (tr_name t);
     EvGui "measurementLog.container.addMeasurement" (tr_name t);
     EvLog DEBUG message; EvConsole message false EmptyString;
     EvWakeAll guiWait (waiting_on guiWait (waiters w))] /\
  rejects (onCloseTrace traceName)
    ("Trace " +:+ traceName +:+ " does not exist") w' /\
  forall xList yList overwrite plotStyle,
    rejects (onPlotList xList yList traceName overwrite plotStyle)
      ("Trace " +:+ traceName +:+ " does not exist") w'.
Proof.
  intros Ht. cbv zeta.
  assert (Hgone : scriptTraces (self (onCloseTrace_slot traceName w).2)
                  = delete traceName (scriptTraces (self w))).
  { unfold onCloseTrace_slot. rewrite scriptCommand_self.
    unfold onCloseTrace, finalize, registerMeasurement. run. now rewrite Ht. }
  split; [exact Hgone|]. split; [|split; [|split; [|split]]].
  - unfold onCloseTrace_slot. rewrite scriptCommand_self.
    unfold onCloseTrace, finalize, registerMeasurement. run. now rewrite Ht.
  - unfold onCloseTrace_slot. rewrite scriptCommand_exception.
    unfold onCloseTrace, finalize, registerMeasurement. run. now rewrite Ht.
  - apply events_app.
    unfold onCloseTrace_slot, onCloseTrace, finalize, registerMeasurement.
    run. rewrite Ht. simpl. fields. now rewrite <- !app_assoc.
  - apply rejects_intro. unfold onCloseTrace at 1. run.
    now rewrite Hgone, odict_lookup_delete_eq.
  - intros xList yList overwrite plotStyle. apply rejects_intro.
    unfold onPlotList, plotList. run.
    now rewrite Hgone, odict_lookup_delete_eq.
Qed.

Lemma finalize_all_log (l : list PlottedTrace) (w : World) :
  log (for_each l finalize w).2
  = log w ++ flat_map
               (fun t => [EvGui "traceCollection.save" (tr_name t);
                          EvGui "measurementLog.container.addMeasurement"
                            (tr_name t)]) l.
Proof.
  revert w. induction l as [|t rest IH]; intros w.
  - simpl. unfold ret. simpl. now rewrite app_nil_r.
  - destruct (finalize_ok t w) as (w' & Hf & _).
    assert (Hl : log w' = log w ++ [EvGui "traceCollection.save" (tr_name t);
                   EvGui "measurementLog.container.addMeasurement" (tr_name t)]).
    { revert Hf. unfold finalize, registerMeasurement. run.
      intros [= <-]. fields. now rewrite <- app_assoc. }
    simpl. unfold bind. rewrite Hf, IH, Hl, <- app_assoc. reflexivity.
Qed.

(** X12.  When the script has finished, the traces still open are saved
    and registered one after the other, in the order of the dict, which
    is the order in which they were created: a trace created under a
    new name comes after all those that were open.  [scriptTraces] is
    emptied and the named traces are saved last; after that every plot
    request is answered with 'Trace ... does not exist'. *)
Theorem onFinished_closes_all (w : World) :
  let open := dict_values (scriptTraces (self w)) in
  (onFinished w).1 = Ok tt /\
  scriptTraces (self (onFinished w).2) = ∅ /\
  events onFinished w
  = flat_map (fun t => [EvGui "traceCollection.save" (tr_name t);
                        EvGui "measurementLog.container.addMeasurement"
                          (tr_name t)]) open
    ++ [EvGui "namedTraceui.saveAndUpdateFileList" "namedTraceList"] /\
  (forall traceName t,
     scriptTraces (self w) !! traceName = Some t -> t ∈ open) /\
  (forall traceName plotName xUnit xLabel comment,
     plotName ∈ plotDict (ui w) ->
     scriptTraces (self w) !! traceName = None ->
     exists t,
       tr_name t = traceName /\
       dict_values
         (scriptTraces
            (self (onCreateTrace_slot
                     [traceName; plotName; xUnit; xLabel; comment] w).2))
       = open ++ [t]) /\
  forall xList yList traceName overwrite plotStyle,
    rejects (onPlotList xList yList traceName overwrite plotStyle)
      ("Trace " +:+ traceName +:+ " does not exist") (onFinished w).2.
Proof.
  cbv zeta.
  pose proof (finalize_all_self
                (dict_values (scriptTraces (self w))) w) as [Hok _].
  pose proof (finalize_all_log
                (dict_values (scriptTraces (self w))) w) as Hlog.
  assert (Hrun : onFinished w
                 = (Ok tt,
                    set_log (log (for_each
                                    (dict_values (scriptTraces (self w)))
                                    finalize w).2
                             ++ [EvGui "namedTraceui.saveAndUpdateFileList"
                                   "namedTraceList"])
                      (upd_self (set_scriptTraces ∅)
                         (for_each (dict_values (scriptTraces (self w)))
                            finalize w).2))).
  { unfold onFinished. run.
    destruct (for_each _ finalize w) as [[[]|e] w1]; [|discriminate].
    reflexivity. }
  split; [now rewrite Hrun|]. split; [now rewrite Hrun|].
  split; [|split; [|split]].
  - apply events_app. rewrite Hrun. fields.
    now rewrite Hlog, <- app_assoc.
  - intros traceName t. apply elem_of_dict_values.
  - intros traceName plotName xUnit xLabel comment Hp Hn.
    unfold onCreateTrace_slot. rewrite scriptCommand_self.
    unfold onCreateTrace. run.
    rewrite bool_decide_eq_false_2 by (intros Hc; now apply Hc).
    simpl. fields. eexists. split; [|unfold dict_values;
      rewrite (odict_insert_new _ _ _ Hn), fmap_app; reflexivity].
    reflexivity.
  - intros xList yList traceName overwrite plotStyle. apply rejects_intro.
    unfold onPlotList, plotList. run. rewrite Hrun. fields.
    now rewrite odict_lookup_empty.
Qed.
End TraceProperties.

Section ScriptControlProperties.
Context `{Runtime}.
Local Open Scope monad_scope.

(** X13.  Starting the script.  While the script thread runs, the start
    button does nothing.  Otherwise it clears the stopped and paused
    flags, the stored exception, the revert dictionary and the list of
    named traces and starts the thread; it wakes nobody, keeps the
    script traces, and leaves the ready flags of the result slots as
    they are (so the flags forced by an earlier stop survive the start). *)
Theorem onStartScript_resets (w : World) :
  (isRunning (script w) = true -> onStartScript w = (Ok tt, w)) /\
  (isRunning (script w) = false ->
   let w' := (onStartScript w).2 in
   (onStartScript w).1 = Ok tt /\
   stopped (script w') = false /\ paused (script w') = false /\
   exception (script w') = None /\ isRunning (script w') = true /\
   globalVariablesRevertDict (self w') = ∅ /\ namedTraceList (self w') = ∅ /\
   scriptTraces (self w') = scriptTraces (self w) /\
   analysisReady (script w') = analysisReady (script w) /\
   dataReady (script w') = dataReady (script w) /\
   allDataReady (script w') = allDataReady (script w) /\
   waiters w' = waiters w /\ ui w' = ui w /\
   events onStartScript w
   = [EvLock; EvAssign "paused"; EvAssign "stopped"; EvAssign "exception";
      EvGui "script.start" EmptyString; EvUnlock]).
Proof.
  split; intros Hrun.
  - unfold onStartScript. run. now rewrite Hrun.
  - destruct w as [[] h u m ws l]. simpl in Hrun. subst.
    unfold onStartScript. evaluate. simpl. repeat split.
    rewrite <- !app_assoc. apply drop_app_length.
Qed.

(** X14.  Pausing and resuming.  [onPauseScript] stores its argument in
    [script.paused] under the mutex; resuming releases every thread
    blocked on [pauseWait], pausing releases nobody, and no thread
    blocked on another wait condition is touched either way. *)
Theorem onPauseScript_wakes (w : World) (pause : bool) :
  let w' := (onPauseScript pause w).2 in
  (onPauseScript pause w).1 = Ok tt /\
  paused (script w') = pause /\
  mutexHeld w' = false /\
  waiting_on pauseWait (waiters w')
  = (if pause then waiting_on pauseWait (waiters w) else []) /\
  (forall c, c <> pauseWait ->
     waiting_on c (waiters w') = waiting_on c (waiters w)) /\
  events (onPauseScript pause) w
  = [EvLock; EvAssign "paused"]
    ++ (if pause then []
        else [EvWakeAll pauseWait (waiting_on pauseWait (waiters w))])
    ++ [EvUnlock].
Proof.
  cbv zeta. destruct w as [[] h u m ws l].
  destruct pause; unfold onPauseScript; cbn [negb]; evaluate.
  - repeat split. cbn [app]. rewrite <- !app_assoc. apply drop_app_length.
  - split; [reflexivity|]. split; [reflexivity|]. split; [reflexivity|].
    split; [now rewrite waiting_on_filter|]. split.
    + intros c Hc. rewrite waiting_on_filter.
      now destruct (decide (c = pauseWait)).
    + cbn [app]. rewrite <- !app_assoc. apply drop_app_length.
Qed.

Lemma filter_all {A} (P : A -> Prop) `{!forall x, Decision (P x)}
    (l : list A) :
  (forall x, x ∈ l -> P x) -> filter P l = l.
Proof.
  induction l as [|x l IH]; intros Hall; [reflexivity|].
  rewrite filter_cons, decide_True by (apply Hall; left).
  f_equal. apply IH. intros y Hy. apply Hall. now right.
Qed.

Lemma after_stop_idempotent (ws : list (thread * cv)) :
  after_stop (after_stop ws) = after_stop ws.
Proof.
  assert (Hall : forall p, p ∈ after_stop ws ->
            p.2 <> guiWait /\ p.2 <> pauseWait /\ p.2 <> scanWait /\
            p.2 <> dataWait /\ p.2 <> analysisWait /\ p.2 <> genericWait).
  { intros p. unfold after_stop. rewrite !list_elem_of_filter. tauto. }
  remember (after_stop ws) as l eqn:Hl. clear Hl. unfold after_stop.
  rewrite (filter_all (fun p => p.2 <> guiWait)) by (intros p Hp; apply Hall, Hp).
  rewrite (filter_all (fun p => p.2 <> pauseWait)) by (intros p Hp; apply Hall, Hp).
  rewrite (filter_all (fun p => p.2 <> scanWait)) by (intros p Hp; apply Hall, Hp).
  rewrite (filter_all (fun p => p.2 <> dataWait)) by (intros p Hp; apply Hall, Hp).
  rewrite (filter_all (fun p => p.2 <> analysisWait)) by (intros p Hp; apply Hall, Hp).
  apply filter_all. intros p Hp. apply Hall, Hp.
Qed.

(** X15.  Pressing stop twice is pressing it once: the second [onStopScript]
    finds the flags set and nobody left to wake, and leaves the Script
    entity and the blocked threads as the first one left them. *)
Theorem onStopScript_idempotent (w : World) :
  let w1 := (onStopScript w).2 in
  let w2 := (onStopScript w1).2 in
  script w2 = script w1 /\ waiters w2 = waiters w1 /\
  self w2 = self w1 /\ ui w2 = ui w1 /\ mutexHeld w2 = mutexHeld w1 /\
  waiters w1 = after_stop (waiters w).
Proof.
  cbv zeta. destruct w as [[] h u m ws l]. unfold onStopScript. evaluate.
  repeat split. apply after_stop_idempotent.
Qed.

(** The stop button for script and scan does to the Script entity and
    to the blocked threads what [onStopScript] does, and then triggers
    the stop action of the experiment. *)
Lemma onStopScriptAndScan_stops (w : World) :
  let w1 := (onStopScript w).2 in
  let w2 := (onStopScriptAndScan w).2 in
  (onStopScriptAndScan w).1 = Ok tt /\
  script w2 = script w1 /\ waiters w2 = waiters w1 /\
  log w2 = log w1 ++ [EvGui "experimentUi.actionStop.trigger" EmptyString].
Proof.
  cbv zeta. destruct w as [[] h u m ws l].
  unfold onStopScriptAndScan, onStopScript. evaluate. repeat split.
Qed.
End ScriptControlProperties.

Section ScanProperties.
Context `{Runtime}.
Local Open Scope monad_scope.

Lemma myGlobalOverrides_keys (Sized : bool)
    (globalOverrides : list (string * override))
    (overrides : list (string * quantity)) :
  myGlobalOverrides Sized globalOverrides = Ok overrides ->
  overrides.*1 = globalOverrides.*1.
Proof.
  revert overrides.
  induction globalOverrides as [|[key value] rest IH]; intros overrides;
    simpl.
  - now intros [= <-].
  - destruct (to_magnitude Sized value) as [q|e]; [|discriminate].
    destruct (myGlobalOverrides Sized rest) as [l|e]; [|discriminate].
    intros [= <-]. rewrite !fmap_cons. simpl. f_equal. now apply IH.
Qed.

Lemma myGlobalOverrides_quantities (Sized : bool)
    (magnitudes : list (string * quantity)) :
  myGlobalOverrides Sized ((fun kq => (kq.1, OvQuantity kq.2)) <$> magnitudes)
  = Ok magnitudes.
Proof.
  induction magnitudes as [|[k q] l IH]; [reflexivity|].
  simpl. unfold fmap in IH. now rewrite IH.
Qed.

Lemma myGlobalOverrides_outcome (Sized : bool)
    (globalOverrides : list (string * override)) :
  if Sized || forallb (fun kv => is_quantity kv.2) globalOverrides
  then is_Some (match myGlobalOverrides Sized globalOverrides with
                | Ok l => Some l
                | Raise _ => None
                end)
  else myGlobalOverrides Sized globalOverrides = Raise no_Sized.
Proof.
  destruct Sized; simpl.
  - induction globalOverrides as [|[key value] rest IH]; simpl; [done|].
    destruct value; simpl;
      destruct (myGlobalOverrides true rest); simpl in *; try done;
      now destruct IH.
  - induction globalOverrides as [|[key value] rest IH]; simpl; [done|].
    destruct value as [q|v unit|v]; simpl; try reflexivity.
    destruct (forallb (fun kv => is_quantity kv.2) rest).
    + destruct (myGlobalOverrides false rest); simpl in *; [done|].
      now destruct IH.
    + now rewrite IH.
Qed.

(** X16.  Starting a scan from the script.  [scanIsRunning] is set and
    the three ready flags are cleared under the mutex first, whatever the
    flags were and whatever happens next.  When every override is
    turned into a quantity, the experiment is started with the
    overrides, their keys in order and the quantities among them as they
    were, the start is logged and written in green, and
    [script.exception] is untouched.  Where Python has no
    [collections.Sized] any more, an override that is not a quantity
    makes the handler raise [AttributeError] after the flags are
    written: the slot stores it in [script.exception], the experiment is
    not started, and [scanIsRunning] stays set. *)
Theorem onStartScan_clears_flags (Sized : bool) (w : World) (now : string)
    (globalOverrides : list (string * override)) :
  let w' := (onStartScan_slot Sized now globalOverrides w).2 in
  let message :=
    "Scan started at " +:+ now +:+ " with scan = "
    +:+ scanSettingsName (ui w) +:+ ", evaluation = "
    +:+ evaluationSettingsName (ui w) +:+ ", analysis = "
    +:+ currentAnalysisName (ui w) in
  let flags :=
    [EvLock; EvAssign "scanIsRunning"; EvAssign "analysisReady";
     EvAssign "dataReady"; EvAssign "allDataReady"; EvUnlock] in
  let wake := EvWakeAll guiWait (waiting_on guiWait (waiters w)) in
  (scanIsRunning (script w') = true /\
   analysisReady (script w') = false /\
   dataReady (script w') = false /\
   allDataReady (script w') = false) /\
  (forall overrides,
     myGlobalOverrides Sized globalOverrides = Ok overrides ->
     overrides.*1 = globalOverrides.*1 /\
     exception (script w') = exception (script w) /\
     events (onStartScan_slot Sized now globalOverrides) w
     = flags
       ++ [EvGui "experimentUi.onStart" (join ", " (str_override <$> overrides));
           EvLog INFO message; EvConsole message false "green"; wake]) /\
  (forall e,
     myGlobalOverrides Sized globalOverrides = Raise e ->
     exception (script w') = Some e /\
     events (onStartScan_slot Sized now globalOverrides) w
     = flags
       ++ [EvLock; EvAssign "exception"; EvPrintExc; EvLog ERROR "None";
           EvUnlock; wake]) /\
  (forall magnitudes : list (string * quantity),
     myGlobalOverrides Sized
       ((fun kq => (kq.1, OvQuantity kq.2)) <$> magnitudes)
     = Ok magnitudes) /\
  (if Sized || forallb (fun kv => is_quantity kv.2) globalOverrides
   then exists overrides, myGlobalOverrides Sized globalOverrides = Ok overrides
   else myGlobalOverrides Sized globalOverrides = Raise no_Sized).
Proof.
  cbv zeta. split; [|split; [|split; [|split]]].
  - destruct w as [[] h u m ws l].
    unfold onStartScan_slot, onStartScan.
    destruct (myGlobalOverrides Sized globalOverrides) as [overrides|e];
      evaluate; simpl; fields; repeat split.
  - intros overrides Ho.
    split; [exact (myGlobalOverrides_keys _ _ _ Ho)|].
    destruct w as [[] h u m ws l].
    unfold onStartScan_slot, onStartScan. rewrite Ho.
    evaluate. simpl. fields. split; [reflexivity|].
    rewrite <- !app_assoc. apply drop_app_length.
  - intros e He. destruct w as [[] h u m ws l].
    unfold onStartScan_slot, onStartScan. rewrite He.
    evaluate. simpl. fields. split; [reflexivity|].
    rewrite <- !app_assoc. apply drop_app_length.
  - apply myGlobalOverrides_quantities.
  - pose proof (myGlobalOverrides_outcome Sized globalOverrides) as Ho.
    destruct (Sized || forallb _ globalOverrides); [|exact Ho].
    destruct (myGlobalOverrides Sized globalOverrides) as [l|e];
      [now exists l | now destruct Ho].
Qed.

(** X17.  Stopping or aborting the scan from the script clears
    [scanIsRunning] under the mutex, pausing it does not touch the Script
    entity; none of the three requests fails or releases a thread blocked
    on [scanWait]. *)
Theorem scan_requests_leave_scanWait (w : World) :
  let stop := (onStopScan_slot w).2 in
  let abort := (onAbortScan_slot w).2 in
  let pause := (onPauseScan_slot w).2 in
  scanIsRunning (script stop) = false /\
  scanIsRunning (script abort) = false /\
  script pause = script w /\
  exception (script stop) = exception (script w) /\
  exception (script abort) = exception (script w) /\
  waiting_on scanWait (waiters stop) = waiting_on scanWait (waiters w) /\
  waiting_on scanWait (waiters abort) = waiting_on scanWait (waiters w) /\
  waiting_on scanWait (waiters pause) = waiting_on scanWait (waiters w) /\
  assigns_guarded false (events onStopScan_slot w) /\
  assigns_guarded false (events onAbortScan_slot w).
Proof.
  cbv zeta. destruct w as [[] h u m ws l].
  unfold onStopScan_slot, onAbortScan_slot, onPauseScan_slot, onStopScan,
    onAbortScan, onPauseScan, assigns_guarded.
  evaluate. simpl. fields.
  rewrite !waiting_on_filter. simpl.
  repeat split; rewrite <- !app_assoc, drop_app_length; reflexivity.
Qed.
End ScanProperties.

Section AWGProperties.
Context `{Runtime}.
Local Open Scope monad_scope.

(** X18.  [onSetAWG] loads a setting exactly when the generator exists and
    the setting is among the items of its combo box; otherwise it answers
    with the error message that names what is missing and makes no call
    into the GUI.  [onProgramAWG] programs the device exactly when the
    generator exists. *)
Theorem awg_requests_validated (w : World)
    (AWGUiDict : gmap string (list string)) (AWGname name : string) :
  (AWGUiDict !! AWGname = None ->
   rejects (onSetAWG AWGUiDict AWGname name)
     ("AWG " +:+ AWGname +:+ " does not exist") w /\
   rejects (onProgramAWG AWGUiDict AWGname)
     ("AWG " +:+ AWGname +:+ " does not exist") w) /\
  (forall settings,
     AWGUiDict !! AWGname = Some settings ->
     (name ∉ settings ->
      rejects (onSetAWG AWGUiDict AWGname name)
        ("AWG " +:+ AWGname +:+ " settings " +:+ name +:+ " does not exist.")
        w) /\
     (name ∈ settings ->
      onSetAWG AWGUiDict AWGname name w
      = (Ok (false, Some ("AWG " +:+ AWGname +:+ " settings set to " +:+ name)),
         set_log (log w ++ [EvGui ("AWGUiDict[" +:+ AWGname +:+ "].loadSetting")
                              name]) w)) /\
     onProgramAWG AWGUiDict AWGname w
     = (Ok (false, Some ("AWG " +:+ AWGname +:+ " programmed")),
        set_log (log w ++ [EvGui ("AWGUiDict[" +:+ AWGname
                                  +:+ "].device.program") EmptyString]) w)).
Proof.
  split.
  - intros Hn. split; apply rejects_intro.
    + unfold onSetAWG. now rewrite Hn.
    + unfold onProgramAWG. now rewrite Hn.
  - intros settings Hs. split; [|split].
    + intros Hn. apply rejects_intro. unfold onSetAWG. rewrite Hs. run.
      rewrite bool_decide_eq_true_2; [done | now apply findText_absent].
    + intros Hin. unfold onSetAWG. rewrite Hs. run.
      rewrite bool_decide_eq_false_2; [done|].
      intros Habs. now apply findText_absent in Habs.
    + unfold onProgramAWG. rewrite Hs. run. done.
Qed.
End AWGProperties.

Section NamedTraceProperties.
Context `{Runtime}.
Local Open Scope monad_scope.

Lemma onPushToNamedTrace_list (w : World) (topNode child : string) (row : Z)
    (data : float) (col : string) (ignorenans : bool) :
  namedTraceList
    (self (onPushToNamedTrace_slot topNode child row data col ignorenans w).2)
  = {[ topNode ]} ∪ namedTraceList (self w).
Proof.
  unfold onPushToNamedTrace_slot. rewrite scriptCommand_self.
  unfold onPushToNamedTrace. run. reflexivity.
Qed.

Lemma push_all_list
    (pushes : list (string * string * Z * float * string * bool))
    (w : World) :
  namedTraceList (self (push_all pushes w))
  = list_to_set (topNode_of <$> pushes) ∪ namedTraceList (self w).
Proof.
  revert w. induction pushes as [|[[[[[a b] c] d] e] f] pushes IH]; intros w.
  - simpl. set_solver.
  - change (push_all ((a, b, c, d, e, f) :: pushes) w)
      with (push_all pushes (onPushToNamedTrace_slot a b c d e f w).2).
    rewrite IH, onPushToNamedTrace_list, fmap_cons. simpl.
    unfold topNode_of at 2. simpl. set_solver.
Qed.

(** X19.  The named traces of a run.  From the start of the script on,
    [namedTraceList] holds exactly the top nodes the script has pushed
    to: the start empties it, every push adds its top node, and nothing
    is ever taken out. *)
Theorem namedTraceList_collects (w : World)
    (pushes : list (string * string * Z * float * string * bool)) :
  isRunning (script w) = false ->
  let w' := push_all pushes (onStartScript w).2 in
  forall topNode,
    topNode ∈ namedTraceList (self w') <-> topNode ∈ topNode_of <$> pushes.
Proof.
  intros Hrun. cbv zeta. intros topNode.
  rewrite push_all_list.
  assert (Hstart : namedTraceList (self (onStartScript w).2) = ∅).
  { unfold onStartScript. run. now rewrite Hrun. }
  rewrite Hstart. rewrite elem_of_union, elem_of_list_to_set. set_solver.
Qed.
End NamedTraceProperties.

Section MutexProperties.
Context `{Runtime}.
Local Open Scope monad_scope.

(** X20.  The mutex discipline of the handler.  Entered with the mutex
    released, each of these handlers returns with the mutex released,
    and every write it makes to an attribute of the Script entity happens
    between the acquisition and the release of [script.mutex]. *)
Theorem script_written_under_mutex (w : World) (flag : bool) (value : pyval)
    (Sized : bool) (now : string)
    (globalOverrides : list (string * override)) :
  mutexHeld w = false ->
  Forall (fun handler : M unit =>
            mutexHeld (handler w).2 = false /\
            assigns_guarded false (events handler w))
    [onStartScript; onPauseScript flag; onStopScript; onRepeat flag;
     onStopScriptAndScan; onPauseScriptAndScan;
     onData value; onAllData value; onAnalysisResult value;
     onStartScan_slot Sized now globalOverrides; onStopScan_slot;
     onAbortScan_slot; onPauseScan_slot; onStopScriptFromScript_slot].
Proof.
  intros Hm. destruct w as [[] h u m ws l]. simpl in Hm. subst m.
  destruct flag, isRunning0;
    repeat (apply Forall_cons; split); try apply Forall_nil; split;
    unfold assigns_guarded, onStartScript, onPauseScript, onStopScript,
      onRepeat, onStopScriptAndScan, onPauseScriptAndScan, onData, onAllData,
      onAnalysisResult, onStartScan_slot, onStopScan_slot, onAbortScan_slot,
      onPauseScan_slot, onStopScriptFromScript_slot, onStartScan, onStopScan,
      onAbortScan, onPauseScan, onStopScriptFromScript, onPauseScript,
      onStopScript;
    try match goal with
        | |- context [myGlobalOverrides ?a ?b] =>
            destruct (myGlobalOverrides a b)
        end;
    cbn [negb]; evaluate; simpl; fields; try reflexivity;
    rewrite <- ?app_assoc, ?drop_app_length, ?drop_all; reflexivity.
Qed.
End MutexProperties.

Section GenericCallProperties.
Context `{Runtime}.
Local Open Scope monad_scope.

(** X21.  A script that reads a global through a generic call of [getGlobal]
    finds the quantity of the global in [genericResult] and is released
    from [genericWait] once; the request changes neither the globals nor
    the handler, and leaves [script.exception] as it was. *)
Theorem getGlobal_read_by_script (w : World) (name : string) (q : quantity)
    (t : thread) :
  globalDict (ui w) !! name = Some q ->
  (t, genericWait) ∈ waiters w ->
  let w' := (onGenericCall_slot "getGlobal" [PStr name] [] w).2 in
  genericResult (script w') = PQuantity q /\
  ((t, genericWait) ∉ waiters w') /\
  wakeups t genericWait
    (events (onGenericCall_slot "getGlobal" [PStr name] []) w) = 1 /\
  exception (script w') = exception (script w) /\
  ui w' = ui w /\ self w' = self w.
Proof.
  intros Hg Hin.
  assert (Hw : t ∈ waiting_on genericWait (waiters w))
    by now apply elem_of_waiting_on.
  unfold events, onGenericCall_slot, onGenericCall, getattr_call, getGlobal.
  run. rewrite Hg. simpl. fields.
  split; [reflexivity|]. split.
  - rewrite !list_elem_of_filter. simpl. tauto.
  - split; [|repeat split].
    rewrite <- !app_assoc, drop_app_length. simpl.
    rewrite decide_True by done. reflexivity.
Qed.
End GenericCallProperties.

(** * Further properties of the instrument adapters *)

Section MoreAdapterProperties.
Context `{Pint}.

Lemma dict_get_missing {V : Type} (d : list (string * V)) (key : string) :
  ~ has_key d key -> dict_get d key = Raise (KeyError key).
Proof.
  unfold has_key. induction d as [|[k v] d IH]; intros Hn; [reflexivity|].
  simpl. rewrite fmap_cons, not_elem_of_cons in Hn. destruct Hn as [Hk Hd].
  destruct (decide (k = key)) as [->|_]; [now contradiction Hk|].
  now apply IH.
Qed.

(** X22.  A channel the adapter does not know.  The DS345, the laser lock,
    the RF controller and SANA raise [KeyError] before any conversion
    and any vendor call.  The DC controller converts the quantity to
    volts first: it raises [KeyError] when the conversion succeeds, and
    the exception of the conversion otherwise, in both cases before
    printing or calling.  The oven controller returns the quantity as if
    it had been set, without any vendor call. *)
Theorem setValue_unknown_channel (name channel : string) (v : quantity) :
  (~ has_key DS345_outputLookup channel ->
   setValue SRS_DS345_FunctionGenerator channel v
   = ([], Raise (KeyError channel))) /\
  (~ has_key LaserFreqPID_outputLookup channel ->
   setValue (LaserFreqPID name) channel v = ([], Raise (KeyError channel))) /\
  (~ has_key RF_outputLookup channel ->
   setValue RFController channel v = ([], Raise (KeyError channel))) /\
  (~ has_key SANA_outputLookup channel ->
   setValue SANAControl channel v = ([], Raise (KeyError channel))) /\
  (channel <> "Enable Remote Control" ->
   ~ has_key DC_outputLookup channel ->
   setValue DCVoltageControl channel v
   = ([], Raise (match m_as v "V" with
                 | Ok _ => KeyError channel
                 | Raise e => e
                 end))) /\
  (channel <> "Oven current set" -> channel <> "Oven voltage set" ->
   setValue FourRodOvenControl channel v = ([], Ok v)).
Proof.
  split; [|split; [|split; [|split; [|split]]]]; simpl.
  - intros Hn. unfold DS345_setValue. now rewrite dict_get_missing.
  - intros Hn. unfold LaserFreqPID_setValue. now rewrite dict_get_missing.
  - intros Hn. unfold RF_setValue. now rewrite dict_get_missing.
  - intros Hn. unfold SANA_setValue. now rewrite dict_get_missing.
  - intros He Hn. unfold DC_setValue.
    destruct (decide (channel = "Enable Remote Control")); [contradiction|].
    destruct (m_as v "V"); [|reflexivity]. now rewrite dict_get_missing.
  - intros Hc Hv. unfold Oven_setValue, Oven_set.
    destruct (decide (channel = "Oven current set")); [contradiction|].
    destruct (decide (channel = "Oven voltage set")); [contradiction|].
    reflexivity.
Qed.

(** X23.  Writing back what was read.  When converting a quantity to its own
    unit gives its magnitude, the quantity that [getValue] returns for a
    channel of the DS345, of SANA or of the oven controller, given to
    [setValue] for the same channel, hands the vendor client the very
    number that was read; for the oven, that is for the two channels
    that can be set, and the reading and status channels make no call. *)
Theorem read_value_written_back (channel : string) (reading : float)
    (oven_data : list (string * float)) (q : quantity) :
  m_as_own_unit ->
  ((DS345_getExternalValue channel reading).2 = Ok q ->
   vendor_values (setValue SRS_DS345_FunctionGenerator channel q).1
   = [AFloat reading]) /\
  ((SANA_getExternalValue channel reading).2 = Ok q ->
   vendor_values (setValue SANAControl channel q).1 = [AFloat reading]) /\
  ((Oven_getExternalValue channel oven_data).2 = Ok q ->
   vendor_values (setValue FourRodOvenControl channel q).1
   = if bool_decide (channel = "Oven current set"
                     \/ channel = "Oven voltage set")
     then [AFloat (q_m q)] else []).
Proof.
  intros Hlaw. split; [|split]; simpl.
  - unfold DS345_getExternalValue, DS345_getValue, DS345_setValue.
    destruct (dict_get DS345_outputLookup channel) as [[f u]|e]; simpl;
      [|discriminate].
    intros [= <-]. now rewrite Hlaw.
  - unfold SANA_getExternalValue, SANA_setValue.
    destruct (dict_get SANA_outputLookup channel) as [c|e]; simpl;
      [|discriminate].
    intros [= <-]. now rewrite Hlaw.
  - unfold Oven_getExternalValue, Oven_getValue, Oven_setValue, Oven_set.
    destruct (dict_get Oven_outputLookup channel) as [[u k]|e] eqn:Hl;
      [|discriminate].
    destruct (dict_get oven_data k) as [x|e]; [|discriminate].
    simpl. intros [= <-].
    destruct (decide (channel = "Oven current set")) as [->|Hc].
    + simpl in Hl. injection Hl as <- <-. rewrite Hlaw. reflexivity.
    + destruct (decide (channel = "Oven voltage set")) as [->|Hv].
      * simpl in Hl. injection Hl as <- <-. rewrite Hlaw. reflexivity.
      * rewrite bool_decide_eq_false_2 by tauto. reflexivity.
Qed.
End MoreAdapterProperties.

(** * Properties of the server process *)

Section ServerProcessProperties.
Context {attrs argument value : Type}.
Variable class_name : string.
Variable getattr : string -> option (method attrs value argument value).
Variable readDataFifo : method attrs value unit unit.
Variable send_fails : Res value -> option exn.

Notation loop :=
  (loop attrs argument value class_name getattr readDataFifo send_fails).
Notation serve := (serve attrs argument value class_name getattr send_fails).
Notation run :=
  (ServerProcess_run attrs argument value class_name getattr readDataFifo
     send_fails).
Notation answers := (answers attrs argument value class_name getattr send_fails).
Notation stays_running := (stays_running attrs argument value getattr).
Notation send := (send value send_fails).

Lemma sent_app (l1 l2 : list (server_event value)) :
  sent value (l1 ++ l2) = sent value l1 ++ sent value l2.
Proof. apply omap_app. Qed.

Lemma sent_puts (items : list value) : sent value (puts value items) = [].
Proof. induction items as [|v items IH]; [reflexivity | exact IH]. Qed.

Lemma data_queue_app (l1 l2 : list (server_event value)) :
  data_queue value (l1 ++ l2) = data_queue value l1 ++ data_queue value l2.
Proof. apply omap_app. Qed.

Lemma data_queue_puts (items : list value) :
  data_queue value (puts value items) = Data <$> items.
Proof.
  induction items as [|v items IH]; [reflexivity|].
  change (Data v :: data_queue value (puts value items)
          = Data v :: (Data <$> items)).
  now rewrite IH.
Qed.

(** [send] puts nothing on the data queue and closes nothing. *)
Lemma send_data (x : Res value) :
  data_queue value (send x).1 = [] /\
  Forall (fun e => e ∉ close_queues value) (send x).1.
Proof.
  unfold send. destruct (send_fails x); simpl; split; try reflexivity.
  - constructor.
  - constructor; [unfold close_queues; set_solver | constructor].
Qed.

(** When an exception object can always be sent, [send] of one puts it
    on the pipe. *)
Lemma send_exception (e : exn) :
  send_fails (Raise e) = None -> send (Raise e) = ([PipeSend (Raise e)], None).
Proof. intros Hs. unfold send. now rewrite Hs. Qed.

(** What one message is answered with, when an exception object can
    always be sent: no exception leaves the [try]. *)
Lemma serve_sent (t : tick argument) (self : ServerProcess attrs) :
  (forall e, send_fails (Raise e) = None) ->
  (serve t self).1.2 = None /\
  if is_message argument t
  then exists answer, sent value (serve t self).1.1 = [answer] /\ answers t answer
  else sent value (serve t self).1.1 = [].
Proof.
  intros Hs. destruct t as [|commandstring a|e]; simpl.
  - split; reflexivity.
  - destruct (getattr commandstring) as [command|] eqn:Hg.
    + destruct (command a self) as [[items answer] self'] eqn:Hc.
      assert (Ha : exists self0,
                 answer_for value send_fails answer
                 = answer_for value send_fails (command a self0).1.2)
        by (exists self; now rewrite Hc).
      destruct answer as [v|e]; simpl in *.
      * destruct (send_fails (Ok v)) as [e1|] eqn:Hv; simpl.
        -- rewrite send_exception by apply Hs. simpl. split; [reflexivity|].
           exists (Raise e1). rewrite sent_app, sent_puts.
           split; [reflexivity | exact Ha].
        -- split; [reflexivity|]. exists (Ok v). rewrite sent_app, sent_puts.
           split; [reflexivity | exact Ha].
      * rewrite send_exception by apply Hs. simpl. split; [reflexivity|].
        exists (Raise e). rewrite sent_app, sent_puts.
        split; [reflexivity | exact Ha].
    + rewrite send_exception by apply Hs. simpl. split; [reflexivity|].
      eexists. split; reflexivity.
  - rewrite send_exception by apply Hs. simpl. split; [reflexivity|].
    eexists. split; reflexivity.
Qed.

(** Serving a message leaves [running] set when the method does. *)
Lemma serve_running (t : tick argument) (self : ServerProcess attrs) :
  stays_running t -> running self = true -> running (serve t self).2 = true.
Proof.
  intros Ht Hr. destruct t as [|commandstring a|e]; simpl; try exact Hr.
  destruct (getattr commandstring) as [command|] eqn:Hg; [|exact Hr].
  specialize (Ht command self Hg Hr).
  destruct (command a self) as [[items answer] self']. simpl in Ht.
  destruct answer as [v|e]; simpl.
  - destruct (send_fails (Ok v)); [|exact Ht].
    destruct (send (Raise e)). exact Ht.
  - destruct (send (Raise e)). exact Ht.
Qed.

(** Serving a message puts only the method's data on the data queue, and
    closes nothing. *)
Lemma serve_data (t : tick argument) (self : ServerProcess attrs) :
  exists items,
    data_queue value (serve t self).1.1 = Data <$> items /\
    Forall (fun e => e ∉ close_queues value) (serve t self).1.1.
Proof.
  assert (Hputs : forall items,
             Forall (fun e => e ∉ close_queues value) (puts value items)).
  { intros items. apply Forall_fmap, Forall_forall. intros v _.
    unfold close_queues. simpl. set_solver. }
  assert (Hbefore : forall message items (x : Res value),
             data_queue value ((LogDebug message :: puts value items)
                               ++ (send x).1) = Data <$> items /\
             Forall (fun e => e ∉ close_queues value)
               ((LogDebug message :: puts value items) ++ (send x).1)).
  { intros message items x. destruct (send_data x) as [Hd Hc]. split.
    - change (data_queue value (puts value items ++ (send x).1)
              = Data <$> items).
      rewrite data_queue_app, data_queue_puts, Hd. apply app_nil_r.
    - apply Forall_app. split; [|exact Hc].
      constructor; [unfold close_queues; set_solver | apply Hputs]. }
  destruct t as [|commandstring a|e]; simpl.
  - exists []. split; [reflexivity | constructor].
  - destruct (getattr commandstring) as [command|].
    + destruct (command a self) as [[items answer] self'].
      exists items. destruct answer as [v|e]; simpl.
      * destruct (send_fails (Ok v)) as [e1|] eqn:Hv; simpl.
        -- specialize (Hbefore ("ProcessServer " +:+ commandstring) items
                         (Raise e1)).
           destruct (send (Raise e1)). exact Hbefore.
        -- specialize (Hbefore ("ProcessServer " +:+ commandstring) items
                         (Ok v)).
           unfold send in Hbefore. rewrite Hv in Hbefore. exact Hbefore.
      * specialize (Hbefore ("ProcessServer " +:+ commandstring) items
                       (Raise e)).
        destruct (send (Raise e)). exact Hbefore.
    + exists []. apply send_data.
  - exists []. apply send_data.
Qed.

Lemma loop_data (ticks : list (tick argument)) (self : ServerProcess attrs) :
  exists items,
    data_queue value (loop ticks self).1.1 = Data <$> items /\
    Forall (fun e => e ∉ close_queues value) (loop ticks self).1.1.
Proof.
  revert self. induction ticks as [|t ticks IH]; intros self; simpl;
    destruct (running self); try (exists []; split; [reflexivity|constructor]).
  destruct (serve_data t self) as (i1 & Hd1 & Hc1).
  destruct (serve t self) as [[served failed] self1]. simpl in Hd1, Hc1.
  destruct failed as [e|]; [exists i1; split; assumption|].
  destruct (readDataFifo tt self1) as [[i2 r] self2].
  assert (Hc2 : Forall (fun e => e ∉ close_queues value) (puts value i2)).
  { apply Forall_fmap, Forall_forall. intros v _.
    unfold close_queues. simpl. set_solver. }
  destruct r as [[]|e]; simpl.
  - destruct (IH self2) as (i3 & Hd3 & Hc3).
    destruct (loop ticks self2) as [[rest how] self3]. simpl in *.
    exists (i1 ++ i2 ++ i3). split.
    + now rewrite !data_queue_app, data_queue_puts, Hd1, Hd3, !fmap_app.
    + now rewrite !Forall_app.
  - exists (i1 ++ i2). split.
    + now rewrite data_queue_app, data_queue_puts, Hd1, fmap_app.
    + now rewrite Forall_app.
Qed.


(** X25.  When [run] returns, the last things it did are closing
    the data queue, putting [None] on the logging queue and closing it,
    and it closed nothing before.  [FinishException] is put on the data
    queue exactly when the loop ended because [running] was false: it is
    then the last item of the queue, and the object has [running] false.
    When an exception left the loop, or while the server is still in the
    loop, the data queue holds data only. *)
Theorem run_shutdown (ticks : list (tick argument))
    (self : ServerProcess attrs) :
  let events := (run ticks self).1 in
  let returned := (run ticks self).2 in
  exists (before : list (server_event value)) (items : list value),
    Forall (fun e => e ∉ close_queues value) before /\
    match (loop ticks self).1.2 with
    | Finished =>
        events = before ++ close_queues value /\
        data_queue value events = (Data <$> items) ++ [FinishException] /\
        running <$> returned = Some false
    | Failed e =>
        events = before ++ close_queues value /\
        data_queue value events = Data <$> items /\
        is_Some returned
    | Polling =>
        events = before /\
        data_queue value events = Data <$> items /\
        returned = None
    end.
Proof.
  assert (Hfin : forall ticks self,
             (loop ticks self).1.2 = Finished ->
             running (loop ticks self).2 = false).
  { clear. intros ticks. induction ticks as [|t ticks IH]; intros self; simpl;
      destruct (running self) eqn:Hr; simpl; try discriminate; auto.
    destruct (serve t self) as [[served failed] self1].
    destruct failed as [e|]; [discriminate|].
    destruct (readDataFifo tt self1) as [[items r] self2].
    destruct r as [[]|e]; simpl; [|discriminate].
    specialize (IH self2).
    destruct (loop ticks self2) as [[rest how] self3]. exact IH. }
  simpl. destruct (loop_data ticks self) as (items & Hd & Hc).
  specialize (Hfin ticks self). unfold ServerProcess_run.
  destruct (loop ticks self) as [[looped how] self']. simpl in *.
  destruct how as [|e|]; simpl.
  - exists (ConfigureServerLogging :: looped
            ++ [DataPut FinishException;
                LogInfo "Pulser Hardware Server Process finished."]), items.
    split; [|split; [|split]].
    + constructor; [unfold close_queues; set_solver|].
      apply Forall_app. split; [exact Hc|].
      repeat constructor; unfold close_queues; set_solver.
    + cbn [app]. now rewrite <- app_assoc.
    + change (data_queue value
                (looped ++ [DataPut FinishException;
                            LogInfo "Pulser Hardware Server Process finished."]
                        ++ close_queues value)
              = (Data <$> items) ++ [FinishException]).
      now rewrite data_queue_app, Hd.
    + now rewrite Hfin.
  - exists (ConfigureServerLogging :: looped
            ++ [LogError ("Pulser Hardware Server Process exception "
                          +:+ exn_str e)]), items.
    split; [|split; [|split]].
    + constructor; [unfold close_queues; set_solver|].
      apply Forall_app. split; [exact Hc|].
      repeat constructor; unfold close_queues; set_solver.
    + cbn [app]. now rewrite <- app_assoc.
    + change (data_queue value
                (looped ++ [LogError ("Pulser Hardware Server Process exception "
                                      +:+ exn_str e)]
                        ++ close_queues value)
              = Data <$> items).
      rewrite data_queue_app, Hd. apply app_nil_r.
    + eexists. reflexivity.
  - exists (ConfigureServerLogging :: looped), items.
    split; [|split; [|split]].
    + constructor; [unfold close_queues; set_solver | exact Hc].
    + reflexivity.
    + exact Hd.
    + reflexivity.
Qed.

(** X26.  Once the loop has ended, by [running] found false or by
    an exception, the server reads nothing more: whatever arrives on the
    pipe afterwards, [run] has done the same and left the same object. *)
Theorem nothing_served_after_stop (ticks more : list (tick argument))
    (self : ServerProcess attrs) :
  (loop ticks self).1.2 <> Polling ->
  run (ticks ++ more) self = run ticks self.
Proof.
  intros Hend.
  assert (Hl : loop (ticks ++ more) self = loop ticks self).
  { revert self Hend. induction ticks as [|t ticks IH]; intros self Hend.
    - simpl in *. destruct (running self) eqn:Hr; [contradiction|].
      destruct more; simpl; now rewrite Hr.
    - simpl in *. destruct (running self); [|reflexivity].
      destruct (serve t self) as [[served failed] self1].
      destruct failed as [e|]; [reflexivity|].
      destruct (readDataFifo tt self1) as [[items r] self2].
      destruct r as [[]|e]; [|reflexivity].
      specialize (IH self2).
      destruct (loop ticks self2) as [[rest how] self3]. simpl in *.
      now rewrite IH. }
  unfold ServerProcess_run. now rewrite Hl.
Qed.
End ServerProcessProperties.

(** * The further properties at concrete inputs *)

Lemma onSetShutter_last_wins_witness :
  (0 <= 1)%Z /\
  (onSetShutter 1 false (onSetShutter 1 true idle).2).2
  = (onSetShutter 1 false idle).2.
Proof.
  assert (Hi : (0 <= 1)%Z) by lia.
  split; [exact Hi | exact (onSetShutter_last_wins idle 1 true false Hi)].
Defined.

Lemma onSetShutter_commutes_witness :
  (0 <= 1)%Z /\ (0 <= 3)%Z /\ 1%Z <> 3%Z /\
  (onSetShutter 3 true (onSetShutter 1 true idle).2).2
  = (onSetShutter 1 true (onSetShutter 3 true idle).2).2.
Proof.
  assert (Hi : (0 <= 1)%Z) by lia.
  assert (Hj : (0 <= 3)%Z) by lia.
  assert (Hn : 1%Z <> 3%Z) by lia.
  split; [exact Hi|]. split; [exact Hj|]. split; [exact Hn|].
  exact (onSetShutter_commutes idle 1 3 true true Hi Hj Hn).
Defined.

Lemma onSetShutter_same_value_witness :
  (0 <= 2)%Z /\
  (getShutter 2 idle).1 = Ok true /\
  (onSetShutter 2 true idle).2 = idle.
Proof.
  assert (Hi : (0 <= 2)%Z) by lia.
  assert (Hg : (getShutter 2 idle).1 = Ok true) by reflexivity.
  split; [exact Hi|]. split; [exact Hg|].
  exact (onSetShutter_same_value idle 2 true Hi Hg).
Defined.

Lemma shutter_written_then_read_witness :
  (0 <= 1)%Z /\
  let w1 := (onSetShutter_slot 1 true idle).2 in
  let w2 := (onGenericCall_slot "getShutter" [PInt 1] [] w1).2 in
  genericResult (script w2) = PBool true /\
  exception (script w2) = exception (script idle) /\
  shutter (ui w2) = shutter (ui w1).
Proof.
  assert (Hi : (0 <= 1)%Z) by lia.
  split; [exact Hi | exact (shutter_written_then_read idle 1 true Hi)].
Defined.

Lemma onSetShutter_negative_index_witness :
  (-1 < 0)%Z /\
  onSetShutter (-1) true idle = (Raise negative_shift, idle) /\
  let w' := (onSetShutter_slot (-1) true idle).2 in
  exception (script w') = Some negative_shift /\
  ui w' = ui idle /\ self w' = self idle /\
  waiting_on guiWait (waiters w') = [].
Proof.
  assert (Hi : (-1 < 0)%Z) by lia.
  split; [exact Hi | exact (onSetShutter_negative_index idle (-1) true Hi)].
Defined.

Lemma scriptCommand_outcomes_witness :
  onSetShutter 1 true idle
  = (Ok (false, Some "Set shutter 1 to True"), (onSetShutter 1 true idle).2) /\
  "Set shutter 1 to True" <> EmptyString /\
  exception (script (scriptCommand (onSetShutter 1 true) idle).2)
  = exception (script (onSetShutter 1 true idle).2) /\
  onCloseTrace "ghost" idle
  = (Ok (true, Some "Trace ghost does not exist"), idle) /\
  "Trace ghost does not exist" <> EmptyString /\
  exception (script (scriptCommand (onCloseTrace "ghost") idle).2)
  = Some (ScriptException "Trace ghost does not exist") /\
  onSetShutter (-1) true idle = (Raise negative_shift, idle) /\
  exception (script (scriptCommand (onSetShutter (-1) true) idle).2)
  = Some negative_shift /\
  waiting_on dataWait (waiters (scriptCommand (onSetShutter 1 true) blocked).2)
  = waiting_on dataWait (waiters (onSetShutter 1 true blocked).2).
Proof.
  assert (H1 : onSetShutter 1 true idle
               = (Ok (false, Some "Set shutter 1 to True"),
                  (onSetShutter 1 true idle).2)) by reflexivity.
  assert (N1 : "Set shutter 1 to True" <> EmptyString) by discriminate.
  assert (H2 : onCloseTrace "ghost" idle
               = (Ok (true, Some "Trace ghost does not exist"), idle))
    by reflexivity.
  assert (N2 : "Trace ghost does not exist" <> EmptyString) by discriminate.
  assert (H3 : onSetShutter (-1) true idle = (Raise negative_shift, idle))
    by reflexivity.
  assert (Nc : dataWait <> guiWait) by discriminate.
  destruct (scriptCommand_outcomes (onSetShutter 1 true) idle
              (onSetShutter 1 true idle).2) as (_ & _ & T1 & _).
  destruct (scriptCommand_outcomes (onCloseTrace "ghost") idle idle)
    as (_ & _ & _ & _ & T2 & _).
  destruct (scriptCommand_outcomes (onSetShutter (-1) true) idle idle)
    as (_ & _ & _ & _ & _ & _ & T3).
  destruct (scriptCommand_outcomes (onSetShutter 1 true) blocked blocked)
    as (_ & T4 & _).
  split; [exact H1|]. split; [exact N1|].
  split; [exact (proj1 (T1 _ H1 N1))|].
  split; [exact H2|]. split; [exact N2|].
  split; [exact (proj1 (T2 _ H2 N2))|].
  split; [exact H3|]. split; [exact (proj1 (T3 _ H3))|].
  exact (T4 dataWait Nc).
Defined.

Lemma with_trace_aligned : traces_aligned (self with_trace).
Proof.
  apply onCreateTrace_aligned. intros name t Hl. simpl in Hl.
  now rewrite odict_lookup_empty in Hl.
Qed.

Lemma trace_invariants_kept_witness :
  (traces_aligned (self with_trace) /\ traces_registered (self with_trace)) /\
  (let w' := (onPlotList_slot [1%Z; 2%Z] [3%Z; 4%Z] "trace1" false (-1)
                with_trace).2 in
   traces_aligned (self w') /\ traces_registered (self w')) /\
  (let w' := (onCloseTrace_slot "trace1" with_trace).2 in
   traces_aligned (self w') /\ traces_registered (self w')).
Proof.
  assert (Hinv : traces_aligned (self with_trace)
                 /\ traces_registered (self with_trace))
    by (split; [exact with_trace_aligned | exact with_trace_registered]).
  destruct (trace_invariants_kept with_trace Hinv) as (_ & T2 & T3 & _).
  split; [exact Hinv|].
  split; [exact (T3 ([1%Z; 2%Z] : list (@float Z_float)) [3%Z; 4%Z] "trace1"
                    false (-1)%Z)
         | exact (T2 "trace1")].
Defined.

Lemma plots_accumulate_witness :
  ("Scan Data" ∈ plotDict (ui idle)) /\
  Forall (fun b : list (@float Z_float) * list (@float Z_float) =>
            length b.1 = length b.2)
    [([1%Z], [2%Z]); ([3%Z; 4%Z], [5%Z; 6%Z])] /\
  exists t,
    scriptTraces
      (self (plot_all [([1%Z], [2%Z]); ([3%Z; 4%Z], [5%Z; 6%Z])] "trace1"
               (onCreateTrace_slot ["trace1"; "Scan Data"; "s"; "time"; "first"]
                  idle).2)) !! "trace1" = Some t /\
    tr_x t = [1%Z; 3%Z; 4%Z] /\ tr_y t = [2%Z; 5%Z; 6%Z].
Proof.
  assert (Hp : "Scan Data" ∈ plotDict (ui idle))
    by (simpl; apply elem_of_singleton; reflexivity).
  assert (Hb : Forall (fun b : list (@float Z_float) * list (@float Z_float) =>
                         length b.1 = length b.2)
                 [([1%Z], [2%Z]); ([3%Z; 4%Z], [5%Z; 6%Z])])
    by (repeat constructor).
  split; [exact Hp|]. split; [exact Hb|].
  exact (plots_accumulate idle "trace1" "Scan Data" "s" "time" "first" _ Hp Hb).
Defined.

Lemma plot_overwrite_replaces_witness :
  is_Some (scriptTraces (self with_trace) !! "trace1") /\
  is_Some (traceAlreadyCreated (self with_trace) !! "trace1") /\
  length [1%Z; 2%Z] = length [3%Z; 4%Z] /\
  exists t,
    scriptTraces
      (self (onPlotList_slot [1%Z; 2%Z] [3%Z; 4%Z] "trace1" true (-1)
               with_trace).2) !! "trace1" = Some t /\
    tr_x t = [1%Z; 2%Z] /\ tr_y t = [3%Z; 4%Z].
Proof.
  assert (Ht : is_Some (scriptTraces (self with_trace) !! "trace1"))
    by (eexists; vm_compute; reflexivity).
  assert (Hc : is_Some (traceAlreadyCreated (self with_trace) !! "trace1"))
    by (eexists; vm_compute; reflexivity).
  assert (Hl : length [1%Z; 2%Z] = length [3%Z; 4%Z]) by reflexivity.
  destruct (plot_overwrite_replaces with_trace "trace1"
              ([1%Z; 2%Z] : list (@float Z_float)) [3%Z; 4%Z] (-1)%Z Ht Hc Hl)
    as (t & T1 & T2 & T3 & _).
  split; [exact Ht|]. split; [exact Hc|]. split; [exact Hl|].
  exists t. split; [exact T1|]. split; [exact T2 | exact T3].
Defined.

Lemma onCreateTrace_refuses_witness :
  ("Histogram" ∉ plotDict (ui idle)) /\
  rejects (onCreateTrace ["trace1"; "Histogram"; "s"; "time"; "first"])
    "plot Histogram does not exist" idle /\
  length ["trace1"; "Scan Data"] <> 5 /\
  exists e,
    exn_class e = "ValueError" /\
    onCreateTrace ["trace1"; "Scan Data"] idle = (Raise e, idle).
Proof.
  assert (Hp : "Histogram" ∉ plotDict (ui idle)).
  { simpl. intros Hin. apply elem_of_singleton in Hin. discriminate Hin. }
  assert (Hl : length ["trace1"; "Scan Data"] <> 5) by (simpl; lia).
  destruct (onCreateTrace_refuses idle
              ["trace1"; "Histogram"; "s"; "time"; "first"]) as (T1 & _).
  destruct (onCreateTrace_refuses idle ["trace1"; "Scan Data"]) as (_ & T2).
  destruct (T2 Hl) as (e & Tc & Te & _).
  split; [exact Hp|].
  split; [exact (T1 "trace1" "Histogram" "s" "time" "first" eq_refl Hp)|].
  split; [exact Hl|]. exists e. split; [exact Tc | exact Te].
Defined.

Lemma onCloseTrace_lifecycle_witness :
  exists t,
    scriptTraces (self with_trace) !! "trace1" = Some t /\
    let w' := (onCloseTrace_slot "trace1" with_trace).2 in
    scriptTraces (self w') = delete "trace1" (scriptTraces (self with_trace)) /\
    exception (script w') = exception (script with_trace) /\
    rejects (onCloseTrace "trace1") "Trace trace1 does not exist" w'.
Proof.
  assert (Ht : is_Some (scriptTraces (self with_trace) !! "trace1"))
    by (eexists; vm_compute; reflexivity).
  destruct Ht as [t Ht].
  destruct (onCloseTrace_lifecycle with_trace "trace1" t Ht)
    as (T1 & _ & T3 & _ & T5 & _).
  exists t. split; [exact Ht|]. split; [exact T1|]. split; [exact T3 | exact T5].
Defined.

Lemma onStartScript_resets_witness :
  isRunning (script idle) = false /\
  isRunning (script (onStartScript idle).2) = true /\
  exception (script (onStartScript idle).2) = None /\
  namedTraceList (self (onStartScript idle).2) = ∅ /\
  onStartScript (onStartScript idle).2 = (Ok tt, (onStartScript idle).2).
Proof.
  assert (Hi : isRunning (script idle) = false) by reflexivity.
  destruct (onStartScript_resets idle) as (_ & T).
  destruct (T Hi) as (_ & _ & _ & T3 & T4 & _ & T6 & _).
  destruct (onStartScript_resets (onStartScript idle).2) as (T' & _).
  split; [exact Hi|]. split; [exact T4|]. split; [exact T3|].
  split; [exact T6 | exact (T' T4)].
Defined.

Lemma onPauseScript_wakes_witness :
  dataWait <> pauseWait /\
  waiting_on dataWait (waiters (onPauseScript false blocked).2)
  = waiting_on dataWait (waiters blocked).
Proof.
  assert (Hc : dataWait <> pauseWait) by discriminate.
  destruct (onPauseScript_wakes blocked false) as (_ & _ & _ & _ & T & _).
  split; [exact Hc | exact (T dataWait Hc)].
Defined.

Lemma awg_requests_validated_witness :
  ({[ "AWG1" := ["ramp"] ]} : gmap string (list string)) !! "AWG2" = None /\
  rejects (onProgramAWG {[ "AWG1" := ["ramp"] ]} "AWG2")
    "AWG AWG2 does not exist" idle /\
  ({[ "AWG1" := ["ramp"] ]} : gmap string (list string)) !! "AWG1"
  = Some ["ramp"] /\
  ("step" ∉ ["ramp"]) /\
  rejects (onSetAWG {[ "AWG1" := ["ramp"] ]} "AWG1" "step")
    "AWG AWG1 settings step does not exist." idle.
Proof.
  assert (Hn : ({[ "AWG1" := ["ramp"] ]} : gmap string (list string))
               !! "AWG2" = None) by reflexivity.
  assert (Hs : ({[ "AWG1" := ["ramp"] ]} : gmap string (list string))
               !! "AWG1" = Some ["ramp"]) by reflexivity.
  assert (Hm : "step" ∉ ["ramp"]).
  { intros Hin. apply list_elem_of_singleton in Hin. discriminate Hin. }
  destruct (awg_requests_validated idle {[ "AWG1" := ["ramp"] ]} "AWG2" "ramp")
    as (T1 & _).
  destruct (awg_requests_validated idle {[ "AWG1" := ["ramp"] ]} "AWG1" "step")
    as (_ & T2).
  split; [exact Hn|]. split; [exact (proj2 (T1 Hn))|].
  split; [exact Hs|]. split; [exact Hm|].
  exact (proj1 (T2 _ Hs) Hm).
Defined.

Lemma namedTraceList_collects_witness :
  isRunning (script idle) = false /\
  forall topNode,
    topNode ∈ namedTraceList
                (self (push_all [("Ca", "counts", 0%Z, 1%Z, "y", false);
                                 ("Yb", "counts", 1%Z, 2%Z, "y", true)]
                         (onStartScript idle).2))
    <-> topNode ∈ ["Ca"; "Yb"].
Proof.
  assert (Hi : isRunning (script idle) = false) by reflexivity.
  split; [exact Hi|].
  exact (namedTraceList_collects idle
           ([("Ca", "counts", 0%Z, 1%Z, "y", false);
             ("Yb", "counts", 1%Z, 2%Z, "y", true)]
            : list (string * string * Z * @float Z_float * string * bool)) Hi).
Defined.

Lemma script_written_under_mutex_witness :
  mutexHeld idle = false /\
  mutexHeld (onStopScript idle).2 = false /\
  assigns_guarded false (events onStopScript idle).
Proof.
  assert (Hm : mutexHeld idle = false) by reflexivity.
  pose proof (script_written_under_mutex idle true (PObject 1) false "12:00"
                [] Hm) as T.
  apply Forall_cons in T as (_ & T). apply Forall_cons in T as (_ & T).
  apply Forall_cons in T as (T & _).
  split; [exact Hm | exact T].
Defined.

Lemma getGlobal_read_by_script_witness :
  globalDict (ui blocked) !! "Detuning" = Some (Q 5%Z "MHz") /\
  (3, genericWait) ∈ waiters blocked /\
  let w' := (onGenericCall_slot "getGlobal" [PStr "Detuning"] [] blocked).2 in
  genericResult (script w') = PQuantity (Q 5%Z "MHz") /\
  ((3, genericWait) ∉ waiters w') /\
  wakeups 3 genericWait
    (events (onGenericCall_slot "getGlobal" [PStr "Detuning"] []) blocked) = 1 /\
  exception (script w') = exception (script blocked) /\
  ui w' = ui blocked /\ self w' = self blocked.
Proof.
  assert (Hg : globalDict (ui blocked) !! "Detuning"
               = Some (@Q Z_float 5%Z "MHz")) by reflexivity.
  assert (Hw : (3, genericWait) ∈ waiters blocked).
  { simpl. do 2 apply list_elem_of_further. apply list_elem_of_here. }
  split; [exact Hg|]. split; [exact Hw|].
  exact (getGlobal_read_by_script blocked "Detuning" (@Q Z_float 5%Z "MHz") 3
           Hg Hw).
Defined.

Ltac no_key :=
  unfold has_key; simpl; intros Hin;
  repeat (apply elem_of_cons in Hin as [Hin|Hin]; [discriminate Hin|]);
  now apply elem_of_nil in Hin.

Lemma setValue_unknown_channel_witness :
  ~ has_key DS345_outputLookup "Phase" /\
  setValue SRS_DS345_FunctionGenerator "Phase" (Q 1%Z "V")
  = ([], Raise (KeyError "Phase")) /\
  "Phase" <> "Enable Remote Control" /\
  ~ has_key DC_outputLookup "Phase" /\
  setValue DCVoltageControl "Phase" (Q 1%Z "V")
  = ([], Raise (KeyError "Phase")) /\
  setValue DCVoltageControl "Phase" (Q 1%Z "Hz")
  = ([], Raise (DimensionalityError "Hz" "V")) /\
  "Phase" <> "Oven current set" /\ "Phase" <> "Oven voltage set" /\
  setValue FourRodOvenControl "Phase" (Q 1%Z "V") = ([], Ok (Q 1%Z "V")).
Proof.
  assert (H1 : ~ has_key DS345_outputLookup "Phase") by no_key.
  assert (H2 : "Phase" <> "Enable Remote Control") by discriminate.
  assert (H3 : ~ has_key DC_outputLookup "Phase") by no_key.
  assert (H4 : "Phase" <> "Oven current set") by discriminate.
  assert (H5 : "Phase" <> "Oven voltage set") by discriminate.
  destruct (setValue_unknown_channel "pid" "Phase" (@Q Z_float 1%Z "V"))
    as (T1 & _ & _ & _ & T5 & T6).
  destruct (setValue_unknown_channel "pid" "Phase" (@Q Z_float 1%Z "Hz"))
    as (_ & _ & _ & _ & E5 & _).
  split; [exact H1|]. split; [exact (T1 H1)|]. split; [exact H2|].
  split; [exact H3|]. split; [exact (T5 H2 H3)|]. split; [exact (E5 H2 H3)|].
  split; [exact H4|].
  split; [exact H5 | exact (T6 H4 H5)].
Defined.

Lemma Z_pint_own_unit : @m_as_own_unit Z_float Z_pint.
Proof.
  intros x unit. simpl. unfold compatible.
  rewrite bool_decide_eq_true_2 by reflexivity. simpl. f_equal.
  apply Z.div_mul. unfold hertz. repeat case_decide; lia.
Qed.

Lemma read_value_written_back_witness :
  @m_as_own_unit Z_float Z_pint /\
  (DS345_getExternalValue "Frequency" 1000%Z).2 = Ok (Q 1000%Z "Hz") /\
  vendor_values
    (setValue SRS_DS345_FunctionGenerator "Frequency" (Q 1000%Z "Hz")).1
  = [AFloat 1000%Z] /\
  (Oven_getExternalValue "Oven current set"
     [("current_set", 3%Z); ("voltage_set", 12%Z)]).2 = Ok (Q 3%Z "A") /\
  vendor_values (setValue FourRodOvenControl "Oven current set" (Q 3%Z "A")).1
  = [AFloat 3%Z].
Proof.
  assert (H1 : (DS345_getExternalValue "Frequency" 1000%Z).2
               = Ok (@Q Z_float 1000%Z "Hz")) by reflexivity.
  assert (H2 : (Oven_getExternalValue "Oven current set"
                  [("current_set", 3%Z); ("voltage_set", 12%Z)]).2
               = Ok (@Q Z_float 3%Z "A")) by reflexivity.
  destruct (read_value_written_back "Frequency" (1000%Z : @float Z_float)
              [] (@Q Z_float 1000%Z "Hz") Z_pint_own_unit) as (T1 & _).
  destruct (read_value_written_back "Oven current set" (3%Z : @float Z_float)
              [("current_set", 3%Z); ("voltage_set", 12%Z)]
              (@Q Z_float 3%Z "A") Z_pint_own_unit) as (_ & _ & T3).
  split; [exact Z_pint_own_unit|]. split; [exact H1|].
  split; [exact (T1 H1)|]. split; [exact H2 | exact (T3 H2)].
Defined.

Lemma counter_stays_running (t : tick Z) :
  (forall a, t <> Message "finish" a) -> stays_running Z Z Z counter_getattr t.
Proof.
  intros Hn. destruct t as [|commandstring a|e]; simpl; try exact I.
  intros command self Hg Hr. unfold counter_getattr in Hg.
  repeat case_decide; try discriminate; subst.
  - injection Hg as <-. exact Hr.
  - injection Hg as <-. exact Hr.
  - now contradiction (Hn a).
Qed.


Lemma nothing_served_after_stop_witness :
  (loop Z Z Z "Counter" counter_getattr counter_readDataFifo
     counter_send_fails
     [Message "add" 2%Z; Message "finish" 0%Z]
     (mkServerProcess true 0%Z)).1.2 <> Polling /\
  ServerProcess_run Z Z Z "Counter" counter_getattr counter_readDataFifo
    counter_send_fails
    ([Message "add" 2%Z; Message "finish" 0%Z] ++ [Message "add" 1%Z])
    (mkServerProcess true 0%Z)
  = ServerProcess_run Z Z Z "Counter" counter_getattr counter_readDataFifo
      counter_send_fails
      [Message "add" 2%Z; Message "finish" 0%Z] (mkServerProcess true 0%Z).
Proof.
  assert (He : (loop Z Z Z "Counter" counter_getattr counter_readDataFifo
                  counter_send_fails
                  [Message "add" 2%Z; Message "finish" 0%Z]
                  (mkServerProcess true 0%Z)).1.2 <> Polling)
    by (vm_compute; discriminate).
  split; [exact He|].
  exact (nothing_served_after_stop "Counter" counter_getattr
           counter_readDataFifo counter_send_fails
           [Message "add" 2%Z; Message "finish" 0%Z]
           [Message "add" 1%Z] (mkServerProcess true 0%Z) He).
Defined.

Lemma onFinished_closes_all_witness :
  let created :=
    (onCreateTrace_slot ["alpha"; "Scan Data"; "s"; "time"; "second"]
       (onCreateTrace_slot ["beta"; "Scan Data"; "s"; "time"; "first"]
          idle).2).2 in
  tr_name <$> dict_values (scriptTraces (self created)) = ["beta"; "alpha"] /\
  events onFinished created
  = [EvGui "traceCollection.save" "beta";
     EvGui "measurementLog.container.addMeasurement" "beta";
     EvGui "traceCollection.save" "alpha";
     EvGui "measurementLog.container.addMeasurement" "alpha";
     EvGui "namedTraceui.saveAndUpdateFileList" "namedTraceList"] /\
  scriptTraces (self (onFinished created).2) = ∅ /\
  ("Scan Data" ∈ plotDict (ui idle)) /\
  scriptTraces (self idle) !! "beta" = None /\
  exists t,
    tr_name t = "beta" /\
    dict_values
      (scriptTraces
         (self (onCreateTrace_slot ["beta"; "Scan Data"; "s"; "time"; "first"]
                  idle).2))
    = dict_values (scriptTraces (self idle)) ++ [t].
Proof.
  cbv zeta.
  assert (Hp : "Scan Data" ∈ plotDict (ui idle))
    by (simpl; apply elem_of_singleton; reflexivity).
  assert (Hn : scriptTraces (self idle) !! "beta" = None) by reflexivity.
  destruct (onFinished_closes_all
              (onCreateTrace_slot ["alpha"; "Scan Data"; "s"; "time"; "second"]
                 (onCreateTrace_slot ["beta"; "Scan Data"; "s"; "time"; "first"]
                    idle).2).2) as (_ & T2 & T3 & _).
  destruct (onFinished_closes_all idle) as (_ & _ & _ & _ & T5 & _).
  split; [vm_compute; reflexivity|]. split; [exact T3|].
  split; [exact T2|]. split; [exact Hp|]. split; [exact Hn|].
  exact (T5 "beta" "Scan Data" "s" "time" "first" Hp Hn).
Defined.

Lemma onStartScan_clears_flags_witness :
  myGlobalOverrides false [("Detuning", OvPair 5%Z "MHz")] = Raise no_Sized /\
  (let w' := (onStartScan_slot false "12:00"
                [("Detuning", OvPair 5%Z "MHz")] idle).2 in
   scanIsRunning (script w') = true /\
   exception (script w') = Some no_Sized /\
   events (onStartScan_slot false "12:00" [("Detuning", OvPair 5%Z "MHz")])
     idle
   = [EvLock; EvAssign "scanIsRunning"; EvAssign "analysisReady";
      EvAssign "dataReady"; EvAssign "allDataReady"; EvUnlock;
      EvLock; EvAssign "exception"; EvPrintExc; EvLog ERROR "None"; EvUnlock;
      EvWakeAll guiWait []]) /\
  myGlobalOverrides true [("Detuning", OvPair 5%Z "MHz")]
  = Ok [("Detuning", Q 5%Z "MHz")] /\
  (let w' := (onStartScan_slot true "12:00"
                [("Detuning", OvPair 5%Z "MHz")] idle).2 in
   scanIsRunning (script w') = true /\
   exception (script w') = exception (script idle)).
Proof.
  assert (Hf : myGlobalOverrides false
                 [("Detuning", @OvPair Z_float 5%Z "MHz")] = Raise no_Sized)
    by reflexivity.
  assert (Ht : myGlobalOverrides true
                 [("Detuning", @OvPair Z_float 5%Z "MHz")]
               = Ok [("Detuning", @Q Z_float 5%Z "MHz")])
    by reflexivity.
  destruct (onStartScan_clears_flags false idle "12:00"
              [("Detuning", @OvPair Z_float 5%Z "MHz")])
    as ((F1 & _) & _ & F3 & _).
  destruct (F3 _ Hf) as (F4 & F5).
  destruct (onStartScan_clears_flags true idle "12:00"
              [("Detuning", @OvPair Z_float 5%Z "MHz")])
    as ((T1 & _) & T2 & _).
  destruct (T2 _ Ht) as (_ & T3 & _).
  split; [exact Hf|]. split; [split; [exact F1 | split; [exact F4 | exact F5]]|].
  split; [exact Ht|]. split; [exact T1 | exact T3].
Defined.
